(** * Student support pipeline: a shallow embedding of [backend/funcs.py]

    The development models the feature-engineering and scoring pipeline of
    [backend/funcs.py] ([preprocess_data], [train_final_model],
    [create_ideal_profile], [generate_dashboard_data]) together with the
    part of pandas it relies on, and the two endpoints of
    [backend/main.py] that call it, and proves the properties of the
    specification, and further properties of the code, against it.

    Modelling choices.
    - A data frame is a row count (its index) and an ordered list of named
      columns; labels may repeat, as pandas allows.
    - A cell is an int64, a float, a string or the missing value NaN.
      int64 arithmetic wraps around; floats are modelled as exact rationals
      kept in lowest terms, so binary64 rounding and infinities are not
      part of the model.
    - Python exceptions are an error result.
    - Frames live in a store and variables hold references, so that
      [df.copy()] and in-place column assignment [df[c] = ...] are told
      apart.
    - What the repository takes from outside is a parameter: the files
      behind the three paths, the fitted model, the fitting routine, and
      Python's [str] of a number.

    Layout: the data model and the pandas operations; the four functions
    and the two endpoints, translated statement by statement; the tables
    the functions compute, as pure functions; the vocabulary of the
    properties and the example tables; then the lemmas that run the
    programs, and the properties. *)

From Stdlib Require Import List String Ascii ZArith QArith Qminmax Qround Qabs Lia Lqa
  Bool DecimalString Sorted.
Import ListNotations.
Set Default Proof Using "Type".
Local Open Scope string_scope.
Local Open Scope list_scope.

(** ** Exceptions *)

Inductive exn : Type :=
| KeyError (label : string)   (* a column label that is not in the frame *)
| TypeError                   (* an operation applied to the wrong kind of value *)
| ValueError                  (* an array whose length is not the frame's *)
| IOError.                    (* a file that cannot be loaded *)

Inductive result (A : Type) : Type :=
| Ok (a : A)
| Raise (e : exn).
Arguments Ok {A} a.
Arguments Raise {A} e.

Definition rbind {A B} (r : result A) (k : A -> result B) : result B :=
  match r with
  | Ok a => k a
  | Raise e => Raise e
  end.

Declare Scope result_scope.
Delimit Scope result_scope with res.
Notation "'do' x <- r ; k" := (rbind r (fun x => k))
  (at level 60, x name, r at next level, right associativity) : result_scope.
Local Open Scope result_scope.

Fixpoint mapR {A B} (f : A -> result B) (l : list A) : result (list B) :=
  match l with
  | [] => Ok []
  | x :: r => rbind (f x) (fun y => rbind (mapR f r) (fun ys => Ok (y :: ys)))
  end.

Fixpoint foldR {A B} (f : B -> A -> result B) (l : list A) (b : B) : result B :=
  match l with
  | [] => Ok b
  | x :: r => rbind (f b x) (foldR f r)
  end.

(** ** Cells *)

Inductive value : Type :=
| VInt (n : Z)
| VFloat (q : Q)
| VStr (s : string)
| VNaN.

Definition Series := list value.

(** numpy int64: results are reduced into [-2^63, 2^63). *)
Definition wrap64 (z : Z) : Z := ((z + 2 ^ 63) mod 2 ^ 64 - 2 ^ 63)%Z.

Definition fl (q : Q) : value := VFloat (Qred q).

(** Python's [s * n] for a string and an integer. *)
Fixpoint str_repeat (s : string) (n : nat) : string :=
  match n with
  | O => ""
  | S k => String.append s (str_repeat s k)
  end.

(** Elementwise [+].  A missing operand gives a missing result; two
    strings concatenate; a string and a number do not add. *)
Definition v_add (a b : value) : result value :=
  match a, b with
  | VNaN, _ | _, VNaN => Ok VNaN
  | VInt x, VInt y => Ok (VInt (wrap64 (x + y)))
  | VInt x, VFloat y => Ok (fl (inject_Z x + y))
  | VFloat x, VInt y => Ok (fl (x + inject_Z y))
  | VFloat x, VFloat y => Ok (fl (x + y))
  | VStr s, VStr t => Ok (VStr (String.append s t))
  | _, _ => Raise TypeError
  end.

(** Elementwise [-]; strings do not subtract. *)
Definition v_sub (a b : value) : result value :=
  match a, b with
  | VNaN, _ | _, VNaN => Ok VNaN
  | VInt x, VInt y => Ok (VInt (wrap64 (x - y)))
  | VInt x, VFloat y => Ok (fl (inject_Z x - y))
  | VFloat x, VInt y => Ok (fl (x - inject_Z y))
  | VFloat x, VFloat y => Ok (fl (x - y))
  | _, _ => Raise TypeError
  end.

(** Elementwise [*]; a string times an integer repeats the string. *)
Definition v_mul (a b : value) : result value :=
  match a, b with
  | VNaN, _ | _, VNaN => Ok VNaN
  | VInt x, VInt y => Ok (VInt (wrap64 (x * y)))
  | VInt x, VFloat y => Ok (fl (inject_Z x * y))
  | VFloat x, VInt y => Ok (fl (x * inject_Z y))
  | VFloat x, VFloat y => Ok (fl (x * y))
  | VStr s, VInt n | VInt n, VStr s => Ok (VStr (str_repeat s (Z.to_nat n)))
  | _, _ => Raise TypeError
  end.

(** [abs]. *)
Definition v_abs (a : value) : result value :=
  match a with
  | VNaN => Ok VNaN
  | VInt x => Ok (VInt (wrap64 (Z.abs x)))
  | VFloat x => Ok (fl (Qabs x))
  | VStr _ => Raise TypeError
  end.

(** True division by a non-zero integer constant: the result is a float. *)
Definition v_div_const (a : value) (k : Z) : result value :=
  match a with
  | VNaN => Ok VNaN
  | VInt x => Ok (fl (inject_Z x / inject_Z k))
  | VFloat x => Ok (fl (x / inject_Z k))
  | VStr _ => Raise TypeError
  end.

Definition q_clip_lower (lo x : Q) : Q :=
  if Qlt_le_dec x lo then lo else x.

(** [Series.clip(lower=k)]: values below the bound are replaced by it,
    missing values stay missing. *)
Definition v_clip_lower (k : Z) (a : value) : result value :=
  match a with
  | VNaN => Ok VNaN
  | VInt x => Ok (VInt (Z.max k x))
  | VFloat x => Ok (fl (q_clip_lower (inject_Z k) x))
  | VStr _ => Raise TypeError
  end.

(** [np.round(x, 2)]: to the nearest multiple of 1/100, ties to the even
    multiple. *)
Definition round_half_even (q : Q) : Z :=
  let f := Qfloor q in
  let d := (q - inject_Z f)%Q in
  match (d ?= 1 # 2)%Q with
  | Lt => f
  | Gt => (f + 1)%Z
  | Eq => if Z.even f then f else (f + 1)%Z
  end.

Definition round2 (q : Q) : Q := Qred (inject_Z (round_half_even (q * 100)) / 100).

(** Series arithmetic is elementwise over two columns of one frame. *)
Fixpoint zipR (op : value -> value -> result value) (s t : Series) : result Series :=
  match s, t with
  | a :: s', b :: t' =>
      rbind (op a b) (fun c => rbind (zipR op s' t') (fun r => Ok (c :: r)))
  | _, _ => Ok []
  end.

(** ** The fixed mappings *)

Definition BINARY_MAPPING : list (string * Z) := [("yes", 1%Z); ("no", 0%Z)].
Definition SEX_MAPPING : list (string * Z) := [("F", 1%Z); ("M", 0%Z)].
Definition ADDRESS_MAPPING : list (string * Z) := [("U", 1%Z); ("R", 0%Z)].
Definition FAMSIZE_MAPPING : list (string * Z) := [("LE3", 1%Z); ("GT3", 0%Z)].
Definition PSTATUS_MAPPING : list (string * Z) := [("T", 1%Z); ("A", 0%Z)].

Fixpoint dict_get (d : list (string * Z)) (k : string) : option Z :=
  match d with
  | [] => None
  | (k', v) :: r => if String.eqb k k' then Some v else dict_get r k
  end.

(** What a cell is sent to by a dictionary whose keys are strings. *)
Definition map_lookup (d : list (string * Z)) (v : value) : option Z :=
  match v with
  | VStr k => dict_get d k
  | _ => None
  end.

Definition is_some {A} (o : option A) : bool :=
  match o with Some _ => true | None => false end.

(** [Series.map(d)]: a cell outside the dictionary becomes NaN, and no
    exception is raised.  The result is an integer column when every cell
    is mapped and a float column as soon as one is missing. *)
Definition series_map (d : list (string * Z)) (s : Series) : Series :=
  if forallb (fun v => is_some (map_lookup d v)) s
  then map (fun v => match map_lookup d v with Some n => VInt n | None => VNaN end) s
  else map (fun v => match map_lookup d v with Some n => fl (inject_Z n) | None => VNaN end) s.

(** ** Frames *)

Record DataFrame : Type := mkDF {
  nrows : nat;
  cols : list (string * Series)
}.

Definition columns (df : DataFrame) : list string := map fst (cols df).

Definition has_label (c : string) (l : list string) : bool :=
  existsb (String.eqb c) l.


(** The columns carrying label [c], in frame order. *)
Definition cols_named (c : string) (df : DataFrame) : list Series :=
  map snd (filter (fun p => String.eqb c (fst p)) (cols df)).

(** [df[c]] as a Series.  A label that is absent raises [KeyError]; a
    label carried by several columns selects a frame, on which the Series
    operations of this program are not available. *)
Definition df_getitem (c : string) (df : DataFrame) : result Series :=
  match cols_named c df with
  | [] => Raise (KeyError c)
  | [s] => Ok s
  | _ => Raise TypeError
  end.

(** [df[c] = s] for a Series or scalar-broadcast [s]: every column
    labelled [c] is replaced in place; a new label is appended. *)
Definition df_setitem (c : string) (s : Series) (df : DataFrame) : DataFrame :=
  if has_label c (columns df)
  then mkDF (nrows df)
            (map (fun p => if String.eqb c (fst p) then (fst p, s) else p) (cols df))
  else mkDF (nrows df) (cols df ++ [(c, s)]).

Definition df_setitem_scalar (c : string) (v : value) (df : DataFrame) : DataFrame :=
  df_setitem c (repeat v (nrows df)) df.

(** [df[c] = a] for a numpy array: its length must be the frame's. *)
Definition df_setitem_array (c : string) (a : Series) (df : DataFrame) : result DataFrame :=
  if Nat.eqb (List.length a) (nrows df) then Ok (df_setitem c a df) else Raise ValueError.

(** [df.drop(labels, axis=1)] for labels known to be present. *)
Definition df_drop (labels : list string) (df : DataFrame) : DataFrame :=
  mkDF (nrows df) (filter (fun p => negb (has_label (fst p) labels)) (cols df)).

(** [df[labels]]: for each label in turn, every column carrying it; a
    label carried by no column raises [KeyError]. *)
Definition select_cols (labels : list string) (cs : list (string * Series))
  : result (list (string * Series)) :=
  rbind (mapR (fun c => match filter (fun p => String.eqb c (fst p)) cs with
                        | [] => Raise (KeyError c)
                        | m => Ok m
                        end) labels)
        (fun ms => Ok (List.concat ms)).

Definition df_select (labels : list string) (df : DataFrame) : result DataFrame :=
  rbind (select_cols labels (cols df)) (fun cs => Ok (mkDF (nrows df) cs)).

(** ** One-hot encoding *)

(** The number a numeric cell stands for. *)
Definition num_of (v : value) : Q :=
  match v with
  | VInt n => inject_Z n
  | VFloat q => q
  | _ => 0
  end.

(** The order in which pandas sorts the levels of a column: numbers by
    value, then strings by code point. *)
Definition value_compare (a b : value) : comparison :=
  match a, b with
  | VStr s, VStr t => String.compare s t
  | VStr _, _ => Gt
  | _, VStr _ => Lt
  | _, _ => (num_of a ?= num_of b)%Q
  end.

Definition notna (v : value) : bool :=
  match v with VNaN => false | _ => true end.

Fixpoint insert_level (v : value) (l : list value) : list value :=
  match l with
  | [] => [v]
  | x :: r =>
      match value_compare v x with
      | Lt => v :: l
      | Eq => l
      | Gt => x :: insert_level v r
      end
  end.

(** The sorted distinct non-missing values of a column. *)
Definition levels (s : Series) : list value :=
  fold_right insert_level [] (filter notna s).

Definition is_level (l v : value) : bool :=
  notna v && match value_compare v l with Eq => true | _ => false end.

Definition indicator (l : value) (s : Series) : Series :=
  map (fun v => VInt (if is_level l v then 1 else 0)) s.

(** ** Answers of an HTTP endpoint *)

(** What a call of an endpoint ends with: the value it returns, the
    [HTTPException] it raises, or another exception, which it lets
    through. *)
Inductive response (A : Type) : Type :=
| Returns (a : A)
| HTTPException (status_code : nat) (detail : string)
| Unhandled (e : exn).
Arguments Returns {A} a.
Arguments HTTPException {A} status_code detail.
Arguments Unhandled {A} e.

Local Close Scope Q_scope.

Section Pipeline.

(** Python's [str] of a numeric level, used to name its indicator column;
    a string level is its own name. *)
Definition formatter : Type := value -> string.

Variable number_str : formatter.

Definition level_str (l : value) : string :=
  match l with
  | VStr s => s
  | _ => number_str l
  end.

(** [_get_dummies_1d(..., drop_first=True, dtype=int)]: one indicator
    column per level but the first, named [<prefix>_<level>]. *)
Definition dummies_1d (p : string * Series) : list (string * Series) :=
  map (fun l => (String.append (fst p) (String.append "_" (level_str l)), indicator l (snd p)))
      (tl (levels (snd p))).

(** [pd.get_dummies(df, columns=cs, drop_first=True, dtype=int)]: the
    columns that are not encoded, then the indicator columns of each
    encoded column in turn. *)
Definition df_get_dummies (cs : list string) (df : DataFrame) : result DataFrame :=
  do enc <- select_cols cs (cols df);
  Ok (mkDF (nrows df) (cols (df_drop cs df) ++ flat_map dummies_1d enc)).

(** ** The store *)

Definition ref := nat.
Definition store := list DataFrame.

Definition M (A : Type) : Type := store -> result (A * store).

Definition ret {A} (a : A) : M A := fun st => Ok (a, st).

Definition bind {A B} (m : M A) (k : A -> M B) : M B :=
  fun st => match m st with
            | Ok (a, st') => k a st'
            | Raise e => Raise e
            end.

Definition lift {A} (r : result A) : M A :=
  fun st => match r with
            | Ok a => Ok (a, st)
            | Raise e => Raise e
            end.

Notation "x <- m ;; k" := (bind m (fun x => k))
  (at level 61, m at next level, right associativity).
Notation "m ;; k" := (bind m (fun _ => k))
  (at level 61, right associativity).

Fixpoint upd (r : ref) (f : DataFrame) (st : store) : store :=
  match st, r with
  | [], _ => []
  | _ :: t, O => f :: t
  | x :: t, S r' => x :: upd r' f t
  end.

(** A frame constructor: the new object gets a fresh reference. *)
Definition new_frame (f : DataFrame) : M ref :=
  fun st => Ok (List.length st, (st ++ [f])).

(** Reading through a reference.  Every reference of the programs below
    comes from [new_frame] or from the caller, so the error case is only
    there to make the function total. *)
Definition deref (r : ref) : M DataFrame :=
  fun st => match nth_error st r with
            | Some f => Ok (f, st)
            | None => Raise ValueError
            end.

Definition assign (r : ref) (f : DataFrame) : M unit :=
  fun st => Ok (tt, upd r f st).

Fixpoint forM_ {A} (l : list A) (body : A -> M unit) : M unit :=
  match l with
  | [] => ret tt
  | x :: r => body x ;; forM_ r body
  end.

(** *** pandas operations on references *)

Definition pd_copy (r : ref) : M ref :=
  f <- deref r ;; new_frame f.

Definition pd_columns (r : ref) : M (list string) :=
  f <- deref r ;; ret (columns f).

Definition pd_drop (r : ref) (labels : list string) : M ref :=
  f <- deref r ;; new_frame (df_drop labels f).

Definition getitem (r : ref) (c : string) : M Series :=
  f <- deref r ;; lift (df_getitem c f).

Definition getitems (r : ref) (cs : list string) : M ref :=
  f <- deref r ;; g <- lift (df_select cs f) ;; new_frame g.

Definition setitem (r : ref) (c : string) (s : Series) : M unit :=
  f <- deref r ;; assign r (df_setitem c s f).

Definition setitem_scalar (r : ref) (c : string) (v : value) : M unit :=
  f <- deref r ;; assign r (df_setitem_scalar c v f).

Definition setitem_array (r : ref) (c : string) (a : Series) : M unit :=
  f <- deref r ;; g <- lift (df_setitem_array c a f) ;; assign r g.

Definition pd_get_dummies (r : ref) (cs : list string) : M ref :=
  f <- deref r ;; g <- lift (df_get_dummies cs f) ;; new_frame g.

(** ** [preprocess_data] *)

Definition drop_cols : list string := ["StudentID"; "FirstName"; "FamilyName"].

Definition cols_yes_no : list string :=
  ["schoolsup"; "famsup"; "paid"; "activities"; "nursery"; "higher";
   "internet"; "romantic"].

Definition nominal_cols : list string := ["Mjob"; "Fjob"; "reason"; "guardian"].

(** [df[col] = df[col].map(d)] *)
Definition map_column (df_proc : ref) (col : string) (d : list (string * Z)) : M unit :=
  s <- getitem df_proc col ;;
  setitem df_proc col (series_map d s).

Definition preprocess_data (df : ref) (training_columns : option (list string)) : M ref :=
  df_proc <- pd_copy df ;;
  (* Drop identifiers *)
  present <- pd_columns df_proc ;;
  df_proc <- pd_drop df_proc (filter (fun c => has_label c present) drop_cols) ;;
  (* Binary Mappings *)
  forM_ cols_yes_no (fun col => map_column df_proc col BINARY_MAPPING) ;;
  map_column df_proc "sex" SEX_MAPPING ;;
  map_column df_proc "address" ADDRESS_MAPPING ;;
  map_column df_proc "famsize" FAMSIZE_MAPPING ;;
  map_column df_proc "Pstatus" PSTATUS_MAPPING ;;
  (* One-Hot Encoding *)
  df_proc <- pd_get_dummies df_proc nominal_cols ;;
  (* Feature Engineering *)
  medu <- getitem df_proc "Medu" ;;
  fedu <- getitem df_proc "Fedu" ;;
  total <- lift (zipR v_add medu fedu) ;;
  setitem df_proc "Parent_Edu_Total" total ;;
  medu <- getitem df_proc "Medu" ;;
  fedu <- getitem df_proc "Fedu" ;;
  diff <- lift (zipR v_sub medu fedu) ;;
  adiff <- lift (mapR v_abs diff) ;;
  setitem df_proc "Parent_Edu_Diff" adiff ;;
  (* Alcohol calculation *)
  dalc <- getitem df_proc "Dalc" ;;
  walc <- getitem df_proc "Walc" ;;
  walc2 <- lift (mapR (fun v => v_mul v (VInt 2)) walc) ;;
  alc <- lift (zipR v_add dalc walc2) ;;
  setitem df_proc "Total_Alcohol" alc ;;
  ta1 <- getitem df_proc "Total_Alcohol" ;;
  ta2 <- getitem df_proc "Total_Alcohol" ;;
  sq <- lift (zipR v_mul ta1 ta2) ;;
  goout <- getitem df_proc "goout" ;;
  party <- lift (zipR v_mul sq goout) ;;
  setitem df_proc "Party_Life" party ;;
  (* If a category is missing in new data, fill with 0.
     If extra columns exist, drop them. *)
  match training_columns with
  | Some tc =>
      forM_ tc (fun col =>
        present <- pd_columns df_proc ;;
        if negb (has_label col present)
        then setitem_scalar df_proc col (VInt 0)
        else ret tt) ;;
      getitems df_proc tc
  | None => ret df_proc
  end.

(** ** [train_final_model] *)

(** A fitted model is used through [predict] only: it takes the encoded
    table and returns an array of predictions, or raises. *)
Definition predictor := DataFrame -> result (list Q).

(** [df.drop(c, axis=1)] for a label that has to be present. *)
Definition pd_drop_label (r : ref) (c : string) : M ref :=
  f <- deref r ;;
  if has_label c (columns f) then new_frame (df_drop [c] f)
  else lift (Raise (KeyError c)).

(** Fitting the regressor is outside this development. *)
Definition fitter : Type := DataFrame -> Series -> result predictor.

Variable fit_model : fitter.

Definition train_final_model (df_raw : ref) : M (predictor * list string) :=
  (* Preprocess *)
  df_clean <- preprocess_data df_raw None ;;
  X <- pd_drop_label df_clean "FinalGrade" ;;
  y <- getitem df_clean "FinalGrade" ;;
  fX <- deref X ;;
  model <- lift (fit_model fX y) ;;
  features <- pd_columns X ;;
  ret (model, features).

(** ** [create_ideal_profile] *)

Definition create_ideal_profile (df_raw : ref) : M ref :=
  df_ideal <- pd_copy df_raw ;;
  (* Actionable Adjustments *)
  setitem_scalar df_ideal "studytime" (VInt 4) ;;
  setitem_scalar df_ideal "Dalc" (VInt 1) ;;
  setitem_scalar df_ideal "Walc" (VInt 1) ;;
  setitem_scalar df_ideal "absences" (VInt 0) ;;
  setitem_scalar df_ideal "goout" (VInt 2) ;;
  ret df_ideal.

(** ** [generate_dashboard_data] *)

(** The files the pipeline loads: the table behind a csv path, and the
    pickled model and feature list. *)
Definition loader (A : Type) : Type := string -> result A.

Variable read_csv : loader DataFrame.
Variable load_model : loader predictor.
Variable load_features : loader (list string).

Definition load_data (filepath : string) : M ref :=
  f <- lift (read_csv filepath) ;; new_frame f.

Definition model_predict (model : predictor) (X : ref) : M (list Q) :=
  f <- deref X ;; lift (model f).

Definition generate_dashboard_data (csv_path model_path features_path : string) : M ref :=
  (* 1. Load data, model and features list *)
  df_raw <- load_data csv_path ;;
  model <- lift (load_model model_path) ;;
  feature_cols <- lift (load_features features_path) ;;
  (* Ideal Prediction (Potential) *)
  df_ideal_raw <- create_ideal_profile df_raw ;;
  X_ideal <- preprocess_data df_ideal_raw (Some feature_cols) ;;
  potential_preds <- model_predict model X_ideal ;;
  (* Construct Result DataFrame *)
  sel <- getitems df_raw ["StudentID"; "FirstName"; "FamilyName"; "FinalGrade"] ;;
  results <- pd_copy sel ;;
  setitem_array results "Potential_Grade" (map (fun p => VFloat (round2 p)) potential_preds) ;;
  (* Improvability = Potential - Real Actual Grade *)
  pg <- getitem results "Potential_Grade" ;;
  fg <- getitem results "FinalGrade" ;;
  margin <- lift (zipR v_sub pg fg) ;;
  setitem results "Improvability_Margin" margin ;;
  (* in case the student is already outperforming their potential *)
  im <- getitem results "Improvability_Margin" ;;
  clipped <- lift (mapR (v_clip_lower 0) im) ;;
  setitem results "Improvability_Margin" clipped ;;
  (* Calculate Complexity Score (0 to 1) *)
  im <- getitem results "Improvability_Margin" ;;
  ratio <- lift (mapR (fun v => v_div_const v 20) im) ;;
  score <- lift (mapR (fun v => v_sub (VInt 1) v) ratio) ;;
  setitem results "Complexity_Score" score ;;
  ret results.

(** ** The endpoints of [backend/main.py]

    The two endpoints call [generate_dashboard_data] and turn its table
    into the records the dashboard displays.  What they take from the
    operating system is a parameter or an argument: the three resource
    paths, which are computed when the module is loaded, the set of paths
    that exist, the name the system gives to a temporary file, the frame
    pandas builds from a request body, the writing of a csv file, and
    Python's [str] of an exception.  What [read_csv] finds in the
    temporary file is whatever the parameter [read_csv] says: the csv
    round trip of the request body is not modelled. *)

Variable DATA_PATH : string.
Variable MODEL_PATH : string.
Variable FEATS_PATH : string.

Definition printer : Type := exn -> string.

Variable exn_str : printer.

(** A Python dict with string keys, in insertion order. *)
Definition record : Type := list (string * value).

(** [d[k] = v]: an existing key keeps its place and takes the new value. *)
Fixpoint dict_set (k : string) (v : value) (d : record) : record :=
  match d with
  | [] => [(k, v)]
  | (k', v') :: r =>
      if String.eqb k k' then (k', v) :: r else (k', v') :: dict_set k v r
  end.

(** [dict(pairs)] *)
Definition dict_of_pairs (l : list (string * value)) : record :=
  fold_left (fun d kv => dict_set (fst kv) (snd kv) d) l [].

(** [df.rename(columns=m)]: a label that is a key of [m] is replaced, the
    others stay. *)
Fixpoint rename_label (m : list (string * string)) (c : string) : string :=
  match m with
  | [] => c
  | (k, v) :: r => if String.eqb c k then v else rename_label r c
  end.

Definition df_rename (m : list (string * string)) (df : DataFrame) : DataFrame :=
  mkDF (nrows df) (map (fun p => (rename_label m (fst p), snd p)) (cols df)).

(** [df.to_dict(orient="records")]: one dict per row, made of the labels
    zipped with the row. *)
Definition row_items (i : nat) (df : DataFrame) : list (string * value) :=
  map (fun p => (fst p, nth i (snd p) VNaN)) (cols df).

Definition to_dict_records (df : DataFrame) : list record :=
  map (fun i => dict_of_pairs (row_items i df)) (seq 0 (nrows df)).

Definition pd_rename (r : ref) (m : list (string * string)) : M ref :=
  f <- deref r ;; new_frame (df_rename m f).

Definition pd_to_dict (r : ref) : M (list record) :=
  f <- deref r ;; ret (to_dict_records f).

(** The files that exist are a list of paths. *)
Definition path_exists (p : string) (fs : list string) : bool := has_label p fs.

Definition os_remove (p : string) (fs : list string) : list string :=
  filter (fun q => negb (String.eqb p q)) fs.

Definition frontend_names : list (string * string) :=
  [("FinalGrade", "ActualGrade"); ("Potential_Grade", "PotentialGrade");
   ("Complexity_Score", "ComplexityScore")].

Definition get_student_priorities (fs : list string) (st : store)
  : response (list record) :=
  if negb (path_exists MODEL_PATH fs) || negb (path_exists DATA_PATH fs)
  then HTTPException 500 "Model or Data files not found."
  else
    match (df_results <- generate_dashboard_data DATA_PATH MODEL_PATH FEATS_PATH ;;
           (* Rename for frontend consistency *)
           df_results <- pd_rename df_results frontend_names ;;
           pd_to_dict df_results) st with
    | Ok (records, _) => Returns records
    | Raise e =>
        HTTPException 500 (String.append "Error generating data: " (exn_str e))
    end.

(** [pd.DataFrame(data)] and [df.to_csv(path, index=False)]. *)
Definition frame_builder : Type := list record -> result DataFrame.
Definition csv_writer : Type := DataFrame -> string -> result unit.

Variable pd_DataFrame : frame_builder.
Variable to_csv : csv_writer.

(** [tmp_name] is the path [tempfile.NamedTemporaryFile] creates.  The
    function returns its answer together with the files that exist when
    it ends. *)
Definition simulate_batch (tmp_name : string) (data : list record)
           (fs : list string) (st : store)
  : response (list record) * list string :=
  if negb (path_exists MODEL_PATH fs)
  then (HTTPException 500 "Model file not found. Please train model first.", fs)
  else
    (* 1. Convert JSON payload back to DataFrame *)
    match pd_DataFrame data with
    | Raise e =>
        (HTTPException 400 (String.append "Invalid data format: " (exn_str e)), fs)
    | Ok df_input =>
        (* 2. Create a temporary CSV file *)
        let fs := tmp_name :: fs in
        match to_csv df_input tmp_name with
        | Raise e => (Unhandled e, fs)
        | Ok _ =>
            let tmp_path := tmp_name in
            let answer :=
              (* 3. Run the processing function from funcs.py *)
              match (df_results <- generate_dashboard_data tmp_path MODEL_PATH FEATS_PATH ;;
                     df_results <- pd_rename df_results frontend_names ;;
                     (* 5. Return JSON *)
                     pd_to_dict df_results) st with
              | Ok (records, _) => Returns records
              | Raise e =>
                  HTTPException 500 (String.append "Processing failed: " (exn_str e))
              end in
            (* Cleanup temp file *)
            (answer, if path_exists tmp_path fs then os_remove tmp_path fs else fs)
        end
    end.

(** ** What the three functions compute

    The frame each function builds, as a function of the frame its
    argument refers to.  [preprocess_data_run],
    [create_ideal_profile_run] and [generate_dashboard_data_run] below
    prove that the programs above compute exactly these, and which
    objects they allocate on the way. *)

Definition map_column_df (col : string) (d : list (string * Z)) (f : DataFrame)
  : result DataFrame :=
  do s <- df_getitem col f;
  Ok (df_setitem col (series_map d s) f).

Definition encode_categorical (f : DataFrame) : result DataFrame :=
  do f <- foldR (fun f col => map_column_df col BINARY_MAPPING f) cols_yes_no f;
  do f <- map_column_df "sex" SEX_MAPPING f;
  do f <- map_column_df "address" ADDRESS_MAPPING f;
  do f <- map_column_df "famsize" FAMSIZE_MAPPING f;
  map_column_df "Pstatus" PSTATUS_MAPPING f.

Definition derive_features (f : DataFrame) : result DataFrame :=
  do medu <- df_getitem "Medu" f;
  do fedu <- df_getitem "Fedu" f;
  do total <- zipR v_add medu fedu;
  let f := df_setitem "Parent_Edu_Total" total f in
  do medu <- df_getitem "Medu" f;
  do fedu <- df_getitem "Fedu" f;
  do diff <- zipR v_sub medu fedu;
  do adiff <- mapR v_abs diff;
  let f := df_setitem "Parent_Edu_Diff" adiff f in
  do dalc <- df_getitem "Dalc" f;
  do walc <- df_getitem "Walc" f;
  do walc2 <- mapR (fun v => v_mul v (VInt 2)) walc;
  do alc <- zipR v_add dalc walc2;
  let f := df_setitem "Total_Alcohol" alc f in
  do ta1 <- df_getitem "Total_Alcohol" f;
  do ta2 <- df_getitem "Total_Alcohol" f;
  do sq <- zipR v_mul ta1 ta2;
  do goout <- df_getitem "goout" f;
  do party <- zipR v_mul sq goout;
  Ok (df_setitem "Party_Life" party f).

Definition fill_missing (tc : list string) (f : DataFrame) : DataFrame :=
  fold_left (fun f col =>
               if negb (has_label col (columns f))
               then df_setitem_scalar col (VInt 0) f
               else f) tc f.

(** The encoded table before reconciliation with a schema. *)
Definition encode_features (f : DataFrame) : result (DataFrame * DataFrame) :=
  let f1 := df_drop (filter (fun c => has_label c (columns f)) drop_cols) f in
  do f2 <- encode_categorical f1;
  do f3 <- df_get_dummies nominal_cols f2;
  do f4 <- derive_features f3;
  Ok (f2, f4).

(** The table [preprocess_data] returns, with the intermediate frames it
    leaves behind. *)
Definition encode_steps (f : DataFrame) (training_columns : option (list string))
  : result (list DataFrame * DataFrame) :=
  do p <- encode_features f;
  match training_columns with
  | Some tc =>
      let f5 := fill_missing tc (snd p) in
      do t <- df_select tc f5;
      Ok ([f; fst p; f5], t)
  | None => Ok ([f; fst p], snd p)
  end.

Definition encode (f : DataFrame) (training_columns : option (list string))
  : result DataFrame :=
  do p <- encode_steps f training_columns; Ok (snd p).

Definition idealize (f : DataFrame) : DataFrame :=
  df_setitem_scalar "goout" (VInt 2)
    (df_setitem_scalar "absences" (VInt 0)
       (df_setitem_scalar "Walc" (VInt 1)
          (df_setitem_scalar "Dalc" (VInt 1)
             (df_setitem_scalar "studytime" (VInt 4) f)))).

(** The columns of the raw table that are copied to the result. *)
Definition passthrough : list string :=
  ["StudentID"; "FirstName"; "FamilyName"; "FinalGrade"].

(** The result table, from the selected raw columns and the predictions. *)
Definition dashboard (sel : DataFrame) (preds : list Q) : result DataFrame :=
  do r <- df_setitem_array "Potential_Grade" (map (fun p => VFloat (round2 p)) preds) sel;
  do pg <- df_getitem "Potential_Grade" r;
  do fg <- df_getitem "FinalGrade" r;
  do margin <- zipR v_sub pg fg;
  let r := df_setitem "Improvability_Margin" margin r in
  do im <- df_getitem "Improvability_Margin" r;
  do clipped <- mapR (v_clip_lower 0) im;
  let r := df_setitem "Improvability_Margin" clipped r in
  do im <- df_getitem "Improvability_Margin" r;
  do ratio <- mapR (fun v => v_div_const v 20) im;
  do score <- mapR (fun v => v_sub (VInt 1) v) ratio;
  Ok (df_setitem "Complexity_Score" score r).

(** ** Vocabulary of the properties *)

(** The whole pipeline as a function of the loaded table, the model and
    the feature list. *)
Definition dashboard_of (df : DataFrame) (model : predictor) (feature_cols : list string)
  : result DataFrame :=
  do X <- encode (idealize df) (Some feature_cols);
  do preds <- model X;
  do sel <- df_select passthrough df;
  dashboard sel preds.

(** The habit columns [create_ideal_profile] overrides, with their values. *)
Definition habit_overrides : list (string * Z) :=
  [("studytime", 4%Z); ("Dalc", 1%Z); ("Walc", 1%Z); ("absences", 0%Z); ("goout", 2%Z)].

Definition is_override (c : string) : bool :=
  has_label c (map fst habit_overrides).

(** The Potential_Grade column made of an array of predictions. *)
Definition rounded (preds : list Q) : Series :=
  map (fun p => VFloat (round2 p)) preds.

(** [generate_dashboard_data] returned the table [out]. *)
Definition dashboard_returns (csv_path model_path features_path : string)
           (st : store) (out : DataFrame) : Prop :=
  exists (r : ref) (st' : store),
    generate_dashboard_data csv_path model_path features_path st = Ok (r, st') /\
    nth_error st' r = Some out.

Definition is_number (v : value) : bool :=
  match v with
  | VInt _ | VFloat _ => true
  | _ => false
  end.

(** The dictionary each categorical column goes through. *)
Definition category_mappings : list (string * list (string * Z)) :=
  map (fun c => (c, BINARY_MAPPING)) cols_yes_no ++
  [("sex", SEX_MAPPING); ("address", ADDRESS_MAPPING);
   ("famsize", FAMSIZE_MAPPING); ("Pstatus", PSTATUS_MAPPING)].

Definition categorical_cols : list string := map fst category_mappings.

Fixpoint starts_with (p s : string) : bool :=
  match p, s with
  | EmptyString, _ => true
  | String a p', String b s' => Ascii.eqb a b && starts_with p' s'
  | String _ _, EmptyString => false
  end.

(** A label of the form [<field>_<level>] for one of the encoded fields. *)
Definition is_indicator_label (cs : list string) (c : string) : bool :=
  existsb (fun p => starts_with (String.append p "_") c) cs.

(** The columns the feature-engineering step writes. *)
Definition derived_cols : list string :=
  ["Parent_Edu_Total"; "Parent_Edu_Diff"; "Total_Alcohol"; "Party_Life"].

(** A column that no step of the encoder touches reaches the encoded
    table as it is in the raw table. *)
Definition untouched (c : string) : bool :=
  negb (has_label c drop_cols) && negb (has_label c categorical_cols) &&
  negb (has_label c nominal_cols) && negb (is_indicator_label nominal_cols c) &&
  negb (has_label c derived_cols).

Definition is_str (v : value) : bool :=
  match v with VStr _ => true | _ => false end.

Definition no_strings (s : Series) : bool := forallb (fun v => negb (is_str v)) s.

Fixpoint distinct (l : list string) : bool :=
  match l with
  | [] => true
  | x :: r => negb (has_label x r) && distinct r
  end.

(** The columns the feature-engineering step reads. *)
Definition numeric_inputs : list string := ["Medu"; "Fedu"; "Dalc"; "Walc"; "goout"].

(** A raw table the encoder accepts: its labels are distinct (as
    [pd.read_csv] makes them), it has every column the encoder reads, and
    the columns that enter the arithmetic hold numbers or NaN.  Nothing is
    asked of the values of the categorical columns. *)
Definition encodable (f : DataFrame) : bool :=
  distinct (columns f) &&
  forallb (fun c => has_label c (columns f))
          (categorical_cols ++ nominal_cols ++ numeric_inputs) &&
  forallb (fun c => match df_getitem c f with
                    | Ok s => no_strings s
                    | Raise _ => false
                    end) numeric_inputs.

(** The raw columns the encoder reads. *)
Definition encoder_inputs : list string :=
  categorical_cols ++ nominal_cols ++ numeric_inputs.

(** [preprocess_data] returned the table [X]. *)
Definition preprocess_returns (df : ref) (training_columns : option (list string))
           (st : store) (X : DataFrame) : Prop :=
  exists (r : ref) (st' : store),
    preprocess_data df training_columns st = Ok (r, st') /\
    nth_error st' r = Some X.

(** A cell of a column of text: a string, or the missing value. *)
Definition is_text (v : value) : bool := is_str v || negb (notna v).

(** A raw table whose labels cannot collide with those the encoder makes:
    they are distinct, none has the form [<field>_<level>] of an indicator
    column, and the four nominal columns hold text. *)
Definition clean_labels (f : DataFrame) : bool :=
  distinct (columns f) &&
  forallb (fun c => negb (is_indicator_label nominal_cols c)) (columns f) &&
  forallb (fun p => negb (has_label (fst p) nominal_cols) || forallb is_text (snd p))
          (cols f).

(** Two tables with the same rows and labels that differ at most in what
    their habit columns hold. *)
Definition same_but_habits (f g : DataFrame) : Prop :=
  nrows f = nrows g /\
  Forall2 (fun p q => fst p = fst q /\ (is_override (fst p) = false -> snd p = snd q))
          (cols f) (cols g).

(** The labels of the table [generate_dashboard_data] returns, and the
    keys of the records the endpoints answer with. *)
Definition dashboard_columns : list string :=
  passthrough ++ ["Potential_Grade"; "Improvability_Margin"; "Complexity_Score"].

Definition record_keys : list string := map (rename_label frontend_names) dashboard_columns.

(** The record of row [i] of the result table. *)
Definition student_record (sid fn ln fg pg im cs : Series) (i : nat) : record :=
  [("StudentID", nth i sid VNaN); ("FirstName", nth i fn VNaN);
   ("FamilyName", nth i ln VNaN); ("ActualGrade", nth i fg VNaN);
   ("PotentialGrade", nth i pg VNaN); ("Improvability_Margin", nth i im VNaN);
   ("ComplexityScore", nth i cs VNaN)].

(** ** Example tables *)

(** One record: the record of the end-to-end example of the
    specification. *)
Definition sample_table : DataFrame :=
  mkDF 1
    [("StudentID", [VInt 7]); ("FirstName", [VStr "Ada"]); ("FamilyName", [VStr "Byron"]);
     ("sex", [VStr "F"]); ("address", [VStr "U"]); ("famsize", [VStr "GT3"]);
     ("Pstatus", [VStr "T"]); ("Medu", [VInt 2]); ("Fedu", [VInt 2]);
     ("Mjob", [VStr "teacher"]); ("Fjob", [VStr "other"]); ("reason", [VStr "home"]);
     ("guardian", [VStr "mother"]); ("studytime", [VInt 1]); ("schoolsup", [VStr "yes"]);
     ("famsup", [VStr "no"]); ("paid", [VStr "no"]); ("activities", [VStr "yes"]);
     ("nursery", [VStr "yes"]); ("higher", [VStr "yes"]); ("internet", [VStr "yes"]);
     ("romantic", [VStr "no"]); ("goout", [VInt 5]); ("Dalc", [VInt 3]);
     ("Walc", [VInt 4]); ("absences", [VInt 10]); ("FinalGrade", [VInt 10])].

(** The same record with a sex that is neither F nor M. *)
Definition invalid_category_table : DataFrame :=
  df_setitem "sex" [VStr "X"] sample_table.

(** Two records, in a table that also has a raw column named like the
    indicator column of one of its Mjob levels. *)
Definition collision_table : DataFrame :=
  mkDF 2
    [("StudentID", [VInt 1; VInt 2]); ("FirstName", [VStr "Ada"; VStr "Bob"]);
     ("FamilyName", [VStr "Byron"; VStr "Cole"]); ("sex", [VStr "F"; VStr "M"]);
     ("address", [VStr "U"; VStr "R"]); ("famsize", [VStr "GT3"; VStr "LE3"]);
     ("Pstatus", [VStr "T"; VStr "A"]); ("Medu", [VInt 2; VInt 3]);
     ("Fedu", [VInt 2; VInt 1]); ("Mjob", [VStr "at_home"; VStr "teacher"]);
     ("Fjob", [VStr "other"; VStr "other"]); ("reason", [VStr "home"; VStr "home"]);
     ("guardian", [VStr "mother"; VStr "mother"]); ("studytime", [VInt 1; VInt 2]);
     ("schoolsup", [VStr "yes"; VStr "no"]); ("famsup", [VStr "no"; VStr "no"]);
     ("paid", [VStr "no"; VStr "no"]); ("activities", [VStr "yes"; VStr "no"]);
     ("nursery", [VStr "yes"; VStr "no"]); ("higher", [VStr "yes"; VStr "no"]);
     ("internet", [VStr "yes"; VStr "no"]); ("romantic", [VStr "no"; VStr "no"]);
     ("goout", [VInt 5; VInt 2]); ("Dalc", [VInt 3; VInt 1]); ("Walc", [VInt 4; VInt 1]);
     ("absences", [VInt 10; VInt 0]); ("FinalGrade", [VInt 10; VInt 12]);
     ("Mjob_teacher", [VInt 0; VInt 1])].

(** The levels of the example tables are strings, so the printer of
    numeric levels is never called on them. *)
Definition sample_number_str : formatter :=
  fun v => match v with
           | VInt n => NilZero.string_of_int (Z.to_int n)
           | _ => "nan"
           end.

Definition sample_features : list string :=
  ["sex"; "Medu"; "studytime"; "Total_Alcohol"; "Party_Life"; "Mjob_teacher"].

(** A model that predicts 14.0 for every row. *)
Definition sample_model : predictor := fun X => Ok (repeat (14 # 1)%Q (nrows X)).

Definition sample_read_csv : loader DataFrame := fun _ => Ok sample_table.

Definition sample_load_model : loader predictor := fun _ => Ok sample_model.

Definition sample_load_features : loader (list string) := fun _ => Ok sample_features.

(** The encoding of the idealized copy of [sample_table]. *)
Definition sample_encoded : DataFrame :=
  mkDF 1
    [("sex", [VInt 1]); ("Medu", [VInt 2]); ("studytime", [VInt 4]);
     ("Total_Alcohol", [VInt 3]); ("Party_Life", [VInt 18]); ("Mjob_teacher", [VInt 0])].

(** The table the pipeline returns for [sample_table]. *)
Definition sample_dashboard : DataFrame :=
  mkDF 1
    [("StudentID", [VInt 7]); ("FirstName", [VStr "Ada"]); ("FamilyName", [VStr "Byron"]);
     ("FinalGrade", [VInt 10]); ("Potential_Grade", [VFloat 14%Q]);
     ("Improvability_Margin", [VFloat 4%Q]); ("Complexity_Score", [VFloat (4 # 5)%Q])].

(** [sample_table] without its identifier columns, without its sex
    column, and without its grade. *)
Definition anonymous_table : DataFrame := df_drop drop_cols sample_table.



(** The two records of [collision_table], without the column whose label
    collides. *)
Definition two_students : DataFrame := df_drop ["Mjob_teacher"] collision_table.

(** The record of [sample_table] with other habits. *)
Definition other_habits_table : DataFrame :=
  df_setitem "studytime" [VInt 3] (df_setitem "goout" [VInt 1] sample_table).

Definition two_files : loader DataFrame :=
  fun path => if String.eqb path "other.csv" then Ok other_habits_table
              else Ok sample_table.



(** A fitting routine that returns [sample_model], and a model that
    returns no prediction. *)
Definition sample_fit : fitter := fun _ _ => Ok sample_model.

Definition short_model : predictor := fun _ => Ok [].

Definition short_load_model : loader predictor := fun _ => Ok short_model.

Definition sample_exn_str : printer :=
  fun e => match e with
           | KeyError c => String.append "'" (String.append c "'")
           | TypeError => "unsupported operand type(s)"
           | ValueError => "Length of values does not match length of index"
           | IOError => "No such file or directory"
           end.

(** The resource files, and a request body that pandas turns into
    [sample_table] and writes without error. *)
Definition sample_files : list string := ["model.pkl"; "data.csv"].

Definition sample_request : list record := to_dict_records sample_table.

Definition sample_pd_DataFrame : frame_builder := fun _ => Ok sample_table.

Definition sample_to_csv : csv_writer := fun _ _ => Ok tt.

(** The records of [sample_dashboard]. *)
Definition sample_records : list record :=
  [[("StudentID", VInt 7); ("FirstName", VStr "Ada"); ("FamilyName", VStr "Byron");
    ("ActualGrade", VInt 10); ("PotentialGrade", VFloat 14%Q);
    ("Improvability_Margin", VFloat 4%Q); ("ComplexityScore", VFloat (4 # 5)%Q)]].

(** ** Running the programs *)

Lemma nth_error_snoc (st : store) (f : DataFrame) :
  nth_error (st ++ [f]) (List.length st) = Some f.
Proof.
  rewrite nth_error_app2 by lia. now rewrite Nat.sub_diag.
Qed.

Lemma nth_error_snoc_old (st : store) (f : DataFrame) (r : ref) (g : DataFrame) :
  nth_error st r = Some g -> nth_error (st ++ [f]) r = Some g.
Proof.
  intros H. rewrite nth_error_app1; [exact H|].
  apply nth_error_Some. congruence.
Qed.

Lemma upd_snoc (st : store) (f g : DataFrame) :
  upd (List.length st) g (st ++ [f]) = (st ++ [g]).
Proof.
  induction st as [|x st IH]; simpl; [reflexivity|]. now rewrite IH.
Qed.

Lemma upd_same (st : store) (r : ref) (f : DataFrame) :
  nth_error st r = Some f -> upd r f st = st.
Proof.
  revert r; induction st as [|x st IH]; intros [|r] H; simpl in *; try discriminate.
  - congruence.
  - now rewrite IH.
Qed.

(** *** One step of a program

    Each lemma runs the first operation of [op ;; k].  Operations that
    write act on the object allocated last, which is where every program
    of this file writes. *)

Ltac run_prims :=
  cbv [bind lift ret pd_copy pd_columns pd_drop getitem getitems setitem
       setitem_scalar setitem_array pd_get_dummies map_column deref
       new_frame assign].

Lemma bind_assoc {A B C} (m : M A) (g : A -> M B) (k : B -> M C) (st : store) :
  bind (bind m g) k st = bind m (fun a => bind (g a) k) st.
Proof. unfold bind. destruct (m st) as [[a st']|e]; reflexivity. Qed.

Lemma run_ret {A B} (b : B) (k : B -> M A) (st : store) :
  bind (ret b) k st = k b st.
Proof. reflexivity. Qed.

Lemma run_lift {A B} (v : result B) (k : B -> M A) (st : store) :
  bind (lift v) k st = match v with Ok b => k b st | Raise e => Raise e end.
Proof. run_prims. now destruct v. Qed.

Lemma run_copy {A} (k : ref -> M A) (st : store) (r : ref) (f : DataFrame) :
  nth_error st r = Some f ->
  bind (pd_copy r) k st = k (List.length st) (st ++ [f]).
Proof. intros H. run_prims. now rewrite H. Qed.

Lemma run_columns {A} (k : list string -> M A) (st : store) (r : ref) (f : DataFrame) :
  nth_error st r = Some f ->
  bind (pd_columns r) k st = k (columns f) st.
Proof. intros H. run_prims. now rewrite H. Qed.

Lemma run_drop {A} (k : ref -> M A) (st : store) (r : ref) (f : DataFrame)
      (ls : list string) :
  nth_error st r = Some f ->
  bind (pd_drop r ls) k st = k (List.length st) (st ++ [df_drop ls f]).
Proof. intros H. run_prims. now rewrite H. Qed.

Lemma run_getitem {A} (k : Series -> M A) (st : store) (r : ref) (f : DataFrame)
      (c : string) :
  nth_error st r = Some f ->
  bind (getitem r c) k st =
  match df_getitem c f with Ok s => k s st | Raise e => Raise e end.
Proof. intros H. run_prims. rewrite H. now destruct (df_getitem c f). Qed.

Lemma run_getitems {A} (k : ref -> M A) (st : store) (r : ref) (f : DataFrame)
      (cs : list string) :
  nth_error st r = Some f ->
  bind (getitems r cs) k st =
  match df_select cs f with
  | Ok g => k (List.length st) (st ++ [g])
  | Raise e => Raise e
  end.
Proof. intros H. run_prims. rewrite H. now destruct (df_select cs f). Qed.

Lemma run_get_dummies {A} (k : ref -> M A) (st : store) (r : ref) (f : DataFrame)
      (cs : list string) :
  nth_error st r = Some f ->
  bind (pd_get_dummies r cs) k st =
  match df_get_dummies cs f with
  | Ok g => k (List.length st) (st ++ [g])
  | Raise e => Raise e
  end.
Proof. intros H. run_prims. rewrite H. now destruct (df_get_dummies cs f). Qed.

Lemma run_setitem {A} (k : unit -> M A) (st : store) (f : DataFrame) (c : string)
      (s : Series) :
  bind (setitem (List.length st) c s) k (st ++ [f]) =
  k tt (st ++ [df_setitem c s f]).
Proof. run_prims. now rewrite nth_error_snoc, upd_snoc. Qed.

Lemma run_setitem_scalar {A} (k : unit -> M A) (st : store) (f : DataFrame)
      (c : string) (v : value) :
  bind (setitem_scalar (List.length st) c v) k (st ++ [f]) =
  k tt (st ++ [df_setitem_scalar c v f]).
Proof. run_prims. now rewrite nth_error_snoc, upd_snoc. Qed.

Lemma run_setitem_array {A} (k : unit -> M A) (st : store) (f : DataFrame)
      (c : string) (a : Series) :
  bind (setitem_array (List.length st) c a) k (st ++ [f]) =
  match df_setitem_array c a f with
  | Ok g => k tt (st ++ [g])
  | Raise e => Raise e
  end.
Proof.
  run_prims. rewrite nth_error_snoc.
  destruct (df_setitem_array c a f); [now rewrite upd_snoc | reflexivity].
Qed.

Lemma run_map_column {A} (k : unit -> M A) (st : store) (f : DataFrame)
      (c : string) (d : list (string * Z)) :
  bind (map_column (List.length st) c d) k (st ++ [f]) =
  match map_column_df c d f with
  | Ok g => k tt (st ++ [g])
  | Raise e => Raise e
  end.
Proof.
  unfold map_column. rewrite bind_assoc.
  rewrite (run_getitem _ _ _ f) by apply nth_error_snoc.
  unfold map_column_df. destruct (df_getitem c f); simpl; [|reflexivity].
  apply run_setitem.
Qed.

(** The loop over the yes/no columns. *)
Lemma run_map_columns {A} (k : unit -> M A) (d : list (string * Z)) (st : store)
      (l : list string) :
  forall f : DataFrame,
  bind (forM_ l (fun col => map_column (List.length st) col d)) k (st ++ [f]) =
  match foldR (fun f col => map_column_df col d f) l f with
  | Ok g => k tt (st ++ [g])
  | Raise e => Raise e
  end.
Proof.
  induction l as [|c l IH]; intros f; simpl; [reflexivity|].
  rewrite bind_assoc, run_map_column.
  destruct (map_column_df c d f) as [g|e]; simpl; [apply IH | reflexivity].
Qed.

(** The loop that adds the schema columns the table lacks. *)
Lemma run_fill_missing {A} (k : unit -> M A) (st : store) (tc : list string) :
  forall f : DataFrame,
  bind (forM_ tc (fun col =>
          present <- pd_columns (List.length st) ;;
          if negb (has_label col present)
          then setitem_scalar (List.length st) col (VInt 0)
          else ret tt)) k (st ++ [f]) =
  k tt (st ++ [fill_missing tc f]).
Proof.
  induction tc as [|c tc IH]; intros f; simpl; [reflexivity|].
  rewrite !bind_assoc.
  rewrite (run_columns _ _ _ f) by apply nth_error_snoc.
  destruct (negb (has_label c (columns f))).
  - rewrite run_setitem_scalar. apply IH.
  - rewrite run_ret. apply IH.
Qed.

(** *** The three functions *)

Lemma create_ideal_profile_run (st : store) (r : ref) (f : DataFrame) :
  nth_error st r = Some f ->
  create_ideal_profile r st = Ok (List.length st, st ++ [idealize f]).
Proof.
  intros H. unfold create_ideal_profile.
  rewrite (run_copy _ _ _ f) by exact H.
  now rewrite !run_setitem_scalar.
Qed.

Lemma derive_features_run {A} (k : M A) (st : store) (f : DataFrame) :
  let r := List.length st in
  (medu <- getitem r "Medu" ;;
   fedu <- getitem r "Fedu" ;;
   total <- lift (zipR v_add medu fedu) ;;
   setitem r "Parent_Edu_Total" total ;;
   medu <- getitem r "Medu" ;;
   fedu <- getitem r "Fedu" ;;
   diff <- lift (zipR v_sub medu fedu) ;;
   adiff <- lift (mapR v_abs diff) ;;
   setitem r "Parent_Edu_Diff" adiff ;;
   dalc <- getitem r "Dalc" ;;
   walc <- getitem r "Walc" ;;
   walc2 <- lift (mapR (fun v => v_mul v (VInt 2)) walc) ;;
   alc <- lift (zipR v_add dalc walc2) ;;
   setitem r "Total_Alcohol" alc ;;
   ta1 <- getitem r "Total_Alcohol" ;;
   ta2 <- getitem r "Total_Alcohol" ;;
   sq <- lift (zipR v_mul ta1 ta2) ;;
   goout <- getitem r "goout" ;;
   party <- lift (zipR v_mul sq goout) ;;
   setitem r "Party_Life" party ;;
   k) (st ++ [f]) =
  match derive_features f with
  | Ok g => k (st ++ [g])
  | Raise e => Raise e
  end.
Proof.
  intros r. subst r. unfold derive_features.
  repeat first
    [ rewrite run_setitem; cbv zeta
    | rewrite (run_getitem _ (st ++ [_]) (List.length st) _ _ (nth_error_snoc _ _));
      match goal with
      | E : df_getitem ?c ?g = Ok _ |- context [df_getitem ?c ?g] =>
          rewrite !E; cbn [rbind]
      | |- context [df_getitem ?c ?g] =>
          destruct (df_getitem c g) eqn:?; cbn [rbind]; [|reflexivity]
      end
    | rewrite run_lift;
      match goal with |- match ?v with Ok _ => _ | Raise _ => _ end = _ =>
        destruct v; cbn [rbind]; [|reflexivity] end ].
  reflexivity.
Qed.

Lemma preprocess_data_run (st : store) (r : ref) (f : DataFrame)
      (training_columns : option (list string)) :
  nth_error st r = Some f ->
  preprocess_data r training_columns st =
  match encode_steps f training_columns with
  | Ok (junk, t) => Ok (List.length st + List.length junk, st ++ junk ++ [t])
  | Raise e => Raise e
  end.
Proof.
  intros H. unfold preprocess_data, encode_steps, encode_features.
  rewrite (run_copy _ _ _ f) by exact H.
  rewrite (run_columns _ _ _ f) by apply nth_error_snoc.
  rewrite (run_drop _ _ _ f) by apply nth_error_snoc.
  set (f1 := df_drop _ f). set (st1 := st ++ [f]).
  unfold encode_categorical.
  rewrite run_map_columns.
  destruct (foldR _ cols_yes_no f1) as [fa|e]; cbn [rbind]; [|reflexivity].
  rewrite run_map_column.
  destruct (map_column_df "sex" _ fa) as [fb|e]; cbn [rbind]; [|reflexivity].
  rewrite run_map_column.
  destruct (map_column_df "address" _ fb) as [fc|e]; cbn [rbind]; [|reflexivity].
  rewrite run_map_column.
  destruct (map_column_df "famsize" _ fc) as [fd|e]; cbn [rbind]; [|reflexivity].
  rewrite run_map_column.
  destruct (map_column_df "Pstatus" _ fd) as [f2|e]; cbn [rbind]; [|reflexivity].
  rewrite (run_get_dummies _ _ _ f2) by apply nth_error_snoc.
  destruct (df_get_dummies nominal_cols f2) as [f3|e]; cbn [rbind]; [|reflexivity].
  set (st2 := st1 ++ [f2]).
  rewrite derive_features_run.
  destruct (derive_features f3) as [f4|e]; cbn [rbind]; [|reflexivity].
  assert (L2 : List.length st2 = List.length st + 2)
    by (unfold st2, st1; rewrite !length_app; simpl; lia).
  destruct training_columns as [tc|]; cbn [fst snd].
  - rewrite run_fill_missing. cbv beta.
    run_prims. rewrite nth_error_snoc.
    destruct (df_select tc (fill_missing tc f4)) as [t|e]; cbn [rbind]; [|reflexivity].
    unfold st2, st1. rewrite !length_app. simpl.
    rewrite <- !app_assoc. simpl. do 2 f_equal. lia.
  - unfold ret, st2, st1. rewrite !length_app. simpl.
    rewrite <- !app_assoc. simpl. do 2 f_equal. lia.
Qed.

Lemma dashboard_run (st : store) (sel : DataFrame) (preds : list Q) :
  let results := List.length st in
  (setitem_array results "Potential_Grade" (map (fun p => VFloat (round2 p)) preds) ;;
   pg <- getitem results "Potential_Grade" ;;
   fg <- getitem results "FinalGrade" ;;
   margin <- lift (zipR v_sub pg fg) ;;
   setitem results "Improvability_Margin" margin ;;
   im <- getitem results "Improvability_Margin" ;;
   clipped <- lift (mapR (v_clip_lower 0) im) ;;
   setitem results "Improvability_Margin" clipped ;;
   im <- getitem results "Improvability_Margin" ;;
   ratio <- lift (mapR (fun v => v_div_const v 20) im) ;;
   score <- lift (mapR (fun v => v_sub (VInt 1) v) ratio) ;;
   setitem results "Complexity_Score" score ;;
   ret results) (st ++ [sel]) =
  match dashboard sel preds with
  | Ok out => Ok (List.length st, st ++ [out])
  | Raise e => Raise e
  end.
Proof.
  intros r. subst r. unfold dashboard.
  rewrite run_setitem_array.
  destruct (df_setitem_array _ _ sel) as [r0|e]; cbn [rbind]; [|reflexivity].
  repeat first
    [ rewrite run_setitem; cbv zeta
    | rewrite (run_getitem _ (st ++ [_]) (List.length st) _ _ (nth_error_snoc _ _));
      match goal with
      | |- context [df_getitem ?c ?g] =>
          destruct (df_getitem c g) eqn:?; cbn [rbind]; [|reflexivity]
      end
    | rewrite run_lift;
      match goal with |- match ?v with Ok _ => _ | Raise _ => _ end = _ =>
        destruct v; cbn [rbind]; [|reflexivity] end ].
  reflexivity.
Qed.

Lemma generate_dashboard_data_eq (st : store) (csv_path model_path features_path : string)
      (df : DataFrame) (model : predictor) (feature_cols : list string) :
  read_csv csv_path = Ok df ->
  load_model model_path = Ok model ->
  load_features features_path = Ok feature_cols ->
  generate_dashboard_data csv_path model_path features_path st =
  match encode_steps (idealize df) (Some feature_cols) with
  | Ok (junk, X) =>
      do preds <- model X;
      do sel <- df_select passthrough df;
      do out <- dashboard sel preds;
      Ok (List.length st + S (List.length (idealize df :: junk ++ [X; sel])),
          st ++ df :: (idealize df :: junk ++ [X; sel]) ++ [out])
  | Raise e => Raise e
  end.
Proof.
  intros Hcsv Hmod Hfeat.
  unfold generate_dashboard_data, load_data.
  rewrite bind_assoc, run_lift, Hcsv.
  change (bind (new_frame df) ?k st) with (k (List.length st) (st ++ [df])).
  cbv beta. rewrite run_lift, Hmod, run_lift, Hfeat.
  unfold bind at 1.
  rewrite (create_ideal_profile_run _ _ df) by apply nth_error_snoc.
  unfold bind at 1.
  rewrite (preprocess_data_run _ _ (idealize df)) by apply nth_error_snoc.
  destruct (encode_steps (idealize df) (Some feature_cols)) as [[junk X]|e];
    [|reflexivity].
  set (st1 := (st ++ [df]) ++ [idealize df]).
  unfold model_predict. rewrite bind_assoc.
  assert (HX : nth_error (st1 ++ junk ++ [X]) (List.length st1 + List.length junk) = Some X).
  { rewrite app_assoc.
    replace (List.length st1 + List.length junk) with (List.length (st1 ++ junk))
      by now rewrite length_app.
    apply nth_error_snoc. }
  unfold bind at 1, deref. rewrite HX.
  rewrite run_lift.
  destruct (model X) as [preds|e]; cbn [rbind]; [|reflexivity].
  assert (Hraw : nth_error (st1 ++ junk ++ [X]) (List.length st) = Some df).
  { unfold st1. rewrite <- !app_assoc. rewrite nth_error_app2 by lia.
    now rewrite Nat.sub_diag. }
  rewrite (run_getitems _ _ _ df) by exact Hraw.
  fold passthrough.
  destruct (df_select passthrough df) as [sel|e]; cbn [rbind]; [|reflexivity].
  rewrite (run_copy _ _ _ sel) by apply nth_error_snoc.
  rewrite dashboard_run.
  destruct (dashboard sel preds) as [out|e]; cbn [rbind]; [|reflexivity].
  unfold st1. rewrite !length_app. simpl. rewrite !length_app. simpl.
  f_equal. f_equal; [lia|].
  repeat (rewrite <- app_assoc; simpl). reflexivity.
Qed.

(** The pipeline returns the table [dashboard_of] describes, in a fresh
    object; the loaded table is stored right after the objects that were
    there before, which are left as they were. *)
Lemma generate_dashboard_data_run (st : store) (csv_path model_path features_path : string)
      (df : DataFrame) (model : predictor) (feature_cols : list string) :
  read_csv csv_path = Ok df ->
  load_model model_path = Ok model ->
  load_features features_path = Ok feature_cols ->
  match dashboard_of df model feature_cols with
  | Ok out =>
      exists junk,
        generate_dashboard_data csv_path model_path features_path st =
        Ok (List.length st + S (List.length junk), st ++ df :: junk ++ [out])
  | Raise e =>
      generate_dashboard_data csv_path model_path features_path st = Raise e
  end.
Proof.
  intros Hcsv Hmod Hfeat.
  rewrite (generate_dashboard_data_eq st _ _ _ _ _ _ Hcsv Hmod Hfeat).
  unfold dashboard_of, encode.
  destruct (encode_steps (idealize df) (Some feature_cols)) as [[junk X]|e];
    cbn [rbind snd]; [|reflexivity].
  destruct (model X) as [preds|e]; cbn [rbind]; [|reflexivity].
  destruct (df_select passthrough df) as [sel|e]; cbn [rbind]; [|reflexivity].
  destruct (dashboard sel preds) as [out|e]; cbn [rbind]; [|reflexivity].
  now exists (idealize df :: junk ++ [X; sel]).
Qed.

(** ** Columns, cell by cell *)

Lemma mapR_nth {A B} (g : A -> result B) (l : list A) :
  forall (r : list B) (i : nat) (a : A),
  mapR g l = Ok r -> nth_error l i = Some a ->
  exists b, g a = Ok b /\ nth_error r i = Some b.
Proof.
  induction l as [|x l IH]; intros r i a H Hi.
  - now destruct i.
  - simpl in H. destruct (g x) as [y|] eqn:Ey; [|discriminate].
    destruct (mapR g l) as [ys|] eqn:Eys; [|discriminate].
    simpl in H. injection H as <-.
    destruct i as [|i]; simpl in *.
    + injection Hi as <-. now exists y.
    + now apply (IH ys).
Qed.


Lemma zipR_nth (op : value -> value -> result value) (s : Series) :
  forall (t r : Series) (i : nat) (a b : value),
  zipR op s t = Ok r -> nth_error s i = Some a -> nth_error t i = Some b ->
  exists c, op a b = Ok c /\ nth_error r i = Some c.
Proof.
  induction s as [|x s IH]; intros t r i a b H Ha Hb.
  - now destruct i.
  - destruct t as [|y t]; [now destruct i|].
    simpl in H. destruct (op x y) as [z|] eqn:Ez; [|discriminate].
    destruct (zipR op s t) as [zs|] eqn:Ezs; [|discriminate].
    simpl in H. injection H as <-.
    destruct i as [|i]; simpl in *.
    + injection Ha as <-. injection Hb as <-. now exists z.
    + now apply (IH t zs).
Qed.


(** ** Labels and columns of a frame *)

Lemma has_label_In (c : string) (l : list string) :
  has_label c l = true <-> In c l.
Proof.
  unfold has_label. rewrite existsb_exists. split.
  - intros [x [Hx E]]. apply String.eqb_eq in E. now subst.
  - intros H. exists c. split; [exact H | apply String.eqb_refl].
Qed.

Lemma has_label_false (c : string) (l : list string) :
  has_label c l = false <-> ~ In c l.
Proof.
  rewrite <- has_label_In. destruct (has_label c l); split; congruence.
Qed.

Lemma cols_named_nil (c : string) (df : DataFrame) :
  cols_named c df = [] <-> ~ In c (columns df).
Proof.
  unfold cols_named, columns. induction (cols df) as [|[n s] l IH]; simpl.
  - tauto.
  - destruct (String.eqb_spec c n) as [->|N]; simpl.
    + split; [discriminate | intros H; exfalso; apply H; now left].
    + rewrite IH. split; [intros H [E|I]; [congruence|tauto] | tauto].
Qed.

Lemma df_getitem_Ok (c : string) (df : DataFrame) (s : Series) :
  df_getitem c df = Ok s <-> cols_named c df = [s].
Proof.
  unfold df_getitem. destruct (cols_named c df) as [|x [|y l]]; split; congruence.
Qed.

Lemma df_getitem_In (c : string) (df : DataFrame) (s : Series) :
  df_getitem c df = Ok s -> In c (columns df).
Proof.
  intros H. apply df_getitem_Ok in H.
  destruct (in_dec string_dec c (columns df)) as [I|N]; [exact I|].
  apply cols_named_nil in N. congruence.
Qed.

(** In a frame whose labels are distinct, a label that is present names
    one column. *)
Lemma cols_named_NoDup (c : string) (df : DataFrame) :
  NoDup (columns df) -> In c (columns df) -> exists s, cols_named c df = [s].
Proof.
  unfold cols_named, columns. induction (cols df) as [|[n s] l IH]; simpl.
  - tauto.
  - intros ND I. inversion ND as [|? ? Hn ND']; subst.
    destruct (String.eqb_spec c n) as [->|N]; simpl.
    + exists s. f_equal.
      change (cols_named n (mkDF 0 l) = []). now apply cols_named_nil.
    + destruct I as [E|I]; [congruence|]. now apply IH.
Qed.

Lemma nrows_setitem (c : string) (s : Series) (df : DataFrame) :
  nrows (df_setitem c s df) = nrows df.
Proof. unfold df_setitem. now destruct (has_label c (columns df)). Qed.

Lemma columns_setitem (c : string) (s : Series) (df : DataFrame) :
  columns (df_setitem c s df) =
  if has_label c (columns df) then columns df else columns df ++ [c].
Proof.
  unfold df_setitem, columns. destruct (has_label c (map fst (cols df))); simpl.
  - rewrite map_map. apply map_ext. intros [n x]; simpl.
    now destruct (String.eqb c n).
  - now rewrite map_app.
Qed.

Lemma cols_named_setitem_other (c c' : string) (s : Series) (df : DataFrame) :
  c <> c' -> cols_named c (df_setitem c' s df) = cols_named c df.
Proof.
  intros N. unfold df_setitem, cols_named.
  destruct (has_label c' (columns df)); simpl.
  - induction (cols df) as [|[n x] l IH]; simpl; [reflexivity|].
    destruct (String.eqb_spec c' n) as [->|N']; simpl.
    + destruct (String.eqb_spec c n); [congruence | exact IH].
    + destruct (String.eqb c n); simpl; now rewrite IH.
  - rewrite filter_app, map_app. simpl.
    destruct (String.eqb_spec c c'); [congruence|]. simpl. apply app_nil_r.
Qed.

(** After [df[c] = s], every column labelled [c] is [s], and there is one. *)
Lemma cols_named_setitem_same (c : string) (s : Series) (df : DataFrame) :
  cols_named c (df_setitem c s df) =
  repeat s (Nat.max 1 (List.length (cols_named c df))).
Proof.
  unfold df_setitem. destruct (has_label c (columns df)) eqn:E.
  - assert (L : cols_named c df <> []).
    { intros N. apply cols_named_nil in N. now apply has_label_In in E. }
    assert (G : forall l,
               map snd (filter (fun p => String.eqb c (fst p))
                          (map (fun p : string * Series =>
                                  if String.eqb c (fst p) then (fst p, s) else p) l)) =
               repeat s (List.length
                           (map snd (filter (fun p : string * Series =>
                                               String.eqb c (fst p)) l)))).
    { induction l as [|[n x] l IH]; simpl; [reflexivity|].
      destruct (String.eqb c n) eqn:En; simpl; rewrite En; simpl; now rewrite IH. }
    unfold cols_named in *. simpl. rewrite G.
    destruct (map snd _) as [|x l]; [congruence | reflexivity].
  - apply has_label_false, cols_named_nil in E.
    rewrite E. unfold cols_named in *. simpl.
    rewrite filter_app, map_app, E. simpl. now rewrite String.eqb_refl.
Qed.

Lemma filter_setitem_other (P : string -> bool) (c : string) (s : Series)
      (df : DataFrame) :
  P c = false ->
  filter (fun p => P (fst p)) (cols (df_setitem c s df)) =
  filter (fun p => P (fst p)) (cols df).
Proof.
  intros Pc. unfold df_setitem. destruct (has_label c (columns df)); simpl.
  - induction (cols df) as [|[n x] l IH]; simpl; [reflexivity|].
    destruct (String.eqb_spec c n) as [->|N]; simpl.
    + now rewrite Pc.
    + destruct (P n); now rewrite IH.
  - rewrite filter_app. simpl. rewrite Pc. apply app_nil_r.
Qed.

Lemma repeat_max1_nonempty {A} (x : A) (n : nat) : repeat x (Nat.max 1 n) <> [].
Proof. destruct n; discriminate. Qed.

Lemma Forall_repeat {A} (x : A) (n : nat) : Forall (eq x) (repeat x n).
Proof. induction n; simpl; constructor; auto. Qed.

(** ** The counterfactual profile *)

Lemma nrows_idealize (f : DataFrame) : nrows (idealize f) = nrows f.
Proof. unfold idealize, df_setitem_scalar. now rewrite !nrows_setitem. Qed.

Lemma cols_named_idealize_other (c : string) (f : DataFrame) :
  is_override c = false -> cols_named c (idealize f) = cols_named c f.
Proof.
  intros H. apply has_label_false in H. simpl in H.
  unfold idealize, df_setitem_scalar.
  rewrite !cols_named_setitem_other; [reflexivity | intros ->; tauto ..].
Qed.

Lemma cols_named_idealize_override (c : string) (k : Z) (f : DataFrame) :
  In (c, k) habit_overrides ->
  cols_named c (idealize f) =
  repeat (repeat (VInt k) (nrows f)) (Nat.max 1 (List.length (cols_named c f))).
Proof.
  intros H. unfold idealize, df_setitem_scalar.
  simpl in H.
  repeat (destruct H as [H|H]; [injection H as <- <-|]); [..|contradiction];
    repeat (rewrite cols_named_setitem_other by discriminate);
    rewrite cols_named_setitem_same;
    repeat (rewrite cols_named_setitem_other by discriminate);
    now rewrite ?nrows_setitem.
Qed.

Lemma filter_idealize (f : DataFrame) :
  filter (fun p => negb (is_override (fst p))) (cols (idealize f)) =
  filter (fun p => negb (is_override (fst p))) (cols f).
Proof.
  unfold idealize, df_setitem_scalar.
  now rewrite !(filter_setitem_other (fun c => negb (is_override c))).
Qed.

(** C5.  [create_ideal_profile] returns a new object and leaves every
    object that existed, the input among them, as it was.  The new
    table has the rows of the input; each of studytime, Dalc, Walc,
    absences and goout is present in it and holds 4, 1, 1, 0 and 2 in every
    row, whatever the input held; every other column (identifier, names
    and FinalGrade among them) is the input's, in the input's order. *)
Theorem create_ideal_profile_copy_and_override (st : store) (r : ref) (f : DataFrame) :
  nth_error st r = Some f ->
  exists (r' : ref) (st' : store) (f' : DataFrame),
    create_ideal_profile r st = Ok (r', st') /\
    nth_error st r' = None /\
    (forall q g, nth_error st q = Some g -> nth_error st' q = Some g) /\
    nth_error st' r' = Some f' /\
    nrows f' = nrows f /\
    (forall c k, In (c, k) habit_overrides ->
                 cols_named c f' <> [] /\
                 Forall (eq (repeat (VInt k) (nrows f))) (cols_named c f')) /\
    (forall c, is_override c = false -> cols_named c f' = cols_named c f) /\
    filter (fun p => negb (is_override (fst p))) (cols f') =
    filter (fun p => negb (is_override (fst p))) (cols f).
Proof.
  intros H. exists (List.length st), (st ++ [idealize f]), (idealize f).
  split; [now apply create_ideal_profile_run|].
  split; [apply nth_error_None; lia|].
  split; [intros q g Hq; now apply nth_error_snoc_old|].
  split; [apply nth_error_snoc|].
  split; [apply nrows_idealize|].
  split; [|split; [intros c; apply cols_named_idealize_other | apply filter_idealize]].
  intros c k Hk. rewrite (cols_named_idealize_override c k f Hk).
  split; [apply repeat_max1_nonempty | apply Forall_repeat].
Qed.

(** ** Selecting columns *)

Lemma select_cols_Ok (ls : list string) (cs : list (string * Series)) :
  forall r, select_cols ls cs = Ok r ->
  r = flat_map (fun c => filter (fun p => String.eqb c (fst p)) cs) ls.
Proof.
  unfold select_cols. induction ls as [|c ls IH]; intros r H; simpl in H.
  - now injection H as <-.
  - destruct (filter (fun p => String.eqb c (fst p)) cs) as [|x m] eqn:E;
      [discriminate|].
    simpl in H. destruct (mapR _ ls) as [ms|]; [|discriminate].
    simpl in H. injection H as <-. simpl. rewrite E. simpl. do 2 f_equal.
    now apply IH.
Qed.

Lemma select_cols_total (ls : list string) (cs : list (string * Series)) :
  (forall c, In c ls -> In c (map fst cs)) ->
  exists r, select_cols ls cs = Ok r.
Proof.
  unfold select_cols. induction ls as [|c ls IH]; intros H; simpl.
  - now eexists.
  - destruct IH as [r Hr]; [intros; apply H; now right|].
    destruct (filter (fun p => String.eqb c (fst p)) cs) as [|x m] eqn:E.
    + exfalso. assert (N : cols_named c (mkDF 0 cs) = [])
        by (unfold cols_named; simpl; now rewrite E).
      apply cols_named_nil in N. apply N, H. now left.
    + simpl. destruct (mapR _ ls) as [ms|]; [|discriminate].
      simpl. now eexists.
Qed.

Lemma select_cols_KeyError (ls : list string) (cs : list (string * Series)) (c : string) :
  In c ls -> ~ In c (map fst cs) -> exists e, select_cols ls cs = Raise e.
Proof.
  unfold select_cols. induction ls as [|x ls IH]; intros I N; [contradiction|].
  simpl. destruct (filter (fun p => String.eqb x (fst p)) cs) as [|y m] eqn:E.
  - now eexists.
  - simpl. destruct I as [->|I].
    + exfalso. apply N.
      assert (Hy : In y (filter (fun p => String.eqb c (fst p)) cs))
        by (rewrite E; now left).
      apply filter_In in Hy. destruct Hy as [Hy Ey].
      apply String.eqb_eq in Ey. subst. now apply in_map.
    + destruct (IH I N) as [e He].
      destruct (mapR _ ls) as [ms|e']; simpl in *; [discriminate | now eexists].
Qed.

Lemma filter_filter_label (c l : string) (cs : list (string * Series)) :
  filter (fun p => String.eqb c (fst p)) (filter (fun p => String.eqb l (fst p)) cs) =
  if String.eqb c l then filter (fun p => String.eqb c (fst p)) cs else [].
Proof.
  induction cs as [|[n x] cs IH]; simpl; [now destruct (String.eqb c l)|].
  destruct (String.eqb_spec l n) as [->|Nl]; simpl.
  - rewrite IH. now destruct (String.eqb c n).
  - rewrite IH. destruct (String.eqb_spec c l) as [->|Ncl]; [|reflexivity].
    destruct (String.eqb_spec l n); [congruence | reflexivity].
Qed.

(** The columns labelled [c] in [df[ls]]: those of [df], once for each
    time [ls] asks for [c]. *)
Lemma cols_named_select (c : string) (ls : list string) (df g : DataFrame) :
  df_select ls df = Ok g ->
  cols_named c g =
  flat_map (fun l => if String.eqb c l then cols_named c df else []) ls.
Proof.
  unfold df_select. destruct (select_cols ls (cols df)) as [r|] eqn:E; [|discriminate].
  simpl. intros H. injection H as <-. apply select_cols_Ok in E. subst r.
  unfold cols_named. simpl.
  induction ls as [|l ls IH]; simpl; [reflexivity|].
  rewrite filter_app, map_app, IH, filter_filter_label.
  now destruct (String.eqb c l).
Qed.

Lemma nrows_select (ls : list string) (df g : DataFrame) :
  df_select ls df = Ok g -> nrows g = nrows df.
Proof.
  unfold df_select. destruct (select_cols ls (cols df)); [|discriminate].
  simpl. intros H. now injection H as <-.
Qed.

Lemma columns_select_In (ls : list string) (df g : DataFrame) (c : string) :
  df_select ls df = Ok g -> In c (columns g) -> In c ls.
Proof.
  intros H I.
  destruct (in_dec string_dec c ls) as [Y|N]; [exact Y | exfalso].
  assert (E : cols_named c g = []).
  { rewrite (cols_named_select c ls df g H). clear H I.
    induction ls as [|l ls IH]; simpl; [reflexivity|].
    destruct (String.eqb_spec c l) as [->|_]; [exfalso; apply N; now left|].
    apply IH. intros Y. apply N. now right. }
  now apply cols_named_nil in E.
Qed.

(** When the labels of the table are distinct, [df[ls]] has exactly the
    labels [ls], in the order of [ls]. *)
Lemma columns_select_NoDup (ls : list string) (df g : DataFrame) :
  NoDup (columns df) -> df_select ls df = Ok g -> columns g = ls.
Proof.
  intros ND. unfold df_select.
  destruct (select_cols ls (cols df)) as [r|] eqn:E; [|discriminate].
  simpl. intros H. injection H as <-.
  unfold columns. simpl. revert r E.
  unfold select_cols. induction ls as [|c ls IH]; intros r E; simpl in E.
  - now injection E as <-.
  - destruct (filter (fun p => String.eqb c (fst p)) (cols df)) as [|x m] eqn:F;
      [discriminate|].
    simpl in E. destruct (mapR _ ls) as [ms|] eqn:Ems; [|discriminate].
    simpl in E. injection E as <-.
    assert (I : In c (columns df)).
    { destruct (in_dec string_dec c (columns df)) as [I|N]; [exact I|].
      apply cols_named_nil in N. unfold cols_named in N. now rewrite F in N. }
    destruct (cols_named_NoDup c df ND I) as [s Hs].
    unfold cols_named in Hs. rewrite F in Hs. simpl in Hs.
    destruct m; [|discriminate].
    assert (Hx : In x (filter (fun p => String.eqb c (fst p)) (cols df)))
      by (rewrite F; now left).
    apply filter_In in Hx. destruct Hx as [_ Ex]. apply String.eqb_eq in Ex.
    simpl. rewrite <- Ex. f_equal. now apply IH.
Qed.

(** ** The result table *)

Lemma setitem_absent (c : string) (s : Series) (n : nat) (l : list (string * Series)) :
  ~ In c (map fst l) ->
  df_setitem c s (mkDF n l) = mkDF n (l ++ [(c, s)]).
Proof.
  intros N. unfold df_setitem, columns. simpl.
  apply has_label_false in N. now rewrite N.
Qed.

Lemma replace_absent (c : string) (s : Series) (l : list (string * Series)) :
  ~ In c (map fst l) ->
  map (fun p : string * Series => if String.eqb c (fst p) then (fst p, s) else p) l = l.
Proof.
  induction l as [|[n x] l IH]; simpl; intros N; [reflexivity|].
  destruct (String.eqb_spec c n) as [->|_]; [tauto|].
  rewrite IH; tauto.
Qed.

Lemma setitem_last (c : string) (s s' : Series) (n : nat) (l : list (string * Series)) :
  ~ In c (map fst l) ->
  df_setitem c s' (mkDF n (l ++ [(c, s)])) = mkDF n (l ++ [(c, s')]).
Proof.
  intros N. unfold df_setitem, columns. simpl.
  assert (H : has_label c (map fst (l ++ [(c, s)])) = true).
  { apply has_label_In. rewrite map_app. apply in_or_app. right. now left. }
  rewrite H, map_app, replace_absent by exact N.
  simpl. now rewrite String.eqb_refl.
Qed.

Lemma getitem_last (c : string) (s : Series) (n : nat) (l : list (string * Series)) :
  ~ In c (map fst l) ->
  df_getitem c (mkDF n (l ++ [(c, s)])) = Ok s.
Proof.
  intros N. apply df_getitem_Ok. unfold cols_named. simpl.
  rewrite filter_app, map_app. simpl. rewrite String.eqb_refl. simpl.
  change (cols_named c (mkDF n l) ++ [s] = [s]).
  change (~ In c (columns (mkDF n l))) in N.
  apply cols_named_nil in N. now rewrite N.
Qed.

Lemma getitem_app_old (c : string) (n : nat) (l l' : list (string * Series)) :
  ~ In c (map fst l') ->
  df_getitem c (mkDF n (l ++ l')) = df_getitem c (mkDF n l).
Proof.
  intros N. unfold df_getitem, cols_named. simpl.
  rewrite filter_app, map_app.
  change (map snd (filter (fun p => String.eqb c (fst p)) l'))
    with (cols_named c (mkDF n l')).
  change (~ In c (columns (mkDF n l'))) in N.
  apply cols_named_nil in N. rewrite N. now rewrite app_nil_r.
Qed.



(** What a successful [dashboard] computed, column by column. *)
Lemma dashboard_inv (sel out : DataFrame) (preds : list Q) :
  dashboard sel preds = Ok out ->
  (forall c, In c (columns sel) -> In c passthrough) ->
  exists fg margin im ratio score,
    List.length preds = nrows sel /\
    df_getitem "FinalGrade" sel = Ok fg /\
    zipR v_sub (rounded preds) fg = Ok margin /\
    mapR (v_clip_lower 0) margin = Ok im /\
    mapR (fun v => v_div_const v 20) im = Ok ratio /\
    mapR (fun v => v_sub (VInt 1) v) ratio = Ok score /\
    out = mkDF (nrows sel)
               (cols sel ++ [("Potential_Grade", rounded preds);
                             ("Improvability_Margin", im);
                             ("Complexity_Score", score)]).
Proof.
  intros H Hsel. destruct sel as [n l]. unfold columns in Hsel. simpl in Hsel.
  assert (N1 : ~ In "Potential_Grade" (map fst l))
    by (intros I; apply Hsel in I; simpl in I; intuition discriminate).
  assert (N2 : ~ In "Improvability_Margin" (map fst (l ++ [("Potential_Grade", rounded preds)]))).
  { rewrite map_app. intros I. apply in_app_or in I. destruct I as [I|I].
    - apply Hsel in I. simpl in I. intuition discriminate.
    - simpl in I. intuition discriminate. }
  assert (N3 : ~ In "Complexity_Score"
                 (map fst ((l ++ [("Potential_Grade", rounded preds)]) ++
                           [("Improvability_Margin", @nil value)]))).
  { rewrite !map_app. intros I.
    apply in_app_or in I. destruct I as [I|I]; [apply in_app_or in I; destruct I as [I|I]|].
    - apply Hsel in I. simpl in I. intuition discriminate.
    - simpl in I. intuition discriminate.
    - simpl in I. intuition discriminate. }
  unfold dashboard, df_setitem_array in H. simpl nrows in H.
  fold (rounded preds) in H.
  destruct (Nat.eqb_spec (List.length (rounded preds)) n) as [L|_]; [|discriminate].
  unfold rounded in L. rewrite length_map in L. fold (rounded preds) in H.
  cbn [rbind] in H.
  rewrite setitem_absent in H by exact N1.
  rewrite getitem_last in H by exact N1. cbn [rbind] in H.
  rewrite getitem_app_old in H by (simpl; intuition discriminate).
  destruct (df_getitem "FinalGrade" (mkDF n l)) as [fg|] eqn:Efg; [|discriminate].
  cbn [rbind] in H.
  destruct (zipR v_sub (rounded preds) fg) as [margin|] eqn:Em; [|discriminate].
  cbn [rbind] in H. cbv zeta in H.
  rewrite setitem_absent in H by exact N2.
  rewrite getitem_last in H by exact N2. cbn [rbind] in H.
  destruct (mapR (v_clip_lower 0) margin) as [im|] eqn:Eim; [|discriminate].
  cbn [rbind] in H.
  rewrite setitem_last in H by exact N2.
  rewrite getitem_last in H by exact N2. cbn [rbind] in H.
  destruct (mapR (fun v => v_div_const v 20) im) as [ratio|] eqn:Er; [|discriminate].
  cbn [rbind] in H.
  destruct (mapR (fun v => v_sub (VInt 1) v) ratio) as [score|] eqn:Es; [|discriminate].
  cbn [rbind] in H.
  rewrite setitem_absent in H.
  2:{ rewrite !map_app in *. simpl in *. exact N3. }
  injection H as <-.
  exists fg, margin, im, ratio, score. simpl.
  repeat split; try assumption.
  now rewrite <- !app_assoc.
Qed.

(** Conversely, when each column can be computed, [dashboard] returns
    the table made of them. *)
Lemma dashboard_Ok (sel : DataFrame) (preds : list Q) (fg margin im ratio score : Series) :
  (forall c, In c (columns sel) -> In c passthrough) ->
  List.length preds = nrows sel ->
  df_getitem "FinalGrade" sel = Ok fg ->
  zipR v_sub (rounded preds) fg = Ok margin ->
  mapR (v_clip_lower 0) margin = Ok im ->
  mapR (fun v => v_div_const v 20) im = Ok ratio ->
  mapR (fun v => v_sub (VInt 1) v) ratio = Ok score ->
  dashboard sel preds =
  Ok (mkDF (nrows sel)
           (cols sel ++ [("Potential_Grade", rounded preds);
                         ("Improvability_Margin", im);
                         ("Complexity_Score", score)])).
Proof.
  intros Hsel L Efg Em Eim Er Es. destruct sel as [n l].
  unfold columns in Hsel. simpl in Hsel, L. simpl nrows. simpl cols.
  assert (N1 : ~ In "Potential_Grade" (map fst l))
    by (intros I; apply Hsel in I; simpl in I; intuition discriminate).
  assert (N2 : ~ In "Improvability_Margin" (map fst (l ++ [("Potential_Grade", rounded preds)]))).
  { rewrite map_app. intros I. apply in_app_or in I. destruct I as [I|I].
    - apply Hsel in I. simpl in I. intuition discriminate.
    - simpl in I. intuition discriminate. }
  assert (N3 : ~ In "Complexity_Score"
                 (map fst ((l ++ [("Potential_Grade", rounded preds)]) ++
                           [("Improvability_Margin", im)]))).
  { rewrite !map_app. intros I.
    apply in_app_or in I. destruct I as [I|I]; [apply in_app_or in I; destruct I as [I|I]|].
    - apply Hsel in I. simpl in I. intuition discriminate.
    - simpl in I. intuition discriminate.
    - simpl in I. intuition discriminate. }
  unfold dashboard, df_setitem_array. simpl nrows.
  fold (rounded preds).
  assert (Lr : List.length (rounded preds) = n)
    by (unfold rounded; now rewrite length_map).
  rewrite Lr, Nat.eqb_refl. cbn [rbind].
  rewrite setitem_absent by exact N1.
  rewrite getitem_last by exact N1. cbn [rbind].
  rewrite getitem_app_old by (simpl; intuition discriminate).
  rewrite Efg. cbn [rbind]. rewrite Em. cbn [rbind]. cbv zeta.
  rewrite setitem_absent by exact N2.
  rewrite getitem_last by exact N2. cbn [rbind].
  rewrite Eim. cbn [rbind].
  rewrite setitem_last by exact N2.
  rewrite getitem_last by exact N2. cbn [rbind].
  rewrite Er. cbn [rbind]. rewrite Es. cbn [rbind].
  rewrite setitem_absent by exact N3.
  now rewrite <- !app_assoc.
Qed.

(** ** The pipeline, when it returns *)

Lemma generate_dashboard_data_loads (st : store) (csv_path model_path features_path : string)
      (x : ref * store) :
  generate_dashboard_data csv_path model_path features_path st = Ok x ->
  exists df model feature_cols,
    read_csv csv_path = Ok df /\
    load_model model_path = Ok model /\
    load_features features_path = Ok feature_cols.
Proof.
  unfold generate_dashboard_data, load_data.
  rewrite bind_assoc, run_lift.
  destruct (read_csv csv_path) as [df|]; [|discriminate].
  change (bind (new_frame df) ?k st) with (k (List.length st) (st ++ [df])).
  cbv beta. rewrite run_lift.
  destruct (load_model model_path) as [model|]; [|discriminate].
  rewrite run_lift.
  destruct (load_features features_path) as [fc|]; [|discriminate].
  intros _. now exists df, model, fc.
Qed.

Lemma nth_error_last_of (st junk : store) (df out : DataFrame) :
  nth_error (st ++ df :: junk ++ [out]) (List.length st + S (List.length junk)) = Some out.
Proof.
  rewrite nth_error_app2 by lia.
  replace (List.length st + S (List.length junk) - List.length st)
    with (S (List.length junk)) by lia.
  simpl. apply nth_error_snoc.
Qed.

(** Everything a returned table is made of. *)
Lemma dashboard_returns_inv (csv_path model_path features_path : string)
      (st : store) (out : DataFrame) :
  dashboard_returns csv_path model_path features_path st out ->
  exists df model feature_cols X preds sel,
    read_csv csv_path = Ok df /\
    load_model model_path = Ok model /\
    load_features features_path = Ok feature_cols /\
    encode (idealize df) (Some feature_cols) = Ok X /\
    model X = Ok preds /\
    df_select passthrough df = Ok sel /\
    dashboard sel preds = Ok out.
Proof.
  intros (r & st' & Hrun & Hout).
  destruct (generate_dashboard_data_loads _ _ _ _ _ Hrun) as (df & model & fc & H1 & H2 & H3).
  exists df, model, fc.
  pose proof (generate_dashboard_data_run st _ _ _ _ _ _ H1 H2 H3) as R.
  unfold dashboard_of in R.
  destruct (encode (idealize df) (Some fc)) as [X|] eqn:EX; cbn [rbind] in R;
    [|congruence].
  destruct (model X) as [preds|] eqn:Ep; cbn [rbind] in R; [|congruence].
  destruct (df_select passthrough df) as [sel|] eqn:Es; cbn [rbind] in R;
    [|congruence].
  destruct (dashboard sel preds) as [out'|] eqn:Eo; [|congruence].
  destruct R as [junk R]. rewrite R in Hrun. injection Hrun as <- <-.
  rewrite nth_error_last_of in Hout. injection Hout as <-.
  now exists X, preds, sel.
Qed.

(** The columns of a returned table. *)
Lemma dashboard_returns_columns (csv_path model_path features_path : string)
      (st : store) (out : DataFrame) :
  dashboard_returns csv_path model_path features_path st out ->
  exists df model feature_cols X preds sel fg margin im ratio score,
    read_csv csv_path = Ok df /\
    load_model model_path = Ok model /\
    load_features features_path = Ok feature_cols /\
    encode (idealize df) (Some feature_cols) = Ok X /\
    model X = Ok preds /\
    df_select passthrough df = Ok sel /\
    List.length preds = nrows df /\
    df_getitem "FinalGrade" df = Ok fg /\
    zipR v_sub (rounded preds) fg = Ok margin /\
    mapR (v_clip_lower 0) margin = Ok im /\
    mapR (fun v => v_div_const v 20) im = Ok ratio /\
    mapR (fun v => v_sub (VInt 1) v) ratio = Ok score /\
    out = mkDF (nrows df)
               (cols sel ++ [("Potential_Grade", rounded preds);
                             ("Improvability_Margin", im);
                             ("Complexity_Score", score)]).
Proof.
  intros H.
  destruct (dashboard_returns_inv _ _ _ _ _ H)
    as (df & model & fc & X & preds & sel & H1 & H2 & H3 & H4 & H5 & H6 & H7).
  destruct (dashboard_inv sel out preds H7)
    as (fg & margin & im & ratio & score & L & Hfg & Hm & Him & Hr & Hs & Hout).
  { intros c. apply (columns_select_In _ _ _ _ H6). }
  exists df, model, fc, X, preds, sel, fg, margin, im, ratio, score.
  rewrite (nrows_select _ _ _ H6) in *.
  repeat split; try assumption.
  apply df_getitem_Ok in Hfg. apply df_getitem_Ok.
  rewrite (cols_named_select _ _ _ _ H6) in Hfg. simpl in Hfg.
  now rewrite app_nil_r in Hfg.
Qed.

(** ** The two metrics, cell by cell *)

Lemma q_clip_lower_max (lo x : Q) : (q_clip_lower lo x == Qmax lo x)%Q.
Proof.
  unfold q_clip_lower. destruct (Qlt_le_dec x lo) as [L|L].
  - symmetry. apply Q.max_l. now apply Qlt_le_weak.
  - symmetry. now apply Q.max_r.
Qed.

Lemma q_clip_lower_ge (lo x : Q) : (lo <= q_clip_lower lo x)%Q.
Proof.
  unfold q_clip_lower. destruct (Qlt_le_dec x lo); [apply Qle_refl | assumption].
Qed.

Lemma v_sub_float_number (p : Q) (a c : value) :
  is_number a = true -> v_sub (VFloat p) a = Ok c ->
  c = VFloat (Qred (p - num_of a)).
Proof.
  destruct a; unfold v_sub, fl, num_of, is_number; try discriminate;
    intros _ H; now injection H as <-.
Qed.

(** The margin of a row: the gap between the potential and the actual
    grade, or 0 when the gap is negative. *)
Lemma margin_cell (p : Q) (a d m : value) :
  is_number a = true ->
  v_sub (VFloat p) a = Ok d -> v_clip_lower 0 d = Ok m ->
  exists q, m = VFloat q /\ (q == Qmax 0 (p - num_of a))%Q /\ (0 <= q)%Q.
Proof.
  intros Ha Hd Hm. rewrite (v_sub_float_number p a d Ha Hd) in Hm.
  unfold v_clip_lower, fl in Hm. injection Hm as <-. eexists. split; [reflexivity|]. split.
  - eapply Qeq_trans;
      [exact (Qred_correct (q_clip_lower (inject_Z 0) (Qred (p - num_of a))))|].
    eapply Qeq_trans; [apply q_clip_lower_max|].
    apply Q.max_compat; [reflexivity | exact (Qred_correct (p - num_of a))].
  - eapply Qle_trans; [apply (q_clip_lower_ge 0)|].
    apply Qle_lteq. right. symmetry.
    exact (Qred_correct (q_clip_lower (inject_Z 0) (Qred (p - num_of a)))).
Qed.


(** The complexity of a row whose margin is [m]. *)
Lemma complexity_cell (m : Q) (r c : value) :
  v_div_const (VFloat m) 20 = Ok r -> v_sub (VInt 1) r = Ok c ->
  exists q, c = VFloat q /\ (q == 1 - m / 20)%Q.
Proof.
  unfold v_div_const, fl. intros Hr Hc. injection Hr as <-.
  unfold v_sub, fl in Hc. injection Hc as <-.
  eexists. split; [reflexivity|].
  eapply Qeq_trans;
    [exact (Qred_correct (inject_Z 1 - Qred (m / inject_Z 20)))|].
  apply Qplus_comp; [reflexivity|]. apply Qopp_comp.
  exact (Qred_correct (m / inject_Z 20)).
Qed.

Lemma cols_named_app (c : string) (n n1 n2 : nat) (l l' : list (string * Series)) :
  cols_named c (mkDF n (l ++ l')) = cols_named c (mkDF n1 l) ++ cols_named c (mkDF n2 l').
Proof. unfold cols_named. simpl. now rewrite filter_app, map_app. Qed.

Lemma out_new_columns (sel : DataFrame) (n : nat) (pg im score : Series) :
  (forall c, In c (columns sel) -> In c passthrough) ->
  let out := mkDF n (cols sel ++ [("Potential_Grade", pg);
                                  ("Improvability_Margin", im);
                                  ("Complexity_Score", score)]) in
  df_getitem "Potential_Grade" out = Ok pg /\
  df_getitem "Improvability_Margin" out = Ok im /\
  df_getitem "Complexity_Score" out = Ok score /\
  (forall c, In c passthrough -> cols_named c out = cols_named c sel).
Proof.
  intros Hsel out.
  assert (N : forall c, ~ In c passthrough -> cols_named c sel = []).
  { intros c Hc. apply cols_named_nil. intros I. now apply Hc, Hsel. }
  unfold out.
  repeat split.
  - apply df_getitem_Ok. rewrite (cols_named_app _ n (nrows sel) n).
    change (cols_named "Potential_Grade" (mkDF (nrows sel) (cols sel)))
      with (cols_named "Potential_Grade" sel).
    rewrite N; [reflexivity | simpl; intuition discriminate].
  - apply df_getitem_Ok. rewrite (cols_named_app _ n (nrows sel) n).
    change (cols_named "Improvability_Margin" (mkDF (nrows sel) (cols sel)))
      with (cols_named "Improvability_Margin" sel).
    rewrite N; [reflexivity | simpl; intuition discriminate].
  - apply df_getitem_Ok. rewrite (cols_named_app _ n (nrows sel) n).
    change (cols_named "Complexity_Score" (mkDF (nrows sel) (cols sel)))
      with (cols_named "Complexity_Score" sel).
    rewrite N; [reflexivity | simpl; intuition discriminate].
  - intros c Hc. rewrite (cols_named_app _ n (nrows sel) n).
    change (cols_named c (mkDF (nrows sel) (cols sel))) with (cols_named c sel).
    simpl in Hc.
    repeat (destruct Hc as [<-|Hc]; [apply app_nil_r|]). contradiction.
Qed.

Lemma cols_named_passthrough (df sel : DataFrame) (c : string) :
  df_select passthrough df = Ok sel -> In c passthrough ->
  cols_named c sel = cols_named c df.
Proof.
  intros H Hc. rewrite (cols_named_select c _ _ _ H). simpl in Hc.
  repeat (destruct Hc as [<-|Hc]; [simpl; now rewrite ?app_nil_r|]). contradiction.
Qed.

(** The columns of a returned table, read back from it. *)
Lemma dashboard_returns_getitem (csv_path model_path features_path : string)
      (st : store) (out : DataFrame) :
  dashboard_returns csv_path model_path features_path st out ->
  exists df model feature_cols X preds fg margin im ratio score,
    read_csv csv_path = Ok df /\
    load_model model_path = Ok model /\
    load_features features_path = Ok feature_cols /\
    encode (idealize df) (Some feature_cols) = Ok X /\
    model X = Ok preds /\
    List.length preds = nrows df /\
    nrows out = nrows df /\
    df_getitem "FinalGrade" df = Ok fg /\
    zipR v_sub (rounded preds) fg = Ok margin /\
    mapR (v_clip_lower 0) margin = Ok im /\
    mapR (fun v => v_div_const v 20) im = Ok ratio /\
    mapR (fun v => v_sub (VInt 1) v) ratio = Ok score /\
    df_getitem "Potential_Grade" out = Ok (rounded preds) /\
    df_getitem "Improvability_Margin" out = Ok im /\
    df_getitem "Complexity_Score" out = Ok score /\
    (forall c, In c passthrough -> cols_named c out = cols_named c df).
Proof.
  intros H.
  destruct (dashboard_returns_columns _ _ _ _ _ H)
    as (df & model & fc & X & preds & sel & fg & margin & im & ratio & score &
        H1 & H2 & H3 & H4 & H5 & H6 & L & Hfg & Hm & Him & Hr & Hs & Hout).
  exists df, model, fc, X, preds, fg, margin, im, ratio, score.
  assert (Hsel : forall c, In c (columns sel) -> In c passthrough)
    by (intros c; apply (columns_select_In _ _ _ _ H6)).
  destruct (out_new_columns sel (nrows df) (rounded preds) im score Hsel)
    as (G1 & G2 & G3 & G4).
  subst out. repeat split; try assumption.
  intros c Hc. transitivity (cols_named c sel); [exact (G4 c Hc)|].
  now apply cols_named_passthrough.
Qed.



(** C8.  The StudentID, FirstName, FamilyName and FinalGrade columns of
    the returned table are those of the table that was loaded, cell for
    cell, for every model; the model is applied to the encoding of the
    idealized copy and to nothing else, and what it returns goes to
    Potential_Grade only. *)
Theorem passthrough_columns_are_the_original_ones
        (csv_path model_path features_path : string) (st : store) (out : DataFrame) :
  dashboard_returns csv_path model_path features_path st out ->
  exists df model feature_cols X preds,
    read_csv csv_path = Ok df /\
    load_model model_path = Ok model /\
    load_features features_path = Ok feature_cols /\
    (forall c, In c passthrough -> cols_named c out = cols_named c df) /\
    encode (idealize df) (Some feature_cols) = Ok X /\
    model X = Ok preds /\
    df_getitem "Potential_Grade" out = Ok (map (fun p => VFloat (round2 p)) preds).
Proof.
  intros H.
  destruct (dashboard_returns_getitem _ _ _ _ _ H)
    as (df & model & fc & X & preds & fg & margin & im & ratio & score &
        H1 & H2 & H3 & H4 & H5 & _ & _ & _ & _ & _ & _ & _ & Gpg & _ & _ & Gpass).
  now exists df, model, fc, X, preds.
Qed.


(** ** Rows *)


Lemma cols_named_In (c : string) (s : Series) (df : DataFrame) :
  In s (cols_named c df) <-> In (c, s) (cols df).
Proof.
  unfold cols_named. rewrite in_map_iff. split.
  - intros [[n x] [E I]]. simpl in E. subst x.
    apply filter_In in I. destruct I as [I En]. simpl in En.
    apply String.eqb_eq in En. now subst.
  - intros I. exists (c, s). split; [reflexivity|].
    apply filter_In. split; [exact I | apply String.eqb_refl].
Qed.

Lemma In_cols_named (c : string) (s : Series) (df : DataFrame) :
  In (c, s) (cols df) <-> In s (cols_named c df).
Proof. symmetry. apply cols_named_In. Qed.



(** ** The encoder, step by step *)

Lemma cols_named_drop (c : string) (ls : list string) (df : DataFrame) :
  cols_named c (df_drop ls df) = if has_label c ls then [] else cols_named c df.
Proof.
  unfold cols_named, df_drop. simpl.
  induction (cols df) as [|[n x] l IH]; simpl; [now destruct (has_label c ls)|].
  destruct (has_label n ls) eqn:En; simpl.
  - rewrite IH. destruct (String.eqb_spec c n) as [->|_]; [|reflexivity].
    now rewrite En.
  - destruct (String.eqb_spec c n) as [->|_]; simpl; rewrite IH.
    + now rewrite En.
    + reflexivity.
Qed.

Lemma columns_drop (ls : list string) (df : DataFrame) :
  columns (df_drop ls df) = filter (fun c => negb (has_label c ls)) (columns df).
Proof.
  unfold columns, df_drop. simpl.
  induction (cols df) as [|[n x] l IH]; simpl; [reflexivity|].
  destruct (has_label n ls); simpl; now rewrite IH.
Qed.

Lemma NoDup_filter {A} (P : A -> bool) (l : list A) : NoDup l -> NoDup (filter P l).
Proof.
  induction 1 as [|x l N _ IH]; simpl; [constructor|].
  destruct (P x); [|exact IH].
  constructor; [|exact IH]. intros I. apply filter_In in I. tauto.
Qed.

(** Dropping the identifier columns that are present. *)
Lemma cols_named_drop_identifiers (c : string) (df : DataFrame) :
  has_label c drop_cols = false ->
  cols_named c (df_drop (filter (fun c => has_label c (columns df)) drop_cols) df) =
  cols_named c df.
Proof.
  intros H. rewrite cols_named_drop.
  destruct (has_label c (filter _ drop_cols)) eqn:E; [|reflexivity].
  apply has_label_In, filter_In in E. destruct E as [E _].
  apply has_label_In in E. congruence.
Qed.

Lemma map_column_df_inv (c0 : string) (d : list (string * Z)) (f f' : DataFrame) :
  map_column_df c0 d f = Ok f' ->
  columns f' = columns f /\ nrows f' = nrows f /\
  forall c, cols_named c f' =
            if String.eqb c c0 then map (series_map d) (cols_named c f)
            else cols_named c f.
Proof.
  unfold map_column_df. destruct (df_getitem c0 f) as [s|] eqn:E; [|discriminate].
  simpl. intros H. injection H as <-.
  pose proof (df_getitem_In _ _ _ E) as I. apply has_label_In in I.
  apply df_getitem_Ok in E.
  split; [now rewrite columns_setitem, I|]. split; [apply nrows_setitem|].
  intros c. destruct (String.eqb_spec c c0) as [->|N].
  - now rewrite cols_named_setitem_same, E.
  - now apply cols_named_setitem_other.
Qed.

Lemma map_columns_df_inv (d : list (string * Z)) (l : list string) :
  forall f f' : DataFrame,
  foldR (fun f col => map_column_df col d f) l f = Ok f' ->
  columns f' = columns f /\ nrows f' = nrows f /\
  (forall c, ~ In c l -> cols_named c f' = cols_named c f) /\
  (NoDup l -> forall c, In c l ->
                        cols_named c f' = map (series_map d) (cols_named c f)).
Proof.
  induction l as [|c0 l IH]; intros f f' H; simpl in H.
  - injection H as <-. repeat split; auto. intros _ c [].
  - destruct (map_column_df c0 d f) as [g|] eqn:E; [|discriminate]. simpl in H.
    destruct (map_column_df_inv _ _ _ _ E) as (C1 & R1 & K1).
    destruct (IH _ _ H) as (C2 & R2 & K2 & K3).
    split; [congruence|]. split; [congruence|]. split.
    + intros c N. rewrite K2 by (intros I; apply N; now right).
      rewrite K1. destruct (String.eqb_spec c c0) as [->|_]; [|reflexivity].
      exfalso. apply N. now left.
    + intros ND c I. inversion ND as [|? ? N0 ND']; subst.
      destruct I as [<-|I].
      * rewrite K2 by exact N0. rewrite K1. now rewrite String.eqb_refl.
      * rewrite (K3 ND' c I). rewrite K1.
        destruct (String.eqb_spec c c0) as [->|_]; [contradiction | reflexivity].
Qed.

Lemma encode_categorical_inv (f f' : DataFrame) :
  encode_categorical f = Ok f' ->
  columns f' = columns f /\ nrows f' = nrows f /\
  (forall c, ~ In c categorical_cols -> cols_named c f' = cols_named c f) /\
  (forall c d, In (c, d) category_mappings ->
               cols_named c f' = map (series_map d) (cols_named c f)).
Proof.
  unfold encode_categorical. intros H.
  destruct (foldR _ cols_yes_no f) as [fa|] eqn:Ea; [|discriminate]. cbn [rbind] in H.
  destruct (map_column_df "sex" _ fa) as [fb|] eqn:Eb; [|discriminate]. cbn [rbind] in H.
  destruct (map_column_df "address" _ fb) as [fc|] eqn:Ec; [|discriminate]. cbn [rbind] in H.
  destruct (map_column_df "famsize" _ fc) as [fd|] eqn:Ed; [|discriminate]. cbn [rbind] in H.
  destruct (map_columns_df_inv _ _ _ _ Ea) as (Ca & Ra & Ka & Ka').
  destruct (map_column_df_inv _ _ _ _ Eb) as (Cb & Rb & Kb).
  destruct (map_column_df_inv _ _ _ _ Ec) as (Cc & Rc & Kc).
  destruct (map_column_df_inv _ _ _ _ Ed) as (Cd & Rd & Kd).
  destruct (map_column_df_inv _ _ _ _ H) as (Ce & Re & Ke).
  split; [congruence|]. split; [congruence|]. split.
  - intros c N. rewrite Ke, Kd, Kc, Kb.
    assert (Hc : forall x, In x categorical_cols -> String.eqb c x = false).
    { intros x Hx. apply String.eqb_neq. intros ->. contradiction. }
    rewrite !Hc by (simpl; tauto).
    apply Ka. intros I. apply N. simpl in *. tauto.
  - assert (ND : NoDup cols_yes_no).
    { unfold cols_yes_no. repeat constructor; simpl; intuition discriminate. }
    intros c d I. simpl in I.
    repeat (destruct I as [I|I];
            [injection I as <- <-; rewrite Ke, Kd, Kc, Kb; cbn [String.eqb Ascii.eqb Bool.eqb];
             rewrite ?Ka' by (exact ND || (simpl; tauto));
             rewrite ?Ka by (simpl; intuition discriminate);
             reflexivity|]).
    contradiction.
Qed.

(** *** Indicator columns *)

Lemma starts_with_field (p x : string) :
  starts_with (String.append p "_") (String.append p (String.append "_" x)) = true.
Proof.
  induction p as [|a p IH]; simpl; [reflexivity|].
  now rewrite Ascii.eqb_refl.
Qed.

Lemma select_cols_labels (ls : list string) (cs r : list (string * Series)) :
  select_cols ls cs = Ok r -> forall p, In p r -> In (fst p) ls /\ In p cs.
Proof.
  intros E p I. apply select_cols_Ok in E. subst r.
  apply in_flat_map in I. destruct I as (l & Hl & I).
  apply filter_In in I. destruct I as [I El].
  apply String.eqb_eq in El. now subst.
Qed.

Lemma dummies_labels (cs : list string) (enc : list (string * Series)) (c : string) :
  (forall p, In p enc -> In (fst p) cs) ->
  In c (map fst (flat_map dummies_1d enc)) -> is_indicator_label cs c = true.
Proof.
  intros Henc I. apply in_map_iff in I. destruct I as ([n x] & E & I).
  simpl in E. subst n. apply in_flat_map in I. destruct I as (p & Hp & I).
  unfold dummies_1d in I. apply in_map_iff in I. destruct I as (l & E & _).
  injection E as E _. subst c.
  unfold is_indicator_label. apply existsb_exists.
  exists (fst p). split; [now apply Henc|].
  apply starts_with_field.
Qed.

Lemma df_get_dummies_inv (cs : list string) (f f' : DataFrame) :
  df_get_dummies cs f = Ok f' ->
  nrows f' = nrows f /\
  (forall c, In c cs -> In c (columns f)) /\
  (forall c, In c (columns f') ->
             (In c (columns f) /\ ~ In c cs) \/ is_indicator_label cs c = true) /\
  (forall c, has_label c cs = false -> is_indicator_label cs c = false ->
             cols_named c f' = cols_named c f).
Proof.
  unfold df_get_dummies.
  destruct (select_cols cs (cols f)) as [enc|] eqn:E; [|discriminate].
  simpl. intros H. injection H as <-.
  assert (Henc : forall p, In p enc -> In (fst p) cs)
    by (intros p I; now apply (select_cols_labels _ _ _ E)).
  split; [reflexivity|]. split; [|split].
  - intros c I.
    destruct (in_dec string_dec c (columns f)) as [Y|N]; [exact Y|].
    destruct (select_cols_KeyError cs (cols f) c I N) as [e He]. congruence.
  - intros c I. unfold columns in I. simpl in I. rewrite map_app in I.
    apply in_app_or in I. destruct I as [I|I].
    + left. change (In c (columns (df_drop cs f))) in I.
      rewrite columns_drop in I. apply filter_In in I. destruct I as [I N].
      split; [exact I|]. apply has_label_false. now destruct (has_label c cs).
    + right. now apply (dummies_labels cs enc).
  - intros c Hc Hi.
    rewrite (cols_named_app c _ (nrows f) (nrows f)).
    change (mkDF (nrows f) (filter (fun p => negb (has_label (fst p) cs)) (cols f)))
      with (df_drop cs f).
    rewrite cols_named_drop, Hc.
    assert (N : cols_named c (mkDF (nrows f) (flat_map dummies_1d enc)) = []).
    { apply cols_named_nil. intros I. apply (dummies_labels cs enc c Henc) in I.
      congruence. }
    rewrite N. apply app_nil_r.
Qed.

Lemma df_get_dummies_total (cs : list string) (f : DataFrame) :
  (forall c, In c cs -> In c (columns f)) ->
  exists f', df_get_dummies cs f = Ok f'.
Proof.
  intros H. unfold df_get_dummies.
  destruct (select_cols_total cs (cols f) H) as [enc E].
  rewrite E. simpl. now eexists.
Qed.

(** *** Derived features *)

Lemma df_getitem_setitem_other (c c' : string) (s : Series) (df : DataFrame) :
  c <> c' -> df_getitem c (df_setitem c' s df) = df_getitem c df.
Proof. intros N. unfold df_getitem. now rewrite cols_named_setitem_other. Qed.

Lemma df_getitem_setitem_same (c : string) (s t : Series) (df : DataFrame) :
  df_getitem c (df_setitem c s df) = Ok t ->
  t = s /\ cols_named c (df_setitem c s df) = [s].
Proof.
  intros H. apply df_getitem_Ok in H.
  rewrite cols_named_setitem_same in *.
  destruct (Nat.max 1 (List.length (cols_named c df))) as [|[|k]];
    simpl in H; try discriminate.
  injection H as <-. now split.
Qed.

Lemma derive_features_inv (f f' : DataFrame) :
  derive_features f = Ok f' ->
  exists medu fedu dalc walc goout total diff adiff walc2 alc sq party,
    df_getitem "Medu" f = Ok medu /\
    df_getitem "Fedu" f = Ok fedu /\
    df_getitem "Dalc" f = Ok dalc /\
    df_getitem "Walc" f = Ok walc /\
    df_getitem "goout" f = Ok goout /\
    zipR v_add medu fedu = Ok total /\
    zipR v_sub medu fedu = Ok diff /\
    mapR v_abs diff = Ok adiff /\
    mapR (fun v => v_mul v (VInt 2)) walc = Ok walc2 /\
    zipR v_add dalc walc2 = Ok alc /\
    zipR v_mul alc alc = Ok sq /\
    zipR v_mul sq goout = Ok party /\
    nrows f' = nrows f /\
    (forall c, ~ In c derived_cols -> cols_named c f' = cols_named c f) /\
    cols_named "Total_Alcohol" f' = [alc] /\
    cols_named "Party_Life" f' =
      repeat party (Nat.max 1 (List.length (cols_named "Party_Life" f))).
Proof.
  unfold derive_features. intros H.
  destruct (df_getitem "Medu" f) as [medu|] eqn:E1; [|discriminate]. cbn [rbind] in H.
  destruct (df_getitem "Fedu" f) as [fedu|] eqn:E2; [|discriminate]. cbn [rbind] in H.
  destruct (zipR v_add medu fedu) as [total|] eqn:E3; [|discriminate].
  cbn [rbind] in H. cbv zeta in H.
  rewrite !(df_getitem_setitem_other _ "Parent_Edu_Total") in H by discriminate.
  rewrite E1, E2 in H. cbn [rbind] in H.
  destruct (zipR v_sub medu fedu) as [diff|] eqn:E4; [|discriminate]. cbn [rbind] in H.
  destruct (mapR v_abs diff) as [adiff|] eqn:E5; [|discriminate]. cbn [rbind] in H.
  rewrite !(df_getitem_setitem_other _ "Parent_Edu_Diff") in H by discriminate.
  rewrite !(df_getitem_setitem_other _ "Parent_Edu_Total") in H by discriminate.
  destruct (df_getitem "Dalc" f) as [dalc|] eqn:E6; [|discriminate]. cbn [rbind] in H.
  destruct (df_getitem "Walc" f) as [walc|] eqn:E7; [|discriminate]. cbn [rbind] in H.
  destruct (mapR _ walc) as [walc2|] eqn:E8; [|discriminate]. cbn [rbind] in H.
  destruct (zipR v_add dalc walc2) as [alc|] eqn:E9; [|discriminate]. cbn [rbind] in H.
  set (g := df_setitem "Parent_Edu_Diff" adiff (df_setitem "Parent_Edu_Total" total f)) in *.
  destruct (df_getitem "Total_Alcohol" (df_setitem "Total_Alcohol" alc g)) as [ta|] eqn:E10;
    [|discriminate].
  cbn [rbind] in H.
  destruct (df_getitem_setitem_same _ _ _ _ E10) as [-> TA].
  destruct (zipR v_mul alc alc) as [sq|] eqn:E11; [|discriminate]. cbn [rbind] in H.
  rewrite (df_getitem_setitem_other _ "Total_Alcohol") in H by discriminate.
  unfold g in H.
  rewrite (df_getitem_setitem_other _ "Parent_Edu_Diff") in H by discriminate.
  rewrite (df_getitem_setitem_other _ "Parent_Edu_Total") in H by discriminate.
  destruct (df_getitem "goout" f) as [goout|] eqn:E12; [|discriminate]. cbn [rbind] in H.
  destruct (zipR v_mul sq goout) as [party|] eqn:E13; [|discriminate]. cbn [rbind] in H.
  injection H as <-. fold g.
  exists medu, fedu, dalc, walc, goout, total, diff, adiff, walc2, alc, sq, party.
  repeat (split; [reflexivity || assumption|]).
  split; [unfold g; now rewrite !nrows_setitem|].
  split; [|split].
  - intros c N. unfold g.
    rewrite !cols_named_setitem_other; [reflexivity | intros ->; apply N; simpl; tauto ..].
  - now rewrite cols_named_setitem_other by discriminate.
  - rewrite cols_named_setitem_same. f_equal. f_equal. f_equal. unfold g.
    now rewrite !cols_named_setitem_other by discriminate.
Qed.

(** *** Reconciliation with a schema *)

Lemma fill_missing_cons (c0 : string) (tc : list string) (f : DataFrame) :
  fill_missing (c0 :: tc) f =
  fill_missing tc (if negb (has_label c0 (columns f))
                   then df_setitem_scalar c0 (VInt 0) f else f).
Proof. reflexivity. Qed.

Lemma fill_missing_spec (tc : list string) :
  forall f : DataFrame,
  nrows (fill_missing tc f) = nrows f /\
  (forall c, In c (columns f) ->
             In c (columns (fill_missing tc f)) /\
             cols_named c (fill_missing tc f) = cols_named c f) /\
  (forall c, In c tc -> In c (columns (fill_missing tc f))) /\
  (forall c, ~ In c (columns f) -> In c tc ->
             cols_named c (fill_missing tc f) = [repeat (VInt 0) (nrows f)]) /\
  (forall c, In c (columns (fill_missing tc f)) -> In c (columns f) \/ In c tc).
Proof.
  induction tc as [|c0 tc IH]; intros f.
  - simpl. repeat split; auto; try tauto.
  - rewrite fill_missing_cons.
    destruct (has_label c0 (columns f)) eqn:E; cbn [negb].
    + apply has_label_In in E.
      destruct (IH f) as (R & K1 & K2 & K3 & K4).
      split; [exact R|]. split; [exact K1|]. split; [|split].
      * intros c [->|I]; [now apply K1 | now apply K2].
      * intros c N [->|I]; [contradiction | now apply K3].
      * intros c I. destruct (K4 c I); [now left | right; now right].
    + apply has_label_false in E.
      set (g := df_setitem_scalar c0 (VInt 0) f).
      assert (Cg : columns g = columns f ++ [c0]).
      { unfold g, df_setitem_scalar. rewrite columns_setitem.
        apply has_label_false in E. now rewrite E. }
      assert (Rg : nrows g = nrows f) by apply nrows_setitem.
      destruct (IH g) as (R & K1 & K2 & K3 & K4).
      split; [congruence|]. split; [|split; [|split]].
      * intros c I. assert (I' : In c (columns g))
          by (rewrite Cg; apply in_or_app; now left).
        destruct (K1 c I') as [H1 H2]. split; [exact H1|].
        rewrite H2. unfold g, df_setitem_scalar.
        apply cols_named_setitem_other. intros ->. contradiction.
      * intros c [->|I]; [|now apply K2].
        apply K1. rewrite Cg. apply in_or_app. right. now left.
      * intros c N [->|I].
        -- destruct (K1 c) as [_ H2];
             [rewrite Cg; apply in_or_app; right; now left|].
           rewrite H2. unfold g, df_setitem_scalar.
           rewrite cols_named_setitem_same.
           apply cols_named_nil in N. now rewrite N.
        -- destruct (string_dec c c0) as [->|D].
           ++ destruct (K1 c0) as [_ H2];
                [rewrite Cg; apply in_or_app; right; now left|].
              rewrite H2. unfold g, df_setitem_scalar.
              rewrite cols_named_setitem_same.
              apply cols_named_nil in N. now rewrite N.
           ++ rewrite K3; [now rewrite Rg | | exact I].
              rewrite Cg. intros J. apply in_app_or in J.
              destruct J as [J|[J|[]]]; [contradiction | congruence].
      * intros c I. destruct (K4 c I) as [J|J]; [|right; now right].
        rewrite Cg in J. apply in_app_or in J.
        destruct J as [J|[->|[]]]; [now left | right; now left].
Qed.

Lemma reconcile_total (tc : list string) (f : DataFrame) :
  exists t, df_select tc (fill_missing tc f) = Ok t.
Proof.
  unfold df_select.
  destruct (select_cols_total tc (cols (fill_missing tc f))) as [r Hr].
  - intros c I. now apply (fill_missing_spec tc f).
  - rewrite Hr. simpl. now eexists.
Qed.

(** *** The encoder as a whole *)

Lemma encode_features_inv (f f2 f4 : DataFrame) :
  encode_features f = Ok (f2, f4) ->
  exists f3,
    encode_categorical
      (df_drop (filter (fun c => has_label c (columns f)) drop_cols) f) = Ok f2 /\
    df_get_dummies nominal_cols f2 = Ok f3 /\
    derive_features f3 = Ok f4.
Proof.
  unfold encode_features. intros H.
  destruct (encode_categorical _) as [g2|] eqn:E2; [|discriminate]. cbn [rbind] in H.
  destruct (df_get_dummies nominal_cols g2) as [g3|] eqn:E3; [|discriminate].
  cbn [rbind] in H.
  destruct (derive_features g3) as [g4|] eqn:E4; [|discriminate]. cbn [rbind] in H.
  injection H as <- <-. now exists g3.
Qed.

Lemma encode_inv (f X : DataFrame) (tc : option (list string)) :
  encode f tc = Ok X ->
  exists f2 f4,
    encode_features f = Ok (f2, f4) /\
    match tc with
    | Some l => df_select l (fill_missing l f4) = Ok X
    | None => X = f4
    end.
Proof.
  unfold encode, encode_steps. intros H.
  destruct (encode_features f) as [[g2 g4]|] eqn:E; [|discriminate]. cbn [rbind] in H.
  exists g2, g4. split; [reflexivity|].
  destruct tc as [l|]; cbn [fst snd] in H.
  - destruct (df_select l (fill_missing l g4)) as [t|]; [|discriminate].
    cbn [rbind snd] in H. now injection H as <-.
  - cbn [rbind snd] in H. now injection H as <-.
Qed.

Lemma encode_features_untouched (f f2 f4 : DataFrame) (c : string) :
  encode_features f = Ok (f2, f4) -> untouched c = true ->
  cols_named c f4 = cols_named c f.
Proof.
  intros H U. unfold untouched in U.
  repeat (apply andb_prop in U; destruct U as [U ?]).
  repeat match goal with H : negb _ = true |- _ => apply negb_true_iff in H end.
  destruct (encode_features_inv _ _ _ H) as (f3 & E2 & E3 & E4).
  destruct (encode_categorical_inv _ _ E2) as (_ & _ & K2 & _).
  destruct (df_get_dummies_inv _ _ _ E3) as (_ & _ & _ & K3).
  destruct (derive_features_inv _ _ E4)
    as (? & ? & ? & ? & ? & ? & ? & ? & ? & ? & ? & ? &
        _ & _ & _ & _ & _ & _ & _ & _ & _ & _ & _ & _ & _ & K4 & _).
  rewrite K4 by now apply has_label_false.
  rewrite K3 by assumption.
  rewrite K2 by now apply has_label_false.
  now apply cols_named_drop_identifiers.
Qed.

Lemma encode_features_nrows (f f2 f4 : DataFrame) :
  encode_features f = Ok (f2, f4) -> nrows f4 = nrows f.
Proof.
  intros H.
  destruct (encode_features_inv _ _ _ H) as (f3 & E2 & E3 & E4).
  destruct (encode_categorical_inv _ _ E2) as (_ & R2 & _).
  destruct (df_get_dummies_inv _ _ _ E3) as (R3 & _).
  destruct (derive_features_inv _ _ E4)
    as (? & ? & ? & ? & ? & ? & ? & ? & ? & ? & ? & ? &
        _ & _ & _ & _ & _ & _ & _ & _ & _ & _ & _ & _ & R4 & _).
  rewrite R4, R3, R2. reflexivity.
Qed.

Lemma flat_map_label_nonempty {A} (c : string) (Y : list A) (l : list string) :
  In c l -> Y <> [] ->
  flat_map (fun l0 => if String.eqb c l0 then Y else []) l <> [].
Proof.
  induction l as [|l0 l IH]; intros I HY N; [contradiction|].
  simpl in N. apply app_eq_nil in N. destruct N as [N1 N2].
  destruct I as [->|I].
  - rewrite String.eqb_refl in N1. contradiction.
  - now apply IH.
Qed.

(** The columns of a reconciled table: a schema label the encoded table
    has keeps the encoded columns, a schema label it lacks is a column of
    zeros, and a label outside the schema is dropped. *)
Lemma reconcile_columns (l : list string) (f4 X : DataFrame) (c : string) :
  df_select l (fill_missing l f4) = Ok X ->
  nrows X = nrows f4 /\
  (In c l -> cols_named c X <> []) /\
  (In c (columns f4) -> forall s, In s (cols_named c X) -> In s (cols_named c f4)) /\
  (~ In c (columns f4) ->
   forall s, In s (cols_named c X) -> s = repeat (VInt 0) (nrows f4)) /\
  (~ In c l -> cols_named c X = []).
Proof.
  intros H.
  destruct (fill_missing_spec l f4) as (R & K1 & K2 & K3 & K4).
  pose proof (cols_named_select c _ _ _ H) as E.
  split; [rewrite (nrows_select _ _ _ H); exact R|].
  assert (G : forall s, In s (cols_named c X) ->
                        In c l /\ In s (cols_named c (fill_missing l f4))).
  { intros s I. rewrite E in I. apply in_flat_map in I.
    destruct I as (l0 & Hl0 & I).
    destruct (String.eqb_spec c l0) as [->|_]; [now split | contradiction]. }
  split; [|split; [|split]].
  - intros I. rewrite E. apply flat_map_label_nonempty; [exact I|].
    intros Z. apply cols_named_nil in Z. apply Z. now apply K2.
  - intros I s Hs. destruct (G s Hs) as [_ J].
    destruct (K1 c I) as [_ Q]. now rewrite Q in J.
  - intros N s Hs. destruct (G s Hs) as [I J].
    rewrite (K3 c N I) in J. destruct J as [<-|[]]. reflexivity.
  - intros N. destruct (cols_named c X) as [|s r] eqn:Z; [reflexivity|].
    destruct (G s) as [I _]; [now left | contradiction].
Qed.


(** ** What [preprocess_data] returns *)

Lemma nth_error_after_junk (st junk : store) (t : DataFrame) :
  nth_error (st ++ junk ++ [t]) (List.length st + List.length junk) = Some t.
Proof.
  rewrite app_assoc.
  replace (List.length st + List.length junk) with (List.length (st ++ junk))
    by now rewrite length_app.
  apply nth_error_snoc.
Qed.

(** A successful call returns a reference to the table [encode] describes,
    and leaves the objects that existed as they were. *)
Lemma preprocess_data_returns (st st' : store) (r r' : ref) (f X : DataFrame)
      (tc : option (list string)) :
  nth_error st r = Some f ->
  preprocess_data r tc st = Ok (r', st') ->
  nth_error st' r' = Some X ->
  encode f tc = Ok X /\
  forall q g, nth_error st q = Some g -> nth_error st' q = Some g.
Proof.
  intros Hr Hrun HX. rewrite (preprocess_data_run _ _ _ _ Hr) in Hrun.
  unfold encode. destruct (encode_steps f tc) as [[junk t]|]; [|discriminate].
  injection Hrun as <- <-. rewrite nth_error_after_junk in HX.
  injection HX as <-. split; [reflexivity|].
  intros q g Hq. rewrite nth_error_app1; [exact Hq|].
  apply nth_error_Some. congruence.
Qed.

(** When [encode] succeeds, so does the call, with that table. *)
Lemma preprocess_data_succeeds (st : store) (r : ref) (f X : DataFrame)
      (tc : option (list string)) :
  nth_error st r = Some f ->
  encode f tc = Ok X ->
  exists r' st', preprocess_data r tc st = Ok (r', st') /\ nth_error st' r' = Some X.
Proof.
  intros Hr HX. rewrite (preprocess_data_run _ _ _ _ Hr).
  unfold encode in HX. destruct (encode_steps f tc) as [[junk t]|]; [|discriminate].
  simpl in HX. injection HX as ->.
  eexists _, _. split; [reflexivity | apply nth_error_after_junk].
Qed.

Lemma preprocess_data_fails (st : store) (r : ref) (f : DataFrame)
      (tc : option (list string)) (e : exn) :
  nth_error st r = Some f ->
  encode f tc = Raise e ->
  preprocess_data r tc st = Raise e.
Proof.
  intros Hr HX. rewrite (preprocess_data_run _ _ _ _ Hr).
  unfold encode in HX. destruct (encode_steps f tc) as [[junk t]|]; [discriminate|].
  simpl in HX. congruence.
Qed.

(** ** Encoding the counterfactual profile *)

Lemma repeat_max1_singleton {A} (x y : A) (k : nat) :
  repeat x (Nat.max 1 k) = [y] -> y = x.
Proof. destruct k as [|k]; simpl; intros H; now injection H. Qed.

Lemma mapR_repeat {A B} (g : A -> result B) (a : A) (b : B) (n : nat) :
  g a = Ok b -> mapR g (repeat a n) = Ok (repeat b n).
Proof.
  intros H. induction n as [|n IH]; simpl; [reflexivity|].
  now rewrite H, IH.
Qed.

Lemma zipR_repeat (op : value -> value -> result value) (a b c : value) (n : nat) :
  op a b = Ok c -> zipR op (repeat a n) (repeat b n) = Ok (repeat c n).
Proof.
  intros H. induction n as [|n IH]; simpl; [reflexivity|].
  now rewrite H, IH.
Qed.

Lemma getitem_idealize (c : string) (k : Z) (df : DataFrame) (s : Series) :
  In (c, k) habit_overrides ->
  cols_named c (idealize df) = [s] -> s = repeat (VInt k) (nrows df).
Proof.
  intros I H. rewrite (cols_named_idealize_override c k df I) in H.
  now apply repeat_max1_singleton in H.
Qed.

(** Whatever the raw table held, the encoding of its idealized copy has
    Total_Alcohol = 1 + 2 * 1 = 3 and Party_Life = 3 * 3 * 2 = 18 in every
    row: the derived features are computed from the overridden values. *)
Lemma encode_features_idealize (df f2 f4 : DataFrame) :
  encode_features (idealize df) = Ok (f2, f4) ->
  cols_named "Total_Alcohol" f4 = [repeat (VInt 3) (nrows df)] /\
  cols_named "Party_Life" f4 <> [] /\
  forall s, In s (cols_named "Party_Life" f4) -> s = repeat (VInt 18) (nrows df).
Proof.
  intros H.
  destruct (encode_features_inv _ _ _ H) as (f3 & E2 & E3 & E4).
  destruct (derive_features_inv _ _ E4)
    as (medu & fedu & dalc & walc & goout & total & diff & adiff & walc2 & alc &
        sq & party & _ & _ & Hd & Hw & Hg & _ & _ & _ & Hw2 & Halc & Hsq & Hparty &
        _ & K4 & TA & PL).
  assert (U : forall c, untouched c = true -> ~ In c derived_cols ->
                        cols_named c f3 = cols_named c (idealize df)).
  { intros c Uc Nc. rewrite <- (K4 c Nc). now apply (encode_features_untouched _ f2). }
  apply df_getitem_Ok in Hd, Hw, Hg.
  rewrite U in Hd, Hw, Hg by (reflexivity || (simpl; intuition discriminate)).
  apply (getitem_idealize "Dalc" 1) in Hd; [|simpl; tauto].
  apply (getitem_idealize "Walc" 1) in Hw; [|simpl; tauto].
  apply (getitem_idealize "goout" 2) in Hg; [|simpl; tauto].
  subst dalc walc goout.
  rewrite (mapR_repeat _ _ (VInt 2)) in Hw2 by reflexivity. injection Hw2 as <-.
  rewrite (zipR_repeat _ _ _ (VInt 3)) in Halc by reflexivity. injection Halc as <-.
  rewrite (zipR_repeat _ _ _ (VInt 9)) in Hsq by reflexivity. injection Hsq as <-.
  rewrite (zipR_repeat _ _ _ (VInt 18)) in Hparty by reflexivity. injection Hparty as <-.
  split; [exact TA|]. rewrite PL. split; [apply repeat_max1_nonempty|].
  intros s I. now apply repeat_spec in I.
Qed.

Lemma present_nonempty (c : string) (f : DataFrame) :
  cols_named c f <> [] -> In c (columns f).
Proof.
  intros H. destruct (in_dec string_dec c (columns f)) as [I|N]; [exact I|].
  now apply cols_named_nil in N.
Qed.

(** ** Categorical values *)

(** A cell outside the dictionary is mapped to NaN. *)
Lemma series_map_out_of_domain (d : list (string * Z)) (s : Series) (i : nat) (v : value) :
  nth_error s i = Some v -> map_lookup d v = None ->
  nth_error (series_map d s) i = Some VNaN.
Proof.
  intros Hi Hv. unfold series_map.
  destruct (forallb (fun v => is_some (map_lookup d v)) s) eqn:E.
  - rewrite forallb_forall in E. apply nth_error_In in Hi.
    specialize (E v Hi). rewrite Hv in E. discriminate.
  - rewrite nth_error_map, Hi. simpl. now rewrite Hv.
Qed.

(** A cell of the dictionary is mapped to its code, as an integer or as
    the same number in a float column. *)
Lemma series_map_in_domain (d : list (string * Z)) (s : Series) (i : nat) (v : value)
      (n : Z) :
  nth_error s i = Some v -> map_lookup d v = Some n ->
  exists w, nth_error (series_map d s) i = Some w /\
            is_number w = true /\ (num_of w == inject_Z n)%Q.
Proof.
  intros Hi Hv. unfold series_map.
  destruct (forallb (fun v => is_some (map_lookup d v)) s).
  - exists (VInt n). rewrite nth_error_map, Hi. cbn [option_map]. rewrite Hv.
    split; [reflexivity|]. split; [reflexivity|]. apply Qeq_refl.
  - exists (fl (inject_Z n)). rewrite nth_error_map, Hi. cbn [option_map]. rewrite Hv.
    split; [reflexivity|]. split; [reflexivity|].
    exact (Qred_correct (inject_Z n)).
Qed.

Lemma encode_features_categorical (f f2 f4 : DataFrame) (c : string)
      (d : list (string * Z)) :
  encode_features f = Ok (f2, f4) -> In (c, d) category_mappings ->
  cols_named c f4 = map (series_map d) (cols_named c f).
Proof.
  intros H I.
  destruct (encode_features_inv _ _ _ H) as (f3 & E2 & E3 & E4).
  destruct (encode_categorical_inv _ _ E2) as (_ & _ & _ & K2).
  destruct (df_get_dummies_inv _ _ _ E3) as (_ & _ & _ & K3).
  destruct (derive_features_inv _ _ E4)
    as (? & ? & ? & ? & ? & ? & ? & ? & ? & ? & ? & ? &
        _ & _ & _ & _ & _ & _ & _ & _ & _ & _ & _ & _ & _ & K4 & _).
  pose proof (K2 c d I) as Kc.
  simpl in I.
  repeat (destruct I as [I|I];
          [injection I as <- <-;
           rewrite K4 by (simpl; intuition discriminate);
           rewrite K3 by reflexivity;
           rewrite Kc;
           now rewrite cols_named_drop_identifiers by reflexivity|]).
  contradiction.
Qed.

(** ** When the encoder succeeds *)

Lemma distinct_NoDup (l : list string) : distinct l = true -> NoDup l.
Proof.
  induction l as [|x l IH]; simpl; intros H; [constructor|].
  apply andb_prop in H. destruct H as [H1 H2].
  constructor; [|now apply IH].
  apply has_label_false. now destruct (has_label x l).
Qed.

Lemma cols_named_length_NoDup (c : string) (df : DataFrame) :
  NoDup (columns df) -> List.length (cols_named c df) <= 1.
Proof.
  intros ND. destruct (in_dec string_dec c (columns df)) as [I|N].
  - destruct (cols_named_NoDup c df ND I) as [s ->]. simpl. lia.
  - apply cols_named_nil in N. rewrite N. simpl. lia.
Qed.

Section NoStrings.
Variable op : value -> value -> result value.
Hypothesis op_ok : forall a b, is_str a = false -> is_str b = false ->
                               exists c, op a b = Ok c /\ is_str c = false.

Lemma zipR_no_strings (s : Series) :
  forall t, no_strings s = true -> no_strings t = true ->
            exists r, zipR op s t = Ok r /\ no_strings r = true.
Proof using op_ok.
  induction s as [|a s IH]; intros t Hs Ht; [now exists []|].
  destruct t as [|b t]; [now exists []|].
  simpl in Hs, Ht. apply andb_prop in Hs, Ht.
  destruct Hs as [Ha Hs], Ht as [Hb Ht].
  apply negb_true_iff in Ha, Hb.
  destruct (op_ok a b Ha Hb) as (c & Hc & Sc).
  destruct (IH t Hs Ht) as (r & Hr & Sr).
  exists (c :: r). simpl. rewrite Hc, Hr. simpl. now rewrite Sc, Sr.
Qed.
End NoStrings.

Lemma mapR_no_strings (g : value -> result value) (s : Series) :
  (forall a, is_str a = false -> exists c, g a = Ok c /\ is_str c = false) ->
  no_strings s = true ->
  exists r, mapR g s = Ok r /\ no_strings r = true.
Proof.
  intros G. induction s as [|a s IH]; intros Hs; [now exists []|].
  simpl in Hs. apply andb_prop in Hs. destruct Hs as [Ha Hs].
  apply negb_true_iff in Ha.
  destruct (G a Ha) as (c & Hc & Sc). destruct (IH Hs) as (r & Hr & Sr).
  exists (c :: r). simpl. rewrite Hc, Hr. simpl. now rewrite Sc, Sr.
Qed.

Lemma v_add_no_strings (a b : value) :
  is_str a = false -> is_str b = false -> exists c, v_add a b = Ok c /\ is_str c = false.
Proof. destruct a, b; simpl; try discriminate; intros _ _; now eexists. Qed.

Lemma v_sub_no_strings (a b : value) :
  is_str a = false -> is_str b = false -> exists c, v_sub a b = Ok c /\ is_str c = false.
Proof. destruct a, b; simpl; try discriminate; intros _ _; now eexists. Qed.

Lemma v_mul_no_strings (a b : value) :
  is_str a = false -> is_str b = false -> exists c, v_mul a b = Ok c /\ is_str c = false.
Proof. destruct a, b; simpl; try discriminate; intros _ _; now eexists. Qed.

Lemma v_abs_no_strings (a : value) :
  is_str a = false -> exists c, v_abs a = Ok c /\ is_str c = false.
Proof. destruct a; simpl; try discriminate; intros _; now eexists. Qed.

Lemma map_column_df_total (c : string) (d : list (string * Z)) (f : DataFrame) :
  NoDup (columns f) -> In c (columns f) ->
  exists f', map_column_df c d f = Ok f'.
Proof.
  intros ND I. destruct (cols_named_NoDup c f ND I) as [s Hs].
  apply df_getitem_Ok in Hs. unfold map_column_df. rewrite Hs. simpl. now eexists.
Qed.

Lemma map_columns_df_total (d : list (string * Z)) (l : list string) :
  forall f, NoDup (columns f) -> (forall c, In c l -> In c (columns f)) ->
            exists f', foldR (fun f col => map_column_df col d f) l f = Ok f'.
Proof.
  induction l as [|c l IH]; intros f ND H; simpl; [now eexists|].
  destruct (map_column_df_total c d f ND) as [g Hg]; [apply H; now left|].
  rewrite Hg. simpl.
  destruct (map_column_df_inv _ _ _ _ Hg) as (C & _).
  apply IH; rewrite C; [exact ND | intros; apply H; now right].
Qed.

Lemma encode_categorical_total (f : DataFrame) :
  NoDup (columns f) -> (forall c, In c categorical_cols -> In c (columns f)) ->
  exists f', encode_categorical f = Ok f'.
Proof.
  intros ND H. unfold encode_categorical.
  destruct (map_columns_df_total BINARY_MAPPING cols_yes_no f ND) as [fa Ea].
  { intros c I. apply H. simpl in *. tauto. }
  rewrite Ea. cbn [rbind].
  destruct (map_columns_df_inv _ _ _ _ Ea) as (Ca & _).
  destruct (map_column_df_total "sex" SEX_MAPPING fa) as [fb Eb];
    [now rewrite Ca | rewrite Ca; apply H; simpl; tauto|].
  rewrite Eb. cbn [rbind]. destruct (map_column_df_inv _ _ _ _ Eb) as (Cb & _).
  destruct (map_column_df_total "address" ADDRESS_MAPPING fb) as [fc Ec];
    [now rewrite Cb, Ca | rewrite Cb, Ca; apply H; simpl; tauto|].
  rewrite Ec. cbn [rbind]. destruct (map_column_df_inv _ _ _ _ Ec) as (Cc & _).
  destruct (map_column_df_total "famsize" FAMSIZE_MAPPING fc) as [fd Ed];
    [now rewrite Cc, Cb, Ca | rewrite Cc, Cb, Ca; apply H; simpl; tauto|].
  rewrite Ed. cbn [rbind]. destruct (map_column_df_inv _ _ _ _ Ed) as (Cd & _).
  apply map_column_df_total;
    [now rewrite Cd, Cc, Cb, Ca | rewrite Cd, Cc, Cb, Ca; apply H; simpl; tauto].
Qed.

Lemma derive_features_total (f : DataFrame) :
  (forall c, In c numeric_inputs ->
             exists s, df_getitem c f = Ok s /\ no_strings s = true) ->
  List.length (cols_named "Total_Alcohol" f) <= 1 ->
  exists f', derive_features f = Ok f'.
Proof.
  intros H TA.
  destruct (H "Medu") as (medu & Eme & Sme); [simpl; tauto|].
  destruct (H "Fedu") as (fedu & Efe & Sfe); [simpl; tauto|].
  destruct (H "Dalc") as (dalc & Eda & Sda); [simpl; tauto|].
  destruct (H "Walc") as (walc & Ewa & Swa); [simpl; tauto|].
  destruct (H "goout") as (goout & Ego & Sgo); [simpl; tauto|].
  destruct (zipR_no_strings v_add v_add_no_strings medu fedu Sme Sfe) as (total & Et & _).
  destruct (zipR_no_strings v_sub v_sub_no_strings medu fedu Sme Sfe) as (diff & Ed & Sd).
  destruct (mapR_no_strings v_abs diff v_abs_no_strings Sd) as (adiff & Ead & _).
  destruct (mapR_no_strings (fun v => v_mul v (VInt 2)) walc) as (walc2 & Ew2 & Sw2);
    [intros a Ha; now apply v_mul_no_strings | exact Swa|].
  destruct (zipR_no_strings v_add v_add_no_strings dalc walc2 Sda Sw2) as (alc & Ealc & Salc).
  destruct (zipR_no_strings v_mul v_mul_no_strings alc alc Salc Salc) as (sq & Esq & Ssq).
  destruct (zipR_no_strings v_mul v_mul_no_strings sq goout Ssq Sgo) as (party & Ep & _).
  unfold derive_features.
  rewrite Eme, Efe. cbn [rbind]. rewrite Et. cbn [rbind]. cbv zeta.
  rewrite !(df_getitem_setitem_other _ "Parent_Edu_Total") by discriminate.
  rewrite Eme, Efe. cbn [rbind]. rewrite Ed. cbn [rbind]. rewrite Ead. cbn [rbind].
  rewrite !(df_getitem_setitem_other _ "Parent_Edu_Diff") by discriminate.
  rewrite !(df_getitem_setitem_other _ "Parent_Edu_Total") by discriminate.
  rewrite Eda, Ewa. cbn [rbind]. rewrite Ew2. cbn [rbind]. rewrite Ealc. cbn [rbind].
  set (g := df_setitem "Parent_Edu_Diff" adiff (df_setitem "Parent_Edu_Total" total f)).
  assert (G : df_getitem "Total_Alcohol" (df_setitem "Total_Alcohol" alc g) = Ok alc).
  { apply df_getitem_Ok. rewrite cols_named_setitem_same. unfold g.
    rewrite !cols_named_setitem_other by discriminate.
    destruct (cols_named "Total_Alcohol" f) as [|x [|y l]]; simpl in *; try reflexivity.
    lia. }
  rewrite G. cbn [rbind]. rewrite Esq. cbn [rbind].
  rewrite (df_getitem_setitem_other _ "Total_Alcohol") by discriminate.
  unfold g.
  rewrite (df_getitem_setitem_other _ "Parent_Edu_Diff") by discriminate.
  rewrite (df_getitem_setitem_other _ "Parent_Edu_Total") by discriminate.
  rewrite Ego. cbn [rbind]. rewrite Ep. cbn [rbind]. now eexists.
Qed.

Lemma encode_features_total (f : DataFrame) :
  encodable f = true -> exists f2 f4, encode_features f = Ok (f2, f4).
Proof.
  unfold encodable. intros H.
  apply andb_prop in H. destruct H as [H S]. apply andb_prop in H. destruct H as [D P].
  apply distinct_NoDup in D.
  rewrite forallb_forall in P, S.
  assert (Pin : forall c, In c (categorical_cols ++ nominal_cols ++ numeric_inputs) ->
                          In c (columns f))
    by (intros c I; apply has_label_In; now apply P).
  assert (Keep : forall c, In c (categorical_cols ++ nominal_cols ++ numeric_inputs) ->
                           has_label c drop_cols = false).
  { assert (K : forallb (fun c => negb (has_label c drop_cols))
                        (categorical_cols ++ nominal_cols ++ numeric_inputs) = true)
      by reflexivity.
    rewrite forallb_forall in K. intros c I. apply negb_true_iff. now apply K. }
  unfold encode_features.
  set (f1 := df_drop (filter (fun c => has_label c (columns f)) drop_cols) f).
  assert (ND1 : NoDup (columns f1))
    by (unfold f1; rewrite columns_drop; now apply NoDup_filter).
  assert (In1 : forall c, In c (categorical_cols ++ nominal_cols ++ numeric_inputs) ->
                          In c (columns f1)).
  { intros c I. unfold f1. rewrite columns_drop. apply filter_In.
    split; [now apply Pin|]. apply negb_true_iff, has_label_false.
    intros J. apply filter_In in J. destruct J as [J _].
    apply has_label_In in J. rewrite (Keep c I) in J. discriminate. }
  destruct (encode_categorical_total f1 ND1) as [f2 E2].
  { intros c I. apply In1. apply in_or_app. now left. }
  rewrite E2. cbn [rbind].
  destruct (encode_categorical_inv _ _ E2) as (C2 & _ & K2 & _).
  destruct (df_get_dummies_total nominal_cols f2) as [f3 E3].
  { intros c I. rewrite C2. apply In1. apply in_or_app. right. apply in_or_app. now left. }
  rewrite E3. cbn [rbind].
  destruct (df_get_dummies_inv _ _ _ E3) as (_ & _ & _ & K3).
  destruct (derive_features_total f3) as [f4 E4].
  - intros c I.
    assert (Ic : In c (categorical_cols ++ nominal_cols ++ numeric_inputs))
      by (apply in_or_app; right; apply in_or_app; now right).
    specialize (S c I). destruct (df_getitem c f) as [s|] eqn:G; [|discriminate].
    exists s. split; [|exact S].
    apply df_getitem_Ok. apply df_getitem_Ok in G.
    simpl in I.
    repeat (destruct I as [<-|I];
            [rewrite K3 by reflexivity;
             rewrite K2 by (simpl; intuition discriminate);
             unfold f1; now rewrite cols_named_drop_identifiers by reflexivity|]).
    contradiction.
  - rewrite K3 by reflexivity.
    apply cols_named_length_NoDup. now rewrite C2.
  - rewrite E4. cbn [rbind]. now exists f2, f4.
Qed.

Lemma encode_total (f : DataFrame) (tc : option (list string)) :
  encodable f = true -> exists X, encode f tc = Ok X.
Proof.
  intros H. destruct (encode_features_total f H) as (f2 & f4 & E).
  unfold encode, encode_steps. rewrite E. cbn [rbind fst snd].
  destruct tc as [l|]; cbn [rbind snd]; [|now eexists].
  destruct (reconcile_total l f4) as [t Ht]. rewrite Ht. cbn [rbind snd]. now eexists.
Qed.

(** C1, as the code has it.  A table with the columns the encoder reads
    is encoded whatever its categorical columns hold: [preprocess_data]
    returns a table, and in it the column of each categorical field is the
    image of the raw column under the field's mapping, where a value of
    the mapping's domain has become its code and a value outside the
    domain has become NaN.  No error is raised for such a value. *)
Theorem out_of_domain_category_is_encoded_as_nan
        (st : store) (r : ref) (f : DataFrame) (tc : option (list string)) :
  nth_error st r = Some f ->
  encodable f = true ->
  exists r' st' X,
    preprocess_data r tc st = Ok (r', st') /\
    nth_error st' r' = Some X /\
    forall c d s,
      In (c, d) category_mappings ->
      df_getitem c f = Ok s ->
      (tc = None \/ exists l, tc = Some l /\ In c l) ->
      cols_named c X <> [] /\
      forall s', In s' (cols_named c X) ->
                 s' = series_map d s /\
                 (forall i v, nth_error s i = Some v -> map_lookup d v = None ->
                              nth_error s' i = Some VNaN) /\
                 (forall i v n, nth_error s i = Some v -> map_lookup d v = Some n ->
                                exists w, nth_error s' i = Some w /\
                                          is_number w = true /\
                                          (num_of w == inject_Z n)%Q).
Proof.
  intros Hr He.
  destruct (encode_total f tc He) as [X HX].
  destruct (preprocess_data_succeeds st r f X tc Hr HX) as (r' & st' & Hrun & Hx).
  exists r', st', X. split; [exact Hrun|]. split; [exact Hx|].
  intros c d s I G Htc.
  destruct (encode_inv _ _ _ HX) as (f2 & f4 & Hf & Hsel).
  pose proof (encode_features_categorical _ _ _ c d Hf I) as K.
  apply df_getitem_Ok in G. rewrite G in K. simpl in K.
  assert (Fin : forall s', In s' (cols_named c f4) ->
                           s' = series_map d s /\
                           (forall i v, nth_error s i = Some v -> map_lookup d v = None ->
                                        nth_error s' i = Some VNaN) /\
                           (forall i v n, nth_error s i = Some v ->
                                          map_lookup d v = Some n ->
                                          exists w, nth_error s' i = Some w /\
                                                    is_number w = true /\
                                                    (num_of w == inject_Z n)%Q)).
  { intros s' Hs'. rewrite K in Hs'. destruct Hs' as [<-|[]].
    split; [reflexivity|]. split.
    - intros i v. apply series_map_out_of_domain.
    - intros i v n. apply series_map_in_domain. }
  destruct Htc as [->|(l & -> & Il)].
  - subst X. split; [rewrite K; discriminate | exact Fin].
  - destruct (reconcile_columns l f4 X c Hsel) as (_ & A1 & A2 & _).
    split; [now apply A1|].
    intros s' Hs'. apply Fin, A2; [|exact Hs'].
    apply present_nonempty. rewrite K. discriminate.
Qed.

(** ** Encoding an encoded table *)

Lemma map_columns_df_reads (d : list (string * Z)) (l : list string) :
  forall f f', foldR (fun f col => map_column_df col d f) l f = Ok f' ->
               forall c, In c l -> In c (columns f).
Proof.
  induction l as [|c0 l IH]; intros f f' H c I; [contradiction|].
  simpl in H. destruct (map_column_df c0 d f) as [g|] eqn:E; [|discriminate].
  simpl in H. destruct (map_column_df_inv _ _ _ _ E) as (C & _).
  destruct I as [<-|I].
  - unfold map_column_df in E.
    destruct (df_getitem c0 f) as [s|] eqn:G; [|discriminate].
    now apply df_getitem_In in G.
  - rewrite <- C. now apply (IH g f').
Qed.

Lemma encode_categorical_reads (f f' : DataFrame) :
  encode_categorical f = Ok f' -> forall c, In c categorical_cols -> In c (columns f).
Proof.
  unfold encode_categorical. intros H c I.
  destruct (foldR _ cols_yes_no f) as [fa|] eqn:Ea; [|discriminate]. cbn [rbind] in H.
  destruct (map_column_df "sex" _ fa) as [fb|] eqn:Eb; [|discriminate]. cbn [rbind] in H.
  destruct (map_column_df "address" _ fb) as [fc|] eqn:Ec; [|discriminate]. cbn [rbind] in H.
  destruct (map_column_df "famsize" _ fc) as [fd|] eqn:Ed; [|discriminate]. cbn [rbind] in H.
  destruct (map_columns_df_inv _ _ _ _ Ea) as (Ca & _).
  destruct (map_column_df_inv _ _ _ _ Eb) as (Cb & _).
  destruct (map_column_df_inv _ _ _ _ Ec) as (Cc & _).
  destruct (map_column_df_inv _ _ _ _ Ed) as (Cd & _).
  assert (R : forall c0 d g g', map_column_df c0 d g = Ok g' -> In c0 (columns g)).
  { intros c0 d g g' E. unfold map_column_df in E.
    destruct (df_getitem c0 g) as [s|] eqn:G; [|discriminate].
    now apply df_getitem_In in G. }
  apply R in Eb, Ec, Ed, H.
  rewrite Cd, Cc, Cb, Ca in H. rewrite Cc, Cb, Ca in Ed. rewrite Cb, Ca in Ec.
  rewrite Ca in Eb.
  change categorical_cols with (cols_yes_no ++ ["sex"; "address"; "famsize"; "Pstatus"]) in I.
  apply in_app_or in I. destruct I as [I|I].
  - now apply (map_columns_df_reads _ _ _ _ Ea).
  - simpl in I. destruct I as [<-|[<-|[<-|[<-|[]]]]]; assumption.
Qed.

(** A table the encoder accepts has every column the encoder reads. *)
Lemma encode_reads (f X : DataFrame) (tc : option (list string)) :
  encode f tc = Ok X -> forall c, In c encoder_inputs -> In c (columns f).
Proof.
  intros H c I.
  destruct (encode_inv _ _ _ H) as (f2 & f4 & Hf & _).
  destruct (encode_features_inv _ _ _ Hf) as (f3 & E2 & E3 & E4).
  destruct (encode_categorical_inv _ _ E2) as (C2 & _).
  destruct (df_get_dummies_inv _ _ _ E3) as (_ & N3 & L3 & _).
  assert (Sub : forall x, In x (columns f2) -> In x (columns f)).
  { intros x Hx. rewrite C2, columns_drop in Hx. now apply filter_In in Hx. }
  unfold encoder_inputs in I. apply in_app_or in I. destruct I as [I|I].
  - apply Sub. rewrite C2. now apply (encode_categorical_reads _ _ E2).
  - apply in_app_or in I. destruct I as [I|I]; [now apply Sub, N3|].
    destruct (derive_features_inv _ _ E4)
      as (medu & fedu & dalc & walc & goout & ? & ? & ? & ? & ? & ? & ? &
          Gm & Gf & Gd & Gw & Gg & _).
    apply df_getitem_In in Gm, Gf, Gd, Gw, Gg.
    simpl in I.
    repeat (destruct I as [<-|I];
            [match goal with G : In ?c (columns f3) |- In ?c _ =>
               destruct (L3 c G) as [[J _]|J]; [now apply Sub | discriminate J]
             end|]).
    contradiction.
Qed.

(** Without a schema, the encoded table has none of the four nominal
    columns: they were replaced by their indicator columns.  The feature
    list saved at training time is made of labels of such a table. *)
Lemma encode_none_lacks_nominal (f X : DataFrame) (c : string) :
  encode f None = Ok X -> In c nominal_cols -> ~ In c (columns X).
Proof.
  intros H I J.
  destruct (encode_inv _ _ _ H) as (f2 & f4 & Hf & ->).
  destruct (encode_features_inv _ _ _ Hf) as (f3 & E2 & E3 & E4).
  destruct (df_get_dummies_inv _ _ _ E3) as (_ & _ & L3 & _).
  destruct (derive_features_inv _ _ E4)
    as (? & ? & ? & ? & ? & ? & ? & ? & ? & ? & ? & ? &
        _ & _ & _ & _ & _ & _ & _ & _ & _ & _ & _ & _ & _ & K4 & _).
  assert (J3 : In c (columns f3)).
  { apply present_nonempty. rewrite <- K4.
    - intros Z. now apply cols_named_nil in Z.
    - simpl in I. simpl. intuition (subst; discriminate). }
  destruct (L3 c J3) as [[_ N]|Ind]; [contradiction|].
  simpl in I. destruct I as [<-|[<-|[<-|[<-|[]]]]]; discriminate Ind.
Qed.

(** C6, as the code has it.  For a fixed schema the table
    [preprocess_data] returns depends on the input table only: two calls
    on equal tables return equal tables.  It cannot be applied to its own
    output, though: when the schema lacks one of the raw columns the
    encoder reads, as every saved feature list does, the output lacks it
    too and encoding the output raises. *)
Theorem encode_is_repeatable_but_not_reapplicable (f : DataFrame) (S : list string) :
  (forall st r r' st' X sta ra ra' sta' Xa,
     nth_error st r = Some f -> nth_error sta ra = Some f ->
     preprocess_data r (Some S) st = Ok (r', st') -> nth_error st' r' = Some X ->
     preprocess_data ra (Some S) sta = Ok (ra', sta') -> nth_error sta' ra' = Some Xa ->
     Xa = X) /\
  (forall st r r' st' c,
     nth_error st r = Some f ->
     preprocess_data r (Some S) st = Ok (r', st') ->
     In c encoder_inputs -> ~ In c S ->
     exists e, preprocess_data r' (Some S) st' = Raise e).
Proof.
  split.
  - intros st r r' st' X sta ra ra' sta' Xa Hr Hra H1 HX H2 HXa.
    destruct (preprocess_data_returns _ _ _ _ _ _ _ Hr H1 HX) as [E1 _].
    destruct (preprocess_data_returns _ _ _ _ _ _ _ Hra H2 HXa) as [E2 _].
    congruence.
  - intros st r r' st' c Hr H1 Ic Nc.
    pose proof H1 as H1'. rewrite (preprocess_data_run _ _ _ _ Hr) in H1'.
    destruct (encode_steps f (Some S)) as [[junk X]|] eqn:ES; [|discriminate].
    injection H1' as <- <-.
    pose proof (nth_error_after_junk st junk X) as HX.
    destruct (preprocess_data_returns _ _ _ _ _ _ _ Hr H1 HX) as [E1 _].
    destruct (encode X (Some S)) as [X2|e] eqn:E2.
    + exfalso. apply Nc.
      pose proof (encode_reads _ _ _ E2 c Ic) as J.
      destruct (encode_inv _ _ _ E1) as (f2 & f4 & _ & Hsel).
      now apply (columns_select_In _ _ _ _ Hsel).
    + exists e. now apply (preprocess_data_fails _ _ X).
Qed.

(** ** The width of a reconciled table *)

Lemma fill_missing_NoDup (tc : list string) :
  forall f, NoDup (columns f) -> NoDup (columns (fill_missing tc f)).
Proof.
  induction tc as [|c tc IH]; intros f ND; [exact ND|].
  rewrite fill_missing_cons. apply IH.
  destruct (has_label c (columns f)) eqn:E; cbn [negb]; [exact ND|].
  unfold df_setitem_scalar. rewrite columns_setitem, E.
  apply has_label_false in E.
  apply NoDup_app; [exact ND | repeat constructor; intros [] |].
  intros x Hx [<-|[]]. contradiction.
Qed.

(** When the labels of the encoded table are distinct, reconciliation
    returns exactly the schema: [len(S)] columns, in the order of [S]. *)
Lemma reconcile_exact (f f2 f4 X : DataFrame) (S : list string) :
  encode_features f = Ok (f2, f4) ->
  NoDup (columns f4) ->
  encode f (Some S) = Ok X ->
  columns X = S.
Proof.
  intros Hf ND HX.
  destruct (encode_inv _ _ _ HX) as (g2 & g4 & Hg & Hsel).
  assert (g4 = f4) by congruence. subst g4.
  apply (columns_select_NoDup S (fill_missing S f4)); [|exact Hsel].
  now apply fill_missing_NoDup.
Qed.

(** ** [train_final_model] and the saved feature list *)

(** The feature list saved at training time never holds one of the four
    nominal labels. *)
Lemma train_final_model_features (st st' : store) (r : ref) (f : DataFrame)
      (model : predictor) (features : list string) (c : string) :
  nth_error st r = Some f ->
  train_final_model r st = Ok ((model, features), st') ->
  In c nominal_cols -> ~ In c features.
Proof.
  intros Hr H Ic. unfold train_final_model in H.
  unfold bind at 1 in H. rewrite (preprocess_data_run _ _ _ _ Hr) in H.
  destruct (encode_steps f None) as [[junk t]|] eqn:ES; [|discriminate].
  assert (Et : encode f None = Ok t) by (unfold encode; now rewrite ES).
  pose proof (nth_error_after_junk st junk t) as Ht.
  set (st1 := st ++ junk ++ [t]) in *.
  set (r1 := List.length st + List.length junk) in *.
  unfold pd_drop_label in H. rewrite bind_assoc in H.
  unfold bind at 1, deref in H. rewrite Ht in H.
  destruct (has_label "FinalGrade" (columns t)); [|discriminate].
  change (bind (new_frame ?g) ?k st1) with (k (List.length st1) (st1 ++ [g])) in H.
  cbv beta in H.
  rewrite (run_getitem _ _ _ t) in H by now apply nth_error_snoc_old.
  destruct (df_getitem "FinalGrade" t) as [y|]; [|discriminate].
  unfold bind at 1, deref in H. rewrite nth_error_snoc in H.
  rewrite run_lift in H.
  destruct (fit_model _ y) as [m|]; [|discriminate].
  rewrite (run_columns _ _ _ (df_drop ["FinalGrade"] t)) in H by apply nth_error_snoc.
  unfold ret in H. injection H as _ <- _.
  rewrite columns_drop. intros J. apply filter_In in J. destruct J as [J _].
  now apply (encode_none_lacks_nominal f t c).
Qed.

(** ** When the pipeline succeeds *)

Lemma NoDup_distinct (l : list string) : NoDup l -> distinct l = true.
Proof.
  induction 1 as [|x l N _ IH]; simpl; [reflexivity|].
  apply has_label_false in N. now rewrite N, IH.
Qed.

Lemma NoDup_columns_setitem (c : string) (s : Series) (f : DataFrame) :
  NoDup (columns f) -> NoDup (columns (df_setitem c s f)).
Proof.
  intros ND. rewrite columns_setitem.
  destruct (has_label c (columns f)) eqn:E; [exact ND|].
  apply has_label_false in E.
  apply NoDup_app; [exact ND | repeat constructor; intros [] |].
  intros x Hx [<-|[]]. contradiction.
Qed.

Lemma In_columns_setitem (c c' : string) (s : Series) (f : DataFrame) :
  In c (columns f) -> In c (columns (df_setitem c' s f)).
Proof.
  intros I. rewrite columns_setitem.
  destruct (has_label c' (columns f)); [exact I|]. apply in_or_app. now left.
Qed.

Lemma no_strings_repeat_int (k : Z) (n : nat) : no_strings (repeat (VInt k) n) = true.
Proof. induction n as [|n IH]; simpl; [reflexivity | exact IH]. Qed.

(** The idealized copy of a table the encoder accepts is accepted too. *)
Lemma encodable_idealize (f : DataFrame) :
  encodable f = true -> encodable (idealize f) = true.
Proof.
  unfold encodable. intros H.
  apply andb_prop in H. destruct H as [H S]. apply andb_prop in H. destruct H as [D P].
  rewrite forallb_forall in P, S.
  apply andb_true_intro. split; [apply andb_true_intro; split|].
  - apply NoDup_distinct. apply distinct_NoDup in D.
    unfold idealize, df_setitem_scalar. now repeat apply NoDup_columns_setitem.
  - apply forallb_forall. intros c I. apply has_label_In.
    specialize (P c I). apply has_label_In in P.
    unfold idealize, df_setitem_scalar. now repeat apply In_columns_setitem.
  - apply forallb_forall. intros c I. specialize (S c I).
    destruct (df_getitem c f) as [s|] eqn:G; [|discriminate].
    apply df_getitem_Ok in G.
    assert (O : forall k, In (c, k) habit_overrides ->
                          df_getitem c (idealize f) = Ok (repeat (VInt k) (nrows f))).
    { intros k Hk. apply df_getitem_Ok.
      now rewrite (cols_named_idealize_override c k f Hk), G. }
    simpl in I. destruct I as [<-|[<-|[<-|[<-|[<-|[]]]]]].
    + assert (E : df_getitem "Medu" (idealize f) = Ok s)
        by (apply df_getitem_Ok; now rewrite cols_named_idealize_other).
      now rewrite E.
    + assert (E : df_getitem "Fedu" (idealize f) = Ok s)
        by (apply df_getitem_Ok; now rewrite cols_named_idealize_other).
      now rewrite E.
    + rewrite (O 1%Z) by (simpl; tauto). apply no_strings_repeat_int.
    + rewrite (O 1%Z) by (simpl; tauto). apply no_strings_repeat_int.
    + rewrite (O 2%Z) by (simpl; tauto). apply no_strings_repeat_int.
Qed.

Lemma encode_nrows (f X : DataFrame) (tc : option (list string)) :
  encode f tc = Ok X -> nrows X = nrows f.
Proof.
  intros H. destruct (encode_inv _ _ _ H) as (f2 & f4 & Hf & Hsel).
  rewrite <- (encode_features_nrows _ _ _ Hf).
  destruct tc as [l|]; [|now subst].
  now destruct (reconcile_columns l f4 X "" Hsel) as (RX & _).
Qed.

Lemma no_strings_rounded (preds : list Q) : no_strings (rounded preds) = true.
Proof. induction preds as [|p l IH]; simpl; [reflexivity | exact IH]. Qed.

Lemma v_clip_lower_no_strings (k : Z) (a : value) :
  is_str a = false -> exists c, v_clip_lower k a = Ok c /\ is_str c = false.
Proof. destruct a; simpl; try discriminate; intros _; now eexists. Qed.

Lemma v_div_const_no_strings (k : Z) (a : value) :
  is_str a = false -> exists c, v_div_const a k = Ok c /\ is_str c = false.
Proof. destruct a; simpl; try discriminate; intros _; now eexists. Qed.

Lemma dashboard_total (sel : DataFrame) (preds : list Q) (fg : Series) :
  (forall c, In c (columns sel) -> In c passthrough) ->
  List.length preds = nrows sel ->
  df_getitem "FinalGrade" sel = Ok fg ->
  no_strings fg = true ->
  exists out, dashboard sel preds = Ok out.
Proof.
  intros Hsel L Efg Sfg.
  destruct (zipR_no_strings v_sub v_sub_no_strings (rounded preds) fg
              (no_strings_rounded preds) Sfg) as (margin & Em & Sm).
  destruct (mapR_no_strings (v_clip_lower 0) margin (v_clip_lower_no_strings 0) Sm)
    as (im & Eim & Sim).
  destruct (mapR_no_strings (fun v => v_div_const v 20) im
              (v_div_const_no_strings 20) Sim) as (ratio & Er & Sr).
  destruct (mapR_no_strings (fun v => v_sub (VInt 1) v) ratio) as (score & Es & _);
    [intros a Ha; now apply v_sub_no_strings | exact Sr|].
  eexists. now apply (dashboard_Ok sel preds fg margin im ratio score).
Qed.

Lemma dashboard_returns_intro (st : store) (csv_path model_path features_path : string)
      (df out : DataFrame) (model : predictor) (feature_cols : list string) :
  read_csv csv_path = Ok df ->
  load_model model_path = Ok model ->
  load_features features_path = Ok feature_cols ->
  dashboard_of df model feature_cols = Ok out ->
  dashboard_returns csv_path model_path features_path st out.
Proof.
  intros H1 H2 H3 H.
  pose proof (generate_dashboard_data_run st _ _ _ _ _ _ H1 H2 H3) as R.
  rewrite H in R. destruct R as [junk R].
  eexists _, _. split; [exact R | apply nth_error_last_of].
Qed.

(** The pipeline returns a table whenever the files load, the raw table
    has distinct labels, the columns the encoder reads (numbers or NaN in
    the five that enter the arithmetic), the identifier and name columns
    and a FinalGrade column without strings, and the model returns one
    prediction per row. *)
Lemma generate_dashboard_data_total (st : store) (csv_path model_path features_path : string)
      (df : DataFrame) (model : predictor) (feature_cols : list string) (fg : Series) :
  read_csv csv_path = Ok df ->
  load_model model_path = Ok model ->
  load_features features_path = Ok feature_cols ->
  encodable df = true ->
  (forall c, In c passthrough -> In c (columns df)) ->
  df_getitem "FinalGrade" df = Ok fg ->
  no_strings fg = true ->
  (forall X, nrows X = nrows df ->
             exists preds, model X = Ok preds /\ List.length preds = nrows X) ->
  exists out, dashboard_returns csv_path model_path features_path st out.
Proof.
  intros H1 H2 H3 He Hp Hfg Sfg Hm.
  destruct (encode_total (idealize df) (Some feature_cols) (encodable_idealize df He))
    as [X HX].
  pose proof (encode_nrows _ _ _ HX) as RX. rewrite nrows_idealize in RX.
  destruct (Hm X RX) as (preds & Epreds & Lp).
  destruct (select_cols_total passthrough (cols df) Hp) as [cs Hcs].
  assert (Hsel : df_select passthrough df = Ok (mkDF (nrows df) cs))
    by (unfold df_select; now rewrite Hcs).
  destruct (dashboard_total (mkDF (nrows df) cs) preds fg) as [out Hout].
  - intros c. apply (columns_select_In _ _ _ _ Hsel).
  - simpl. congruence.
  - apply df_getitem_Ok.
    rewrite (cols_named_passthrough df _ "FinalGrade" Hsel) by (simpl; tauto).
    now apply df_getitem_Ok.
  - exact Sfg.
  - exists out. apply (dashboard_returns_intro st _ _ _ df out model feature_cols H1 H2 H3).
    unfold dashboard_of. rewrite HX. cbn [rbind]. rewrite Epreds. cbn [rbind].
    rewrite Hsel. cbn [rbind]. exact Hout.
Qed.

(** C7.  A table with one record: studytime 1, Dalc 3, Walc 4,
    absences 10, goout 5, Medu 2, Fedu 2 and FinalGrade 10, with an
    identifier and names.  Its idealized copy holds studytime 4, Dalc 1,
    Walc 1, absences 0 and goout 2; encoding that copy (without a schema,
    or with one that keeps the two columns) gives Total_Alcohol 3 and
    Party_Life 18; and when the model predicts 14.0 for the encoding of the
    copy, the pipeline returns a table, with Potential_Grade 14,
    Improvability_Margin 4 and Complexity_Score 4/5. *)
Theorem end_to_end_example
        (csv_path model_path features_path : string) (st : store)
        (df : DataFrame) (model : predictor) (feature_cols : list string)
        (X : DataFrame) :
  read_csv csv_path = Ok df ->
  load_model model_path = Ok model ->
  load_features features_path = Ok feature_cols ->
  nrows df = 1 ->
  df_getitem "studytime" df = Ok [VInt 1] ->
  df_getitem "Dalc" df = Ok [VInt 3] ->
  df_getitem "Walc" df = Ok [VInt 4] ->
  df_getitem "absences" df = Ok [VInt 10] ->
  df_getitem "goout" df = Ok [VInt 5] ->
  df_getitem "Medu" df = Ok [VInt 2] ->
  df_getitem "Fedu" df = Ok [VInt 2] ->
  df_getitem "FinalGrade" df = Ok [VInt 10] ->
  In "StudentID" (columns df) ->
  In "FirstName" (columns df) ->
  In "FamilyName" (columns df) ->
  encode (idealize df) (Some feature_cols) = Ok X ->
  model X = Ok [14%Q] ->
  (forall st0 r, nth_error st0 r = Some df ->
     exists ri st1 ideal,
       create_ideal_profile r st0 = Ok (ri, st1) /\
       nth_error st1 ri = Some ideal /\
       df_getitem "studytime" ideal = Ok [VInt 4] /\
       df_getitem "Dalc" ideal = Ok [VInt 1] /\
       df_getitem "Walc" ideal = Ok [VInt 1] /\
       df_getitem "absences" ideal = Ok [VInt 0] /\
       df_getitem "goout" ideal = Ok [VInt 2] /\
       forall tc rE st2 E,
         preprocess_data ri tc st1 = Ok (rE, st2) ->
         nth_error st2 rE = Some E ->
         (tc = None \/
          exists l, tc = Some l /\ In "Total_Alcohol" l /\ In "Party_Life" l) ->
         cols_named "Total_Alcohol" E <> [] /\
         (forall s, In s (cols_named "Total_Alcohol" E) -> s = [VInt 3]) /\
         cols_named "Party_Life" E <> [] /\
         (forall s, In s (cols_named "Party_Life" E) -> s = [VInt 18])) /\
  exists out,
    dashboard_returns csv_path model_path features_path st out /\
    df_getitem "Potential_Grade" out = Ok [VFloat 14] /\
    df_getitem "Improvability_Margin" out = Ok [VFloat 4] /\
    df_getitem "Complexity_Score" out = Ok [VFloat (4 # 5)].
Proof.
  intros Hcsv Hmod Hfeat Hn Hst Hda Hwa Hab Hgo Hme Hfe Hfg Hid Hfn Hln HX Hpred.
  assert (Hret : exists out, dashboard_returns csv_path model_path features_path st out).
  { assert (Hp : forall c, In c passthrough -> In c (map fst (cols df))).
    { intros c [<-|[<-|[<-|[<-|[]]]]]; try assumption.
      now apply df_getitem_In in Hfg. }
    destruct (select_cols_total passthrough (cols df) Hp) as [cs Hcs].
    assert (Hsel : df_select passthrough df = Ok (mkDF (nrows df) cs))
      by (unfold df_select; now rewrite Hcs).
    destruct (dashboard_total (mkDF (nrows df) cs) [14%Q] [VInt 10]) as [out Hout].
    - intros c. apply (columns_select_In _ _ _ _ Hsel).
    - simpl. now rewrite Hn.
    - apply df_getitem_Ok.
      rewrite (cols_named_passthrough df _ "FinalGrade" Hsel) by (simpl; tauto).
      now apply df_getitem_Ok.
    - reflexivity.
    - exists out.
      apply (dashboard_returns_intro st _ _ _ df out model feature_cols Hcsv Hmod Hfeat).
      unfold dashboard_of. rewrite HX. cbn [rbind]. rewrite Hpred. cbn [rbind].
      rewrite Hsel. cbn [rbind]. exact Hout. }
  destruct Hret as [out Hret].
  split; [|exists out; split; [exact Hret|]].
  - intros st0 r Hr.
    exists (List.length st0), (st0 ++ [idealize df]), (idealize df).
    split; [now apply create_ideal_profile_run|].
    split; [apply nth_error_snoc|].
    assert (O : forall c k v, In (c, k) habit_overrides -> df_getitem c df = Ok [v] ->
                              df_getitem c (idealize df) = Ok [VInt k]).
    { intros c k v I G. apply df_getitem_Ok in G. apply df_getitem_Ok.
      rewrite (cols_named_idealize_override c k df I), G, Hn. reflexivity. }
    split; [apply (O "studytime" 4%Z _ ltac:(simpl; tauto) Hst)|].
    split; [apply (O "Dalc" 1%Z _ ltac:(simpl; tauto) Hda)|].
    split; [apply (O "Walc" 1%Z _ ltac:(simpl; tauto) Hwa)|].
    split; [apply (O "absences" 0%Z _ ltac:(simpl; tauto) Hab)|].
    split; [apply (O "goout" 2%Z _ ltac:(simpl; tauto) Hgo)|].
    intros tc rE st2 E Hrun HE Htc.
    destruct (preprocess_data_returns _ _ _ _ _ _ _ (nth_error_snoc st0 (idealize df)) Hrun HE)
      as [Henc _].
    destruct (encode_inv _ _ _ Henc) as (f2 & f4 & Hf & Hsel).
    destruct (encode_features_idealize _ _ _ Hf) as (TA & PLn & PL).
    rewrite Hn in TA, PL. simpl in TA, PL.
    destruct Htc as [->|(l & -> & I1 & I2)].
    + subst E. rewrite TA. repeat split; try assumption; [discriminate|].
      intros s [<-|[]]. reflexivity.
    + destruct (reconcile_columns l f4 E "Total_Alcohol" Hsel) as (_ & A1 & A2 & _).
      destruct (reconcile_columns l f4 E "Party_Life" Hsel) as (_ & B1 & B2 & _).
      split; [now apply A1|]. split.
      * intros s Hs. apply A2 in Hs.
        -- rewrite TA in Hs. destruct Hs as [<-|[]]. reflexivity.
        -- apply present_nonempty. rewrite TA. discriminate.
      * split; [now apply B1|].
        intros s Hs. apply PL. apply B2; [|exact Hs].
        now apply present_nonempty.
  - destruct (dashboard_returns_getitem _ _ _ _ _ Hret)
      as (df' & model' & fc' & X' & preds & fg & margin & im & ratio & score &
          H1 & H2 & H3 & H4 & H5 & _ & _ & Gfg & Hm & Him & Hr & Hs & Gpg & Gim & Gcs & _).
    assert (df' = df) by congruence. subst df'.
    assert (model' = model) by congruence. subst model'.
    assert (fc' = feature_cols) by congruence. subst fc'.
    assert (X' = X) by congruence. subst X'.
    assert (preds = [14%Q]) by congruence. subst preds.
    assert (fg = [VInt 10]) by congruence. subst fg.
    vm_compute in Hm. injection Hm as <-.
    vm_compute in Him. injection Him as <-.
    vm_compute in Hr. injection Hr as <-.
    vm_compute in Hs. injection Hs as <-.
    split; [exact Gpg|]. split; [exact Gim | exact Gcs].
Qed.

(** * Further properties of the code *)

(** ** [preprocess_data] and its argument *)

Lemma preprocess_returns_iff (st : store) (r : ref) (f X : DataFrame)
      (tc : option (list string)) :
  nth_error st r = Some f ->
  preprocess_returns r tc st X <-> encode f tc = Ok X.
Proof.
  intros Hr. split.
  - intros (r' & st' & H & HX).
    now destruct (preprocess_data_returns _ _ _ _ _ _ _ Hr H HX).
  - intros E. now apply (preprocess_data_succeeds st r f).
Qed.

Lemma preprocess_raises_iff (st : store) (r : ref) (f : DataFrame)
      (tc : option (list string)) (e : exn) :
  nth_error st r = Some f ->
  preprocess_data r tc st = Raise e <-> encode f tc = Raise e.
Proof.
  intros Hr. rewrite (preprocess_data_run _ _ _ _ Hr). unfold encode.
  destruct (encode_steps f tc) as [[junk t]|e0]; cbn [rbind snd];
    split; intros H; try discriminate; congruence.
Qed.

(** [preprocess_data] works on a copy.  After a call that returns, the
    table it was given is what it was, and so is every other object that
    existed before the call; the table it returns is a new object. *)
Theorem preprocess_data_does_not_mutate_its_argument
        (st st' : store) (r r' : ref) (f : DataFrame) (tc : option (list string)) :
  nth_error st r = Some f ->
  preprocess_data r tc st = Ok (r', st') ->
  nth_error st r' = None /\
  r' <> r /\
  nth_error st' r = Some f /\
  (forall q g, nth_error st q = Some g -> nth_error st' q = Some g) /\
  exists X, nth_error st' r' = Some X /\ encode f tc = Ok X.
Proof.
  intros Hr H. pose proof H as H'. rewrite (preprocess_data_run _ _ _ _ Hr) in H'.
  destruct (encode_steps f tc) as [[junk X]|] eqn:ES; [|discriminate].
  injection H' as <- <-.
  assert (Lr : r < List.length st) by (apply nth_error_Some; congruence).
  split; [apply nth_error_None; lia|].
  split; [lia|].
  split; [rewrite nth_error_app1 by exact Lr; exact Hr|].
  split.
  - intros q g Hq. rewrite nth_error_app1; [exact Hq|].
    apply nth_error_Some. congruence.
  - exists X. split; [apply nth_error_after_junk|]. unfold encode. now rewrite ES.
Qed.

(** ** Identifier columns *)

Lemma filter_idem {A} (P : A -> bool) (l : list A) : filter P (filter P l) = filter P l.
Proof.
  induction l as [|a l IH]; simpl; [reflexivity|].
  destruct (P a) eqn:E; simpl; [rewrite E; now f_equal | exact IH].
Qed.

(** Dropping the labels that are present is dropping the labels. *)
Lemma df_drop_present (ls : list string) (f : DataFrame) :
  df_drop (filter (fun c => has_label c (columns f)) ls) f = df_drop ls f.
Proof.
  unfold df_drop. f_equal. apply filter_ext_in. intros p Hp. f_equal.
  destruct (has_label (fst p) ls) eqn:E.
  - apply has_label_In. apply filter_In. split; [now apply has_label_In|].
    apply has_label_In. unfold columns. now apply in_map.
  - apply has_label_false. intros J. apply filter_In in J. destruct J as [J _].
    apply has_label_false in E. contradiction.
Qed.

Lemma df_drop_idem (ls : list string) (f : DataFrame) :
  df_drop ls (df_drop ls f) = df_drop ls f.
Proof. unfold df_drop. simpl. f_equal. apply filter_idem. Qed.

Lemma encode_drop_identifiers (f : DataFrame) (tc : option (list string)) :
  encode (df_drop drop_cols f) tc = encode f tc.
Proof.
  assert (E : encode_features (df_drop drop_cols f) = encode_features f).
  { unfold encode_features. now rewrite !df_drop_present, df_drop_idem. }
  unfold encode, encode_steps. rewrite E.
  destruct (encode_features f) as [[f2 f4]|e]; cbn [rbind fst snd]; [|reflexivity].
  destruct tc as [l|]; cbn [rbind snd]; [|reflexivity].
  now destruct (df_select l (fill_missing l f4)).
Qed.

(** The identifier columns StudentID, FirstName and FamilyName are
    optional and without influence: two tables that are equal once these
    columns are removed, one of which may lack them, are encoded alike,
    the same table being returned or the same exception raised. *)
Theorem identifier_columns_are_optional_and_ignored
        (st1 st2 : store) (r1 r2 : ref) (f g : DataFrame) (tc : option (list string)) :
  nth_error st1 r1 = Some f ->
  nth_error st2 r2 = Some g ->
  df_drop drop_cols f = df_drop drop_cols g ->
  (forall X, preprocess_returns r1 tc st1 X <-> preprocess_returns r2 tc st2 X) /\
  (forall e, preprocess_data r1 tc st1 = Raise e <-> preprocess_data r2 tc st2 = Raise e).
Proof.
  intros H1 H2 E.
  assert (Enc : encode f tc = encode g tc)
    by (rewrite <- (encode_drop_identifiers f), <- (encode_drop_identifiers g); now rewrite E).
  split.
  - intros X. rewrite (preprocess_returns_iff _ _ _ _ _ H1),
      (preprocess_returns_iff _ _ _ _ _ H2), Enc. tauto.
  - intros e. rewrite (preprocess_raises_iff _ _ _ _ _ H1),
      (preprocess_raises_iff _ _ _ _ _ H2), Enc. tauto.
Qed.

(** ** The labels of the encoded table *)

Lemma derive_features_eq (f f' : DataFrame) :
  derive_features f = Ok f' ->
  exists medu fedu dalc walc goout total diff adiff walc2 alc sq party,
    df_getitem "Medu" f = Ok medu /\
    df_getitem "Fedu" f = Ok fedu /\
    df_getitem "Dalc" f = Ok dalc /\
    df_getitem "Walc" f = Ok walc /\
    df_getitem "goout" f = Ok goout /\
    zipR v_add medu fedu = Ok total /\
    zipR v_sub medu fedu = Ok diff /\
    mapR v_abs diff = Ok adiff /\
    mapR (fun v => v_mul v (VInt 2)) walc = Ok walc2 /\
    zipR v_add dalc walc2 = Ok alc /\
    zipR v_mul alc alc = Ok sq /\
    zipR v_mul sq goout = Ok party /\
    f' = df_setitem "Party_Life" party
           (df_setitem "Total_Alcohol" alc
              (df_setitem "Parent_Edu_Diff" adiff
                 (df_setitem "Parent_Edu_Total" total f))).
Proof.
  unfold derive_features. intros H.
  destruct (df_getitem "Medu" f) as [medu|] eqn:E1; [|discriminate]. cbn [rbind] in H.
  destruct (df_getitem "Fedu" f) as [fedu|] eqn:E2; [|discriminate]. cbn [rbind] in H.
  destruct (zipR v_add medu fedu) as [total|] eqn:E3; [|discriminate].
  cbn [rbind] in H. cbv zeta in H.
  rewrite !(df_getitem_setitem_other _ "Parent_Edu_Total") in H by discriminate.
  rewrite E1, E2 in H. cbn [rbind] in H.
  destruct (zipR v_sub medu fedu) as [diff|] eqn:E4; [|discriminate]. cbn [rbind] in H.
  destruct (mapR v_abs diff) as [adiff|] eqn:E5; [|discriminate]. cbn [rbind] in H.
  rewrite !(df_getitem_setitem_other _ "Parent_Edu_Diff") in H by discriminate.
  rewrite !(df_getitem_setitem_other _ "Parent_Edu_Total") in H by discriminate.
  destruct (df_getitem "Dalc" f) as [dalc|] eqn:E6; [|discriminate]. cbn [rbind] in H.
  destruct (df_getitem "Walc" f) as [walc|] eqn:E7; [|discriminate]. cbn [rbind] in H.
  destruct (mapR _ walc) as [walc2|] eqn:E8; [|discriminate]. cbn [rbind] in H.
  destruct (zipR v_add dalc walc2) as [alc|] eqn:E9; [|discriminate]. cbn [rbind] in H.
  set (g := df_setitem "Parent_Edu_Diff" adiff (df_setitem "Parent_Edu_Total" total f)) in *.
  destruct (df_getitem "Total_Alcohol" (df_setitem "Total_Alcohol" alc g)) as [ta|] eqn:E10;
    [|discriminate].
  cbn [rbind] in H.
  destruct (df_getitem_setitem_same _ _ _ _ E10) as [-> TA].
  destruct (zipR v_mul alc alc) as [sq|] eqn:E11; [|discriminate]. cbn [rbind] in H.
  rewrite (df_getitem_setitem_other _ "Total_Alcohol") in H by discriminate.
  unfold g in H.
  rewrite (df_getitem_setitem_other _ "Parent_Edu_Diff") in H by discriminate.
  rewrite (df_getitem_setitem_other _ "Parent_Edu_Total") in H by discriminate.
  destruct (df_getitem "goout" f) as [goout|] eqn:E12; [|discriminate]. cbn [rbind] in H.
  destruct (zipR v_mul sq goout) as [party|] eqn:E13; [|discriminate]. cbn [rbind] in H.
  injection H as <-. fold g.
  exists medu, fedu, dalc, walc, goout, total, diff, adiff, walc2, alc, sq, party.
  repeat (split; [reflexivity || assumption|]). reflexivity.
Qed.

Lemma In_columns_setitem_iff (c c' : string) (s : Series) (f : DataFrame) :
  In c (columns (df_setitem c' s f)) <-> In c (columns f) \/ c = c'.
Proof.
  rewrite columns_setitem. destruct (has_label c' (columns f)) eqn:E.
  - split; [tauto|]. intros [I| ->]; [exact I | now apply has_label_In].
  - rewrite in_app_iff. simpl. split.
    + intros [I|[<-|[]]]; tauto.
    + intros [I| ->]; tauto.
Qed.

Lemma df_get_dummies_cols (cs : list string) (f f' : DataFrame) :
  df_get_dummies cs f = Ok f' ->
  exists enc,
    select_cols cs (cols f) = Ok enc /\
    f' = mkDF (nrows f) (cols (df_drop cs f) ++ flat_map dummies_1d enc).
Proof.
  unfold df_get_dummies.
  destruct (select_cols cs (cols f)) as [enc|]; [|discriminate].
  simpl. intros H. injection H as <-. now exists enc.
Qed.

Lemma df_get_dummies_keeps (cs : list string) (f f' : DataFrame) (c : string) :
  df_get_dummies cs f = Ok f' ->
  In c (columns f) -> ~ In c cs -> In c (columns f').
Proof.
  intros H I N. destruct (df_get_dummies_cols _ _ _ H) as (enc & _ & ->).
  unfold columns. simpl. rewrite map_app. apply in_or_app. left.
  change (In c (columns (df_drop cs f))). rewrite columns_drop. apply filter_In.
  split; [exact I|]. apply negb_true_iff. now apply has_label_false.
Qed.

Lemma encode_none_columns (f X : DataFrame) :
  encode f None = Ok X ->
  (forall c, In c (columns X) ->
             (In c (columns f) /\ ~ In c drop_cols /\ ~ In c nominal_cols) \/
             is_indicator_label nominal_cols c = true \/ In c derived_cols) /\
  (forall c, In c (columns f) -> ~ In c drop_cols -> ~ In c nominal_cols ->
             In c (columns X)) /\
  (forall c, In c derived_cols -> In c (columns X)).
Proof.
  intros HX.
  destruct (encode_inv _ _ _ HX) as (f2 & f4 & Hf & ->).
  destruct (encode_features_inv _ _ _ Hf) as (f3 & E2 & E3 & E4).
  rewrite df_drop_present in E2.
  destruct (encode_categorical_inv _ _ E2) as (C2 & _).
  destruct (df_get_dummies_inv _ _ _ E3) as (_ & _ & L3 & _).
  destruct (derive_features_eq _ _ E4)
    as (? & ? & ? & ? & ? & total & ? & adiff & ? & alc & ? & party &
        _ & _ & _ & _ & _ & _ & _ & _ & _ & _ & _ & _ & ->).
  split; [|split].
  - intros c I. rewrite !In_columns_setitem_iff in I.
    destruct I as [[[[I| ->]| ->]| ->]| ->]; try (right; right; simpl; tauto).
    destruct (L3 c I) as [[J N]|J]; [left | right; now left].
    rewrite C2, columns_drop in J. apply filter_In in J. destruct J as [J D].
    apply negb_true_iff, has_label_false in D. tauto.
  - intros c I D N. rewrite !In_columns_setitem_iff. do 4 left.
    apply (df_get_dummies_keeps _ _ _ _ E3); [|exact N].
    rewrite C2, columns_drop. apply filter_In. split; [exact I|].
    apply negb_true_iff. now apply has_label_false.
  - intros c I. rewrite !In_columns_setitem_iff. simpl in I.
    destruct I as [<-|[<-|[<-|[<-|[]]]]]; tauto.
Qed.

(** Without a schema, the labels of the encoded table are the raw labels
    other than the identifiers and the four nominal fields, the indicator
    labels [<field>_<level>], and the four derived features; the
    identifiers and the nominal fields are never among them. *)
Theorem encoded_columns_are_raw_indicator_or_derived
        (st : store) (r : ref) (f X : DataFrame) :
  nth_error st r = Some f ->
  preprocess_returns r None st X ->
  (forall c, In c (columns X) ->
             (In c (columns f) /\ ~ In c drop_cols /\ ~ In c nominal_cols) \/
             is_indicator_label nominal_cols c = true \/ In c derived_cols) /\
  (forall c, In c (columns f) -> ~ In c drop_cols -> ~ In c nominal_cols ->
             In c (columns X)) /\
  (forall c, In c derived_cols -> In c (columns X)) /\
  (forall c, In c drop_cols -> ~ In c (columns X)) /\
  (forall c, In c nominal_cols -> ~ In c (columns X)).
Proof.
  intros Hr HX. apply (preprocess_returns_iff _ _ _ _ _ Hr) in HX.
  destruct (encode_none_columns f X HX) as (P1 & P2 & P3).
  split; [exact P1|]. split; [exact P2|]. split; [exact P3|]. split.
  - intros c I J. destruct (P1 c J) as [(_ & D & _)|[K|K]]; [contradiction| |];
      simpl in I; destruct I as [<-|[<-|[<-|[]]]];
      first [discriminate K | simpl in K; intuition discriminate].
  - intros c I J. destruct (P1 c J) as [(_ & _ & N)|[K|K]]; [contradiction| |];
      simpl in I; destruct I as [<-|[<-|[<-|[<-|[]]]]];
      first [discriminate K | simpl in K; intuition discriminate].
Qed.

(** ** A missing column *)








(** A column that is neither dropped, mapped nor one-hot encoded reaches
    the feature-engineering step as it is in the raw table. *)
Lemma cols_named_before_derivation (f f2 f3 : DataFrame) (c : string) :
  encode_categorical (df_drop drop_cols f) = Ok f2 ->
  df_get_dummies nominal_cols f2 = Ok f3 ->
  has_label c (drop_cols ++ categorical_cols ++ nominal_cols) = false ->
  is_indicator_label nominal_cols c = false ->
  cols_named c f3 = cols_named c f.
Proof.
  intros E2 E3 H I. unfold has_label in H. rewrite !existsb_app in H.
  apply orb_false_iff in H. destruct H as [Hd H].
  apply orb_false_iff in H. destruct H as [Hc Hn].
  destruct (encode_categorical_inv _ _ E2) as (_ & _ & K2 & _).
  destruct (df_get_dummies_inv _ _ _ E3) as (_ & _ & _ & K3).
  rewrite K3 by assumption.
  rewrite K2 by now apply has_label_false.
  rewrite cols_named_drop. unfold has_label. now rewrite Hd.
Qed.



(** ** The derived features, row by row *)

Lemma wrap64_small (z : Z) : (- 2 ^ 63 <= z < 2 ^ 63)%Z -> wrap64 z = z.
Proof.
  unfold wrap64. change (2 ^ 64)%Z with 18446744073709551616%Z.
  change (2 ^ 63)%Z with 9223372036854775808%Z. intros H.
  rewrite Z.mod_small; lia.
Qed.

Lemma getitem_setitem_single (c : string) (s : Series) (f : DataFrame) :
  List.length (cols_named c f) <= 1 -> df_getitem c (df_setitem c s f) = Ok s.
Proof.
  intros L. apply df_getitem_Ok. rewrite cols_named_setitem_same.
  destruct (cols_named c f) as [|x [|y l]]; simpl in *; try reflexivity. lia.
Qed.

(** The four derived features of the encoded table, for a table with
    distinct labels.  On a row of integers of ordinary size they are
    [Medu + Fedu], [|Medu - Fedu|], [Dalc + 2 Walc] and
    [(Dalc + 2 Walc)^2 * goout], exactly; a row whose Dalc or Walc is
    missing has a missing Total_Alcohol and a missing Party_Life. *)
Theorem derived_features_row_by_row (st : store) (r : ref) (f X : DataFrame) :
  nth_error st r = Some f ->
  preprocess_returns r None st X ->
  NoDup (columns f) ->
  exists medu fedu dalc walc goout total adiff alc party,
    df_getitem "Medu" f = Ok medu /\
    df_getitem "Fedu" f = Ok fedu /\
    df_getitem "Dalc" f = Ok dalc /\
    df_getitem "Walc" f = Ok walc /\
    df_getitem "goout" f = Ok goout /\
    df_getitem "Parent_Edu_Total" X = Ok total /\
    df_getitem "Parent_Edu_Diff" X = Ok adiff /\
    df_getitem "Total_Alcohol" X = Ok alc /\
    df_getitem "Party_Life" X = Ok party /\
    (forall i m p,
       nth_error medu i = Some (VInt m) -> nth_error fedu i = Some (VInt p) ->
       (Z.abs m <= 1000000)%Z -> (Z.abs p <= 1000000)%Z ->
       nth_error total i = Some (VInt (m + p)) /\
       nth_error adiff i = Some (VInt (Z.abs (m - p)))) /\
    (forall i d w g,
       nth_error dalc i = Some (VInt d) -> nth_error walc i = Some (VInt w) ->
       nth_error goout i = Some (VInt g) ->
       (Z.abs d <= 1000000)%Z -> (Z.abs w <= 1000000)%Z -> (Z.abs g <= 1000000)%Z ->
       nth_error alc i = Some (VInt (d + 2 * w)) /\
       nth_error party i = Some (VInt ((d + 2 * w) * (d + 2 * w) * g))) /\
    (forall i d w g,
       nth_error dalc i = Some d -> nth_error walc i = Some w ->
       nth_error goout i = Some g ->
       d = VNaN \/ w = VNaN ->
       nth_error alc i = Some VNaN /\ nth_error party i = Some VNaN).
Proof.
  intros Hr HX ND. apply (preprocess_returns_iff _ _ _ _ _ Hr) in HX.
  destruct (encode_inv _ _ _ HX) as (f2 & f4 & Hf & ->).
  destruct (encode_features_inv _ _ _ Hf) as (f3 & E2 & E3 & E4).
  rewrite df_drop_present in E2.
  destruct (derive_features_eq _ _ E4)
    as (medu & fedu & dalc & walc & goout & total & diff & adiff & walc2 & alc & sq & party &
        Gm & Gf & Gd & Gw & Gg & Et & Ed & Ead & Ew2 & Ealc & Esq & Ep & ->).
  assert (Same : forall c, In c (numeric_inputs ++ derived_cols) ->
                           cols_named c f3 = cols_named c f).
  { intros c I. apply (cols_named_before_derivation f f2 f3 c E2 E3);
      simpl in I; repeat (destruct I as [<-|I]; [reflexivity|]); contradiction. }
  assert (One : forall c, In c (numeric_inputs ++ derived_cols) ->
                          List.length (cols_named c f3) <= 1).
  { intros c I. rewrite (Same c I). now apply cols_named_length_NoDup. }
  assert (Get : forall c s, In c (numeric_inputs ++ derived_cols) ->
                            df_getitem c f3 = Ok s -> df_getitem c f = Ok s).
  { intros c s I G. apply df_getitem_Ok. apply df_getitem_Ok in G.
    now rewrite <- (Same c I). }
  exists medu, fedu, dalc, walc, goout, total, adiff, alc, party.
  split; [apply (Get "Medu"); [simpl; tauto | exact Gm]|].
  split; [apply (Get "Fedu"); [simpl; tauto | exact Gf]|].
  split; [apply (Get "Dalc"); [simpl; tauto | exact Gd]|].
  split; [apply (Get "Walc"); [simpl; tauto | exact Gw]|].
  split; [apply (Get "goout"); [simpl; tauto | exact Gg]|].
  split.
  { rewrite !(df_getitem_setitem_other "Parent_Edu_Total") by discriminate.
    apply getitem_setitem_single, One. simpl. tauto. }
  split.
  { rewrite !(df_getitem_setitem_other "Parent_Edu_Diff") by discriminate.
    apply getitem_setitem_single.
    rewrite cols_named_setitem_other by discriminate. apply One. simpl. tauto. }
  split.
  { rewrite !(df_getitem_setitem_other "Total_Alcohol") by discriminate.
    apply getitem_setitem_single.
    rewrite !cols_named_setitem_other by discriminate. apply One. simpl. tauto. }
  split.
  { apply getitem_setitem_single.
    rewrite !cols_named_setitem_other by discriminate. apply One. simpl. tauto. }
  split; [|split].
  - intros i m p Hm Hp Bm Bp.
    destruct (zipR_nth _ _ _ _ _ _ _ Et Hm Hp) as (c & Ec & Nc).
    destruct (zipR_nth _ _ _ _ _ _ _ Ed Hm Hp) as (d & Edi & Nd).
    destruct (mapR_nth _ _ _ _ _ Ead Nd) as (a & Ea & Na).
    simpl in Ec, Edi. injection Ec as <-. injection Edi as <-.
    simpl in Ea. injection Ea as <-.
    rewrite wrap64_small in Nc by (change (2 ^ 63)%Z with 9223372036854775808%Z; lia).
    rewrite (wrap64_small (m - p)) in Na
      by (change (2 ^ 63)%Z with 9223372036854775808%Z; lia).
    rewrite wrap64_small in Na by (change (2 ^ 63)%Z with 9223372036854775808%Z; lia).
    now split.
  - intros i d w g Hd Hw Hg Bd Bw Bg.
    destruct (mapR_nth _ _ _ _ _ Ew2 Hw) as (w2 & Ew & Nw).
    simpl in Ew. injection Ew as <-.
    destruct (zipR_nth _ _ _ _ _ _ _ Ealc Hd Nw) as (a & Ea & Na).
    simpl in Ea. injection Ea as <-.
    rewrite (wrap64_small (w * 2)) in Na
      by (change (2 ^ 63)%Z with 9223372036854775808%Z; lia).
    rewrite wrap64_small in Na by (change (2 ^ 63)%Z with 9223372036854775808%Z; lia).
    replace (d + w * 2)%Z with (d + 2 * w)%Z in Na by lia.
    set (a := (d + 2 * w)%Z) in *.
    destruct (zipR_nth _ _ _ _ _ _ _ Esq Na Na) as (q & Eq & Nq).
    unfold v_mul in Eq. assert (q = VInt (wrap64 (a * a))) as -> by congruence.
    destruct (zipR_nth _ _ _ _ _ _ _ Ep Nq Hg) as (y & Ey & Ny).
    unfold v_mul in Ey. assert (y = VInt (wrap64 (wrap64 (a * a) * g))) as -> by congruence.
    assert (Ba : (Z.abs a <= 3000000)%Z) by (unfold a; lia).
    assert (Bq : (0 <= a * a <= 9000000000000)%Z) by nia.
    rewrite (wrap64_small (a * a)) in Ny
      by (change (2 ^ 63)%Z with 9223372036854775808%Z; lia).
    rewrite wrap64_small in Ny
      by (change (2 ^ 63)%Z with 9223372036854775808%Z; nia).
    now split.
  - intros i d w g Hd Hw Hg NaN.
    destruct (mapR_nth _ _ _ _ _ Ew2 Hw) as (w2 & Ew & Nw).
    destruct (zipR_nth _ _ _ _ _ _ _ Ealc Hd Nw) as (a & Ea & Na).
    assert (a = VNaN) as ->.
    { destruct NaN as [->| ->].
      - simpl in Ea. now injection Ea as <-.
      - simpl in Ew. injection Ew as <-. destruct d; simpl in Ea; now injection Ea as <-. }
    destruct (zipR_nth _ _ _ _ _ _ _ Esq Na Na) as (q & Eq & Nq).
    simpl in Eq. injection Eq as <-.
    destruct (zipR_nth _ _ _ _ _ _ _ Ep Nq Hg) as (y & Ey & Ny).
    simpl in Ey. injection Ey as <-.
    now split.
Qed.

(** ** The levels of a column and the labels of its indicators *)

Lemma ascii_compare_refl (a : ascii) : Ascii.compare a a = Eq.
Proof. unfold Ascii.compare. apply N.compare_refl. Qed.

Lemma ascii_compare_trans (a b c : ascii) :
  Ascii.compare a b = Lt -> Ascii.compare b c = Lt -> Ascii.compare a c = Lt.
Proof.
  unfold Ascii.compare. rewrite !N.compare_lt_iff. apply N.lt_trans.
Qed.

Lemma string_compare_refl (s : string) : String.compare s s = Eq.
Proof. induction s as [|a s IH]; simpl; [reflexivity|]. now rewrite ascii_compare_refl. Qed.

Lemma string_compare_trans (s : string) :
  forall t u, String.compare s t = Lt -> String.compare t u = Lt -> String.compare s u = Lt.
Proof.
  induction s as [|a s IH]; intros [|b t] [|c u]; simpl; try discriminate; try reflexivity.
  destruct (Ascii.compare a b) eqn:Eab; try discriminate;
    destruct (Ascii.compare b c) eqn:Ebc; try discriminate; intros H1 H2.
  - apply Ascii.compare_eq_iff in Eab, Ebc. subst. rewrite ascii_compare_refl.
    now apply (IH t).
  - apply Ascii.compare_eq_iff in Eab. subst. now rewrite Ebc.
  - apply Ascii.compare_eq_iff in Ebc. subst. now rewrite Eab.
  - now rewrite (ascii_compare_trans a b c).
Qed.

Lemma value_compare_refl (v : value) : value_compare v v = Eq.
Proof.
  destruct v; simpl; try (apply Qeq_alt; reflexivity). apply string_compare_refl.
Qed.

Lemma value_compare_antisym (a b : value) :
  value_compare a b = CompOpp (value_compare b a).
Proof.
  destruct a, b; simpl; try reflexivity;
    first [apply String.compare_antisym | symmetry; apply Qcompare_antisym].
Qed.

Lemma value_compare_trans (a b c : value) :
  value_compare a b = Lt -> value_compare b c = Lt -> value_compare a c = Lt.
Proof.
  assert (Q : forall x y z : Q, (x ?= y)%Q = Lt -> (y ?= z)%Q = Lt -> (x ?= z)%Q = Lt).
  { intros x y z. rewrite <- !Qlt_alt. apply Qlt_trans. }
  destruct a, b, c; simpl; try discriminate; try reflexivity;
    first [apply Q | apply string_compare_trans].
Qed.

Lemma insert_level_In (v y : value) (l : list value) :
  In y (insert_level v l) -> y = v \/ In y l.
Proof.
  induction l as [|x l IH]; simpl.
  - intros [<-|[]]. now left.
  - destruct (value_compare v x).
    + intros H. now right.
    + intros [<-|H]; [now left | now right].
    + intros [<-|H]; [right; now left|]. destruct (IH H); [now left | right; now right].
Qed.

Lemma insert_level_sorted (v : value) (l : list value) :
  StronglySorted (fun a b => value_compare a b = Lt) l ->
  StronglySorted (fun a b => value_compare a b = Lt) (insert_level v l).
Proof.
  induction 1 as [|x l S IH F]; simpl.
  - repeat constructor.
  - destruct (value_compare v x) eqn:E.
    + now constructor.
    + constructor; [now constructor|]. constructor; [exact E|].
      rewrite Forall_forall in *. intros y Hy.
      apply (value_compare_trans v x y E). now apply F.
    + constructor; [exact IH|]. rewrite Forall_forall in *. intros y Hy.
      destruct (insert_level_In _ _ _ Hy) as [->|Hl]; [|now apply F].
      rewrite value_compare_antisym, E. reflexivity.
Qed.

(** The levels of a column are in strictly increasing order. *)
Lemma levels_sorted (s : Series) :
  StronglySorted (fun a b => value_compare a b = Lt) (levels s).
Proof.
  unfold levels. induction (filter notna s) as [|v l IH]; simpl; [constructor|].
  now apply insert_level_sorted.
Qed.

Lemma levels_NoDup (s : Series) : NoDup (levels s).
Proof.
  induction (levels_sorted s) as [|x l S IH F]; constructor; [|exact IH].
  intros I. rewrite Forall_forall in F. specialize (F x I).
  rewrite value_compare_refl in F. discriminate.
Qed.

Lemma levels_In (s : Series) (v : value) :
  In v (levels s) -> In v s /\ notna v = true.
Proof.
  unfold levels. intros H. apply filter_In.
  induction (filter notna s) as [|x l IH]; simpl in H; [contradiction|].
  destruct (insert_level_In _ _ _ H) as [->|I]; [now left | right; now apply IH].
Qed.

Lemma In_tl {A} (x : A) (l : list A) : In x (tl l) -> In x l.
Proof. destruct l; simpl; [tauto | now right]. Qed.

Lemma NoDup_tl {A} (l : list A) : NoDup l -> NoDup (tl l).
Proof. destruct 1; [constructor | assumption]. Qed.

Lemma append_inj_l (p a b : string) : String.append p a = String.append p b -> a = b.
Proof. induction p as [|c p IH]; simpl; intros H; [exact H|]. injection H as H. auto. Qed.

Lemma dummies_1d_label (p : string * Series) (c : string) :
  In c (map fst (dummies_1d p)) ->
  exists l, In l (tl (levels (snd p))) /\
            c = String.append (fst p) (String.append "_" (level_str l)).
Proof.
  unfold dummies_1d. rewrite map_map. simpl. intros H. apply in_map_iff in H.
  destruct H as (l & <- & I). now exists l.
Qed.

(** The indicator columns of a column of text have distinct labels. *)
Lemma dummies_1d_NoDup (p : string * Series) :
  forallb is_text (snd p) = true -> NoDup (map fst (dummies_1d p)).
Proof.
  intros T. unfold dummies_1d. rewrite map_map. simpl.
  assert (ND : NoDup (tl (levels (snd p)))) by apply NoDup_tl, levels_NoDup.
  assert (Str : forall v, In v (tl (levels (snd p))) -> is_str v = true).
  { intros v I. apply In_tl, levels_In in I. destruct I as [I N].
    rewrite forallb_forall in T. specialize (T v I). unfold is_text in T.
    rewrite N in T. simpl in T. now rewrite orb_false_r in T. }
  induction ND as [|x l N ND IH]; simpl; constructor.
  - intros I. apply in_map_iff in I. destruct I as (y & E & Iy).
    apply append_inj_l in E. injection E as E.
    assert (Sx : is_str x = true) by (apply Str; now left).
    assert (Sy : is_str y = true) by (apply Str; now right).
    destruct x, y; try discriminate. simpl in E. subst. contradiction.
  - apply IH. intros v I. apply Str. now right.
Qed.

Lemma nominal_prefix_inj (a b x y : string) :
  In a nominal_cols -> In b nominal_cols ->
  String.append a (String.append "_" x) = String.append b (String.append "_" y) ->
  a = b.
Proof.
  simpl. intros [<-|[<-|[<-|[<-|[]]]]] [<-|[<-|[<-|[<-|[]]]]] H;
    first [reflexivity | simpl in H; discriminate H].
Qed.

Lemma dummies_NoDup (enc : list (string * Series)) :
  NoDup (map fst enc) ->
  (forall p, In p enc -> In (fst p) nominal_cols) ->
  (forall p, In p enc -> forallb is_text (snd p) = true) ->
  NoDup (map fst (flat_map dummies_1d enc)).
Proof.
  induction enc as [|p enc IH]; simpl; intros ND N T; [constructor|].
  rewrite map_app. inversion ND as [|? ? Hp ND']; subst.
  apply NoDup_app.
  - apply dummies_1d_NoDup, T. now left.
  - apply IH; [exact ND' | intros; apply N; now right | intros; apply T; now right].
  - intros c I J. apply dummies_1d_label in I. destruct I as (l & _ & ->).
    apply in_map_iff in J. destruct J as (q & Eq & Iq).
    apply in_flat_map in Iq. destruct Iq as (p' & Ip' & Iq).
    assert (Il : In (fst q) (map fst (dummies_1d p'))) by now apply in_map.
    apply dummies_1d_label in Il. destruct Il as (l' & _ & El).
    rewrite El in Eq.
    apply nominal_prefix_inj in Eq; [|apply N; now right | apply N; now left].
    apply Hp. rewrite <- Eq. now apply in_map.
Qed.

Lemma df_get_dummies_NoDup (f f' : DataFrame) :
  NoDup (columns f) ->
  (forall c, In c (columns f) -> is_indicator_label nominal_cols c = false) ->
  (forall c s, In c nominal_cols -> In (c, s) (cols f) -> forallb is_text s = true) ->
  df_get_dummies nominal_cols f = Ok f' ->
  NoDup (columns f').
Proof.
  intros ND Ind T H. destruct (df_get_dummies_cols _ _ _ H) as (enc & Henc & ->).
  assert (Lab : map fst enc = nominal_cols).
  { apply (columns_select_NoDup nominal_cols f (mkDF (nrows f) enc) ND).
    unfold df_select. now rewrite Henc. }
  assert (In_enc : forall p, In p enc -> In (fst p) nominal_cols /\ In p (cols f))
    by (intros p; now apply (select_cols_labels _ _ _ Henc)).
  unfold columns. simpl. rewrite map_app. apply NoDup_app.
  - change (NoDup (columns (df_drop nominal_cols f))). rewrite columns_drop.
    now apply NoDup_filter.
  - apply dummies_NoDup.
    + rewrite Lab. apply distinct_NoDup. reflexivity.
    + intros p I. now apply In_enc.
    + intros p I. destruct (In_enc p I) as [A B]. apply (T (fst p)); [exact A|].
      now destruct p.
  - intros c I J.
    change (In c (columns (df_drop nominal_cols f))) in I.
    rewrite columns_drop in I. apply filter_In in I. destruct I as [I _].
    apply (dummies_labels nominal_cols enc) in J; [|intros p Ip; now apply In_enc].
    rewrite (Ind c I) in J. discriminate.
Qed.

Lemma clean_labels_inv (f : DataFrame) :
  clean_labels f = true ->
  NoDup (columns f) /\
  (forall c, In c (columns f) -> is_indicator_label nominal_cols c = false) /\
  (forall c s, In c nominal_cols -> In (c, s) (cols f) -> forallb is_text s = true).
Proof.
  unfold clean_labels. intros C.
  apply andb_prop in C. destruct C as [C T]. apply andb_prop in C. destruct C as [D I].
  apply distinct_NoDup in D. rewrite forallb_forall in I, T.
  split; [exact D|]. split.
  - intros c J. apply negb_true_iff. now apply I.
  - intros c s Nc J. specialize (T (c, s) J). cbn [fst snd] in T.
    apply has_label_In in Nc. now rewrite Nc in T.
Qed.

(** What the one-hot step receives from a raw table with clean labels:
    distinct labels, none of them an indicator label, and the nominal
    columns of the raw table. *)
Lemma clean_labels_before_dummies (f f2 : DataFrame) :
  clean_labels f = true ->
  encode_categorical (df_drop drop_cols f) = Ok f2 ->
  NoDup (columns f2) /\
  (forall c, In c (columns f2) -> is_indicator_label nominal_cols c = false) /\
  (forall c s, In c nominal_cols -> In (c, s) (cols f2) <-> In (c, s) (cols f)).
Proof.
  intros C E2. destruct (clean_labels_inv f C) as (D & I & _).
  destruct (encode_categorical_inv _ _ E2) as (C2 & _ & K2 & _).
  split; [rewrite C2, columns_drop; now apply NoDup_filter|]. split.
  - intros c J. apply I. rewrite C2, columns_drop in J. now apply filter_In in J.
  - intros c s Nc. rewrite !In_cols_named.
    rewrite K2 by (simpl in Nc; simpl; intuition (subst; discriminate)).
    rewrite cols_named_drop.
    assert (Hd : has_label c drop_cols = false)
      by (simpl in Nc; destruct Nc as [<-|[<-|[<-|[<-|[]]]]]; reflexivity).
    rewrite Hd. tauto.
Qed.

Lemma clean_labels_dummies_NoDup (f f2 f3 : DataFrame) :
  clean_labels f = true ->
  encode_categorical (df_drop drop_cols f) = Ok f2 ->
  df_get_dummies nominal_cols f2 = Ok f3 ->
  NoDup (columns f3).
Proof.
  intros C E2 E3. destruct (clean_labels_inv f C) as (_ & _ & T).
  destruct (clean_labels_before_dummies f f2 C E2) as (ND2 & I2 & S2).
  apply (df_get_dummies_NoDup f2 f3 ND2 I2); [|exact E3].
  intros c s Nc J. apply (T c s Nc). now apply S2.
Qed.

(** The encoded table of a raw table with clean labels has distinct
    labels. *)
Lemma encode_features_NoDup (f f2 f4 : DataFrame) :
  clean_labels f = true -> encode_features f = Ok (f2, f4) -> NoDup (columns f4).
Proof.
  intros C Hf.
  destruct (encode_features_inv _ _ _ Hf) as (f3 & E2 & E3 & E4).
  rewrite df_drop_present in E2.
  pose proof (clean_labels_dummies_NoDup f f2 f3 C E2 E3) as ND3.
  destruct (derive_features_eq _ _ E4)
    as (? & ? & ? & ? & ? & ? & ? & ? & ? & ? & ? & ? &
        _ & _ & _ & _ & _ & _ & _ & _ & _ & _ & _ & _ & ->).
  now repeat apply NoDup_columns_setitem.
Qed.

(** For a raw table with clean labels, reconciliation with a schema [S]
    returns a table with exactly the labels of [S], in the order of [S],
    and the rows of the input; each of its columns is the column of that
    name of the table encoded without a schema, or a column of zeros when
    that table has no such column. *)
Theorem reconciled_table_has_exactly_the_schema
        (st : store) (r : ref) (f X : DataFrame) (S : list string) :
  nth_error st r = Some f ->
  clean_labels f = true ->
  preprocess_returns r (Some S) st X ->
  columns X = S /\
  nrows X = nrows f /\
  exists T,
    preprocess_returns r None st T /\
    forall c s, In (c, s) (cols X) ->
                In (c, s) (cols T) \/
                (~ In c (columns T) /\ s = repeat (VInt 0) (nrows f)).
Proof.
  intros Hr C HX. apply (preprocess_returns_iff _ _ _ _ _ Hr) in HX.
  destruct (encode_inv _ _ _ HX) as (f2 & f4 & Hf & Hsel).
  pose proof (encode_features_NoDup _ _ _ C Hf) as ND.
  split; [now apply (reconcile_exact f f2 f4)|].
  split; [now apply (encode_nrows f X (Some S))|].
  exists f4. split.
  - apply (preprocess_returns_iff _ _ _ _ _ Hr).
    unfold encode, encode_steps. now rewrite Hf.
  - intros c s J. apply In_cols_named in J.
    destruct (reconcile_columns S f4 X c Hsel) as (_ & _ & A & B & _).
    destruct (in_dec string_dec c (columns f4)) as [Y|N].
    + left. apply cols_named_In. now apply A.
    + right. split; [exact N|]. rewrite <- (encode_features_nrows _ _ _ Hf).
      now apply B.
Qed.

(** ** The indicator columns of a nominal field *)

Lemma filter_label_absent (c : string) (cs : list (string * Series)) :
  ~ In c (map fst cs) -> filter (fun q => String.eqb c (fst q)) cs = [].
Proof.
  induction cs as [|q cs IH]; simpl; intros N; [reflexivity|].
  destruct (String.eqb c (fst q)) eqn:E.
  - apply String.eqb_eq in E. exfalso. apply N. now left.
  - apply IH. intros J. apply N. now right.
Qed.

Lemma filter_label_single (p : string * Series) (cs : list (string * Series)) :
  NoDup (map fst cs) -> In p cs ->
  filter (fun q => String.eqb (fst p) (fst q)) cs = [p].
Proof.
  induction cs as [|q cs IH]; simpl; intros ND I; [contradiction|].
  inversion ND as [|? ? Hq ND']; subst. destruct I as [->|I].
  - rewrite String.eqb_refl. f_equal. now apply filter_label_absent.
  - destruct (String.eqb (fst p) (fst q)) eqn:E; [|now apply IH].
    apply String.eqb_eq in E. exfalso. apply Hq. rewrite <- E. now apply in_map.
Qed.

Lemma df_getitem_of_In (c : string) (s : Series) (f : DataFrame) :
  NoDup (columns f) -> In (c, s) (cols f) -> df_getitem c f = Ok s.
Proof.
  intros ND I. apply df_getitem_Ok. unfold cols_named.
  pose proof (filter_label_single (c, s) (cols f) ND I) as F. cbn [fst] in F.
  now rewrite F.
Qed.

Lemma In_of_df_getitem (c : string) (s : Series) (f : DataFrame) :
  df_getitem c f = Ok s -> In (c, s) (cols f).
Proof.
  intros G. apply df_getitem_Ok in G. apply In_cols_named. rewrite G. now left.
Qed.

Lemma is_level_str (l : string) (v : value) :
  is_level (VStr l) v = true <-> v = VStr l.
Proof.
  unfold is_level. split.
  - intros H. apply andb_prop in H. destruct H as [_ H].
    destruct v as [n|q|t|]; simpl in H; try discriminate.
    destruct (String.compare t l) eqn:E; try discriminate.
    apply String.compare_eq_iff in E. now subst.
  - intros ->. simpl. now rewrite string_compare_refl.
Qed.

Lemma insert_level_keeps (v y : value) (l : list value) :
  In y l -> In y (insert_level v l).
Proof.
  induction l as [|x l IH]; simpl; [tauto|].
  intros I. destruct (value_compare v x); [exact I | now right|].
  destruct I as [<-|I]; [now left | right; now apply IH].
Qed.

Lemma insert_level_str (t : string) (l : list value) : In (VStr t) (insert_level (VStr t) l).
Proof.
  induction l as [|x l IH]; [now left|]. cbn [insert_level].
  destruct (value_compare (VStr t) x) eqn:E; [| now left | now right].
  destruct x as [n|q|u|]; simpl in E; try discriminate.
  apply String.compare_eq_iff in E. subst. now left.
Qed.

(** The string levels of a column are the strings it holds. *)
Lemma levels_str (s : Series) (t : string) : In (VStr t) (levels s) <-> In (VStr t) s.
Proof.
  split; [intros H; now apply levels_In in H|].
  unfold levels. intros H.
  assert (I : In (VStr t) (filter notna s)) by (apply filter_In; now split).
  clear H. induction (filter notna s) as [|x l IH]; simpl; [contradiction|].
  destruct I as [->|I]; [apply insert_level_str | now apply insert_level_keeps, IH].
Qed.

Lemma indicator_label_not_derived (c x : string) :
  In c nominal_cols -> ~ In (String.append c (String.append "_" x)) derived_cols.
Proof.
  simpl. intros [<-|[<-|[<-|[<-|[]]]]] H; simpl in H; intuition discriminate.
Qed.

(** One-hot encoding of a nominal field of a table with clean labels.
    Every level of the field but the least has an indicator column
    [<field>_<level>], which holds 1 for the records with that level and 0
    for all others, those with a missing value included; the encoded
    table has no other label [<field>_...]; the levels are the strings
    the raw column holds, and the level without a column is less than
    every other. *)
Theorem indicator_columns_of_a_nominal_field
        (st : store) (r : ref) (f X : DataFrame) (c : string) (s : Series) :
  nth_error st r = Some f ->
  clean_labels f = true ->
  preprocess_returns r None st X ->
  In c nominal_cols ->
  df_getitem c f = Ok s ->
  (forall l, In (VStr l) (tl (levels s)) ->
     exists col,
       df_getitem (String.append c (String.append "_" l)) X = Ok col /\
       forall i v, nth_error s i = Some v ->
                   (v = VStr l -> nth_error col i = Some (VInt 1)) /\
                   (v <> VStr l -> nth_error col i = Some (VInt 0))) /\
  (forall x, In (String.append c (String.append "_" x)) (columns X) ->
             In (VStr x) (tl (levels s))) /\
  (forall l, In (VStr l) (levels s) <-> In (VStr l) s) /\
  (forall l, In (VStr l) (tl (levels s)) ->
             exists l0, hd_error (levels s) = Some (VStr l0) /\ String.compare l0 l = Lt).
Proof.
  intros Hr C HX Ic Gs. apply (preprocess_returns_iff _ _ _ _ _ Hr) in HX.
  destruct (encode_inv _ _ _ HX) as (f2 & f4 & Hf & ->).
  destruct (encode_features_inv _ _ _ Hf) as (f3 & E2 & E3 & E4).
  rewrite df_drop_present in E2.
  destruct (clean_labels_inv f C) as (_ & _ & T).
  destruct (clean_labels_before_dummies f f2 C E2) as (ND2 & I2 & S2).
  pose proof (clean_labels_dummies_NoDup f f2 f3 C E2 E3) as ND3.
  assert (Is : In (c, s) (cols f)) by now apply In_of_df_getitem.
  assert (Text : forallb is_text s = true) by now apply (T c).
  assert (Str : forall v, In v (levels s) -> exists t, v = VStr t).
  { intros v I. apply levels_In in I. destruct I as [I N].
    rewrite forallb_forall in Text. specialize (Text v I). unfold is_text in Text.
    rewrite N in Text. destruct v; try discriminate. now eexists. }
  destruct (df_get_dummies_cols _ _ _ E3) as (enc & Henc & Hf3).
  assert (In_enc : In (c, s) enc).
  { rewrite (select_cols_Ok _ _ _ Henc). apply in_flat_map. exists c.
    split; [exact Ic|]. apply filter_In. split; [now apply S2|].
    apply String.eqb_refl. }
  assert (Lab : map fst enc = nominal_cols).
  { apply (columns_select_NoDup nominal_cols f2 (mkDF (nrows f2) enc) ND2).
    unfold df_select. now rewrite Henc. }
  assert (Uniq : forall p, In p enc -> fst p = c -> p = (c, s)).
  { intros p Ip Ep.
    assert (NDe : NoDup (map fst enc)) by (rewrite Lab; apply distinct_NoDup; reflexivity).
    pose proof (filter_label_single p enc NDe Ip) as F1.
    pose proof (filter_label_single (c, s) enc NDe In_enc) as F2.
    cbn [fst] in F2. rewrite Ep in F1. congruence. }
  destruct (derive_features_eq _ _ E4)
    as (? & ? & ? & ? & ? & total & ? & adiff & ? & alc & ? & party &
        _ & _ & _ & _ & _ & _ & _ & _ & _ & _ & _ & _ & ->).
  assert (Ne : forall z d, In d derived_cols ->
                           String.append c (String.append "_" z) <> d).
  { intros z d Id E. apply (indicator_label_not_derived c z Ic). now rewrite E. }
  split; [|split; [|split]].
  - intros l Hl. exists (indicator (VStr l) s). split.
    + rewrite !df_getitem_setitem_other by (apply Ne; simpl; tauto).
      apply (df_getitem_of_In _ _ f3 ND3). rewrite Hf3. cbn [cols].
      apply in_or_app. right. apply in_flat_map. exists (c, s).
      split; [exact In_enc|]. unfold dummies_1d. cbn [fst snd].
      apply in_map_iff. exists (VStr l). now split.
    + intros i v Hv. unfold indicator.
      rewrite (map_nth_error _ _ _ Hv).
      split; intros E.
      * now rewrite (proj2 (is_level_str l v) E).
      * destruct (is_level (VStr l) v) eqn:L; [|reflexivity].
        apply is_level_str in L. contradiction.
  - intros z J. rewrite !In_columns_setitem_iff in J.
    destruct J as [[[[J|J]|J]|J]|J];
      try (exfalso; revert J; apply Ne; simpl; tauto).
    rewrite Hf3 in J. unfold columns in J. cbn [cols] in J. rewrite map_app in J.
    apply in_app_or in J. destruct J as [J|J].
    + exfalso. change (In (String.append c (String.append "_" z))
                          (columns (df_drop nominal_cols f2))) in J.
      rewrite columns_drop in J. apply filter_In in J. destruct J as [J _].
      apply I2 in J. unfold is_indicator_label in J.
      assert (K : existsb (fun p => starts_with (String.append p "_")
                                      (String.append c (String.append "_" z)))
                          nominal_cols = true).
      { apply existsb_exists. exists c. split; [exact Ic | apply starts_with_field]. }
      congruence.
    + apply in_map_iff in J. destruct J as (q & Eq & Iq).
      apply in_flat_map in Iq. destruct Iq as (p & Ip & Iq).
      assert (Il : In (fst q) (map fst (dummies_1d p))) by now apply in_map.
      apply dummies_1d_label in Il. destruct Il as (l & Hl & El).
      rewrite El in Eq.
      assert (Np : In (fst p) nominal_cols) by (rewrite <- Lab; now apply in_map).
      pose proof (nominal_prefix_inj _ _ _ _ Np Ic Eq) as Ep.
      rewrite (Uniq p Ip Ep) in *. cbn [fst snd] in *.
      apply append_inj_l in Eq. injection Eq as Eq.
      destruct (Str l (In_tl _ _ Hl)) as [t ->]. simpl in Eq. now subst.
  - apply levels_str.
  - intros l Hl. pose proof (levels_sorted s) as Srt.
    destruct (levels s) as [|v0 rest] eqn:EL; [contradiction|]. simpl in Hl.
    destruct (Str v0 ltac:(now left)) as [l0 ->].
    exists l0. split; [reflexivity|].
    inversion Srt as [|? ? _ F]; subst. rewrite Forall_forall in F.
    exact (F _ Hl).
Qed.

(** ** [train_final_model] *)

Lemma train_final_model_run (st : store) (r : ref) (f : DataFrame) :
  nth_error st r = Some f ->
  train_final_model r st =
  match encode_steps f None with
  | Ok (junk, t) =>
      if has_label "FinalGrade" (columns t)
      then
        do y <- df_getitem "FinalGrade" t;
        do model <- fit_model (df_drop ["FinalGrade"] t) y;
        Ok ((model, columns (df_drop ["FinalGrade"] t)),
            (st ++ junk ++ [t]) ++ [df_drop ["FinalGrade"] t])
      else Raise (KeyError "FinalGrade")
  | Raise e => Raise e
  end.
Proof.
  intros Hr. unfold train_final_model.
  unfold bind at 1. rewrite (preprocess_data_run _ _ _ _ Hr).
  destruct (encode_steps f None) as [[junk t]|e]; [|reflexivity].
  pose proof (nth_error_after_junk st junk t) as Ht.
  set (st1 := st ++ junk ++ [t]) in *.
  set (r1 := List.length st + List.length junk) in *.
  unfold pd_drop_label. rewrite bind_assoc.
  unfold bind at 1, deref. rewrite Ht.
  destruct (has_label "FinalGrade" (columns t)); [|reflexivity].
  change (bind (new_frame ?g) ?k st1) with (k (List.length st1) (st1 ++ [g])).
  cbv beta.
  rewrite (run_getitem _ _ _ t) by now apply nth_error_snoc_old.
  destruct (df_getitem "FinalGrade" t) as [y|]; [|reflexivity]. cbn [rbind].
  unfold bind at 1, deref. rewrite nth_error_snoc.
  rewrite run_lift.
  destruct (fit_model _ y) as [m|]; [|reflexivity]. cbn [rbind].
  now rewrite (run_columns _ _ _ (df_drop ["FinalGrade"] t)) by apply nth_error_snoc.
Qed.

Lemma train_final_model_inv (st st' : store) (r : ref) (f : DataFrame)
      (model : predictor) (features : list string) :
  nth_error st r = Some f ->
  train_final_model r st = Ok ((model, features), st') ->
  exists junk t y,
    encode_steps f None = Ok (junk, t) /\
    encode f None = Ok t /\
    df_getitem "FinalGrade" t = Ok y /\
    fit_model (df_drop ["FinalGrade"] t) y = Ok model /\
    features = columns (df_drop ["FinalGrade"] t) /\
    st' = (st ++ junk ++ [t]) ++ [df_drop ["FinalGrade"] t].
Proof.
  intros Hr H. rewrite (train_final_model_run _ _ _ Hr) in H.
  destruct (encode_steps f None) as [[junk t]|] eqn:ES; [|discriminate].
  destruct (has_label "FinalGrade" (columns t)); [|discriminate].
  destruct (df_getitem "FinalGrade" t) as [y|] eqn:Gy; [|discriminate].
  cbn [rbind] in H.
  destruct (fit_model (df_drop ["FinalGrade"] t) y) as [m|] eqn:Fm; [|discriminate].
  cbn [rbind] in H. injection H as <- <- <-.
  exists junk, t, y. repeat split; try assumption.
  unfold encode. now rewrite ES.
Qed.

(** What the model is trained on.  [train_final_model] fits the model on
    the table encoded without a schema, less its FinalGrade column, with
    the raw FinalGrade column as the target, and returns the labels of
    that table as the feature list.  The list never holds FinalGrade, an
    identifier or a nominal field; it holds every categorical field,
    every numeric input of the feature engineering and the four derived
    features.  The tables that existed before the call are unchanged. *)
Theorem train_final_model_fits_the_encoded_table
        (st st' : store) (r : ref) (f : DataFrame)
        (model : predictor) (features : list string) :
  nth_error st r = Some f ->
  train_final_model r st = Ok ((model, features), st') ->
  exists t y,
    preprocess_returns r None st t /\
    df_getitem "FinalGrade" f = Ok y /\
    fit_model (df_drop ["FinalGrade"] t) y = Ok model /\
    features = filter (fun c => negb (has_label c ["FinalGrade"])) (columns t) /\
    ~ In "FinalGrade" features /\
    (forall c, In c drop_cols \/ In c nominal_cols -> ~ In c features) /\
    (forall c, In c categorical_cols \/ In c numeric_inputs \/ In c derived_cols ->
               In c features) /\
    (forall q g, nth_error st q = Some g -> nth_error st' q = Some g).
Proof.
  intros Hr H.
  destruct (train_final_model_inv _ _ _ _ _ _ Hr H)
    as (junk & t & y & ES & Et & Gy & Fm & -> & ->).
  destruct (encode_none_columns f t Et) as (P1 & P2 & P3).
  exists t, y.
  split; [now apply (preprocess_returns_iff _ _ _ _ _ Hr)|].
  split.
  { destruct (encode_inv _ _ _ Et) as (f2 & f4 & Hf & ->).
    apply df_getitem_Ok. apply df_getitem_Ok in Gy.
    now rewrite <- (encode_features_untouched f f2 f4 "FinalGrade" Hf). }
  split; [exact Fm|]. split; [apply columns_drop|].
  rewrite columns_drop. split; [|split; [|split]].
  - intros J. apply filter_In in J. destruct J as [_ J]. discriminate J.
  - intros c I J. apply filter_In in J. destruct J as [J _].
    destruct (P1 c J) as [(_ & D & N)|[K|K]]; [tauto| |];
      destruct I as [I|I]; simpl in I;
      repeat (destruct I as [<-|I];
              [first [discriminate K | simpl in K; intuition discriminate]|]);
      contradiction.
  - intros c I. apply filter_In.
    assert (K : forallb (fun c => negb (has_label c (["FinalGrade"] ++ drop_cols ++
                                                      nominal_cols)))
                        (categorical_cols ++ numeric_inputs ++ derived_cols) = true)
      by reflexivity.
    rewrite forallb_forall in K.
    assert (Ic : In c (categorical_cols ++ numeric_inputs ++ derived_cols))
      by (rewrite !in_app_iff; tauto).
    specialize (K c Ic). apply negb_true_iff in K.
    unfold has_label in K. rewrite !existsb_app in K.
    apply orb_false_iff in K. destruct K as [K1 K].
    apply orb_false_iff in K. destruct K as [K2 K3].
    split; [|unfold has_label; now rewrite K1].
    destruct I as [I|[I|I]]; [| |now apply P3];
      (apply P2; [apply (encode_reads f t None Et); unfold encoder_inputs;
                  rewrite !in_app_iff; tauto
                 | now apply has_label_false | now apply has_label_false]).
  - intros q g Hq. rewrite nth_error_app1; [rewrite nth_error_app1; [exact Hq|]|].
    + apply nth_error_Some. congruence.
    + rewrite length_app. assert (q < List.length st) by (apply nth_error_Some; congruence).
      lia.
Qed.


(** ** The saved feature list as a schema *)

Lemma fill_missing_present (tc : list string) (f : DataFrame) :
  (forall c, In c tc -> In c (columns f)) -> fill_missing tc f = f.
Proof.
  induction tc as [|c tc IH]; intros H; [reflexivity|].
  rewrite fill_missing_cons.
  rewrite (proj2 (has_label_In c (columns f))) by (apply H; now left).
  cbn [negb]. apply IH. intros; apply H; now right.
Qed.

Lemma select_cols_sub (sub cs : list (string * Series)) :
  NoDup (map fst cs) -> (forall p, In p sub -> In p cs) ->
  select_cols (map fst sub) cs = Ok sub.
Proof.
  intros ND. unfold select_cols. induction sub as [|p sub IH]; intros H; [reflexivity|].
  cbn [map mapR]. rewrite (filter_label_single p cs ND) by (apply H; now left).
  cbn [rbind]. specialize (IH (fun q I => H q (or_intror I))).
  destruct (mapR _ (map fst sub)) as [ms|]; [|discriminate].
  cbn [rbind] in *. injection IH as <-. reflexivity.
Qed.

(** Training and serving agree.  Encoding the training table with the
    feature list [train_final_model] saved gives back the very table the
    model was fit on: the same columns in the same order, with the raw
    FinalGrade column as the target.  The training table has clean
    labels. *)
Theorem saved_features_reproduce_the_training_table
        (st st' st2 : store) (r r2 : ref) (f : DataFrame)
        (model : predictor) (features : list string) :
  nth_error st r = Some f ->
  clean_labels f = true ->
  train_final_model r st = Ok ((model, features), st') ->
  nth_error st2 r2 = Some f ->
  exists X y,
    preprocess_returns r2 (Some features) st2 X /\
    columns X = features /\
    df_getitem "FinalGrade" f = Ok y /\
    fit_model X y = Ok model.
Proof.
  intros Hr C H Hr2.
  destruct (train_final_model_inv _ _ _ _ _ _ Hr H)
    as (junk & t & y & ES & Et & Gy & Fm & -> & _).
  destruct (encode_inv _ _ _ Et) as (f2 & f4 & Hf & ->).
  pose proof (encode_features_NoDup _ _ _ C Hf) as ND.
  exists (df_drop ["FinalGrade"] f4), y.
  split; [|split; [reflexivity|split; [|exact Fm]]].
  - apply (preprocess_returns_iff _ _ _ _ _ Hr2).
    unfold encode, encode_steps. rewrite Hf. cbn [rbind fst snd].
    rewrite fill_missing_present.
    + unfold df_select, columns, df_drop. cbn [cols nrows].
      rewrite select_cols_sub; [reflexivity | exact ND|].
      intros p I. now apply filter_In in I.
    + intros c I. rewrite columns_drop in I. now apply filter_In in I.
  - apply df_getitem_Ok. apply df_getitem_Ok in Gy.
    now rewrite <- (encode_features_untouched f f2 f4 "FinalGrade" Hf).
Qed.

(** ** [create_ideal_profile], applied twice and to similar tables *)

Lemma df_setitem_noop (c : string) (s : Series) (f : DataFrame) :
  In c (columns f) -> (forall t, In (c, t) (cols f) -> t = s) -> df_setitem c s f = f.
Proof.
  intros I H. unfold df_setitem. rewrite (proj2 (has_label_In _ _) I).
  destruct f as [n cs]. cbn [nrows cols] in *. f_equal.
  rewrite <- (map_id cs) at 2. apply map_ext_in. intros [c' t] J. cbn [fst].
  destruct (String.eqb c c') eqn:E; [|reflexivity].
  apply String.eqb_eq in E. subst c'. f_equal. symmetry. now apply H.
Qed.

Lemma setitem_idealize (c : string) (k : Z) (f : DataFrame) :
  In (c, k) habit_overrides ->
  df_setitem_scalar c (VInt k) (idealize f) = idealize f.
Proof.
  intros I. unfold df_setitem_scalar. rewrite nrows_idealize.
  pose proof (cols_named_idealize_override c k f I) as E.
  apply df_setitem_noop.
  - apply present_nonempty. rewrite E. apply repeat_max1_nonempty.
  - intros t J. apply In_cols_named in J. rewrite E in J.
    now apply repeat_spec in J.
Qed.

Lemma idealize_idem (f : DataFrame) : idealize (idealize f) = idealize f.
Proof.
  unfold idealize at 1.
  rewrite (setitem_idealize "studytime" 4%Z) by (simpl; tauto).
  rewrite (setitem_idealize "Dalc" 1%Z) by (simpl; tauto).
  rewrite (setitem_idealize "Walc" 1%Z) by (simpl; tauto).
  rewrite (setitem_idealize "absences" 0%Z) by (simpl; tauto).
  now rewrite (setitem_idealize "goout" 2%Z) by (simpl; tauto).
Qed.

(** Idealizing an idealized table changes nothing: a second call of
    [create_ideal_profile], on the table the first call returned, returns
    a new table equal to it. *)
Theorem create_ideal_profile_twice
        (st st1 st2 : store) (r r1 r2 : ref) (f : DataFrame) :
  nth_error st r = Some f ->
  create_ideal_profile r st = Ok (r1, st1) ->
  create_ideal_profile r1 st1 = Ok (r2, st2) ->
  r2 <> r1 /\
  exists g, nth_error st1 r1 = Some g /\ nth_error st2 r1 = Some g /\
            nth_error st2 r2 = Some g.
Proof.
  intros Hr H1 H2.
  rewrite (create_ideal_profile_run _ _ _ Hr) in H1. injection H1 as <- <-.
  rewrite (create_ideal_profile_run _ _ (idealize f)) in H2 by apply nth_error_snoc.
  injection H2 as <- <-. rewrite idealize_idem.
  split; [rewrite length_app; simpl; lia|].
  exists (idealize f). split; [apply nth_error_snoc|]. split.
  - apply nth_error_snoc_old, nth_error_snoc.
  - apply nth_error_snoc.
Qed.

Lemma setitem_cols (c : string) (s : Series) (f : DataFrame) :
  cols (df_setitem c s f) =
  map (fun p => if String.eqb c (fst p) then (fst p, s) else p) (cols f) ++
  (if has_label c (columns f) then [] else [(c, s)]).
Proof.
  unfold df_setitem. destruct (has_label c (columns f)) eqn:E; cbn [cols].
  - now rewrite app_nil_r.
  - apply has_label_false in E. now rewrite replace_absent.
Qed.

Lemma setitem_agree (P : string -> bool) (c : string) (s : Series) (f g : DataFrame) :
  Forall2 (fun p q => fst p = fst q /\ (P (fst p) = false -> snd p = snd q))
          (cols f) (cols g) ->
  Forall2 (fun p q => fst p = fst q /\
                      (P (fst p) && negb (String.eqb c (fst p)) = false -> snd p = snd q))
          (cols (df_setitem c s f)) (cols (df_setitem c s g)).
Proof.
  intros H. rewrite !setitem_cols.
  assert (L : columns f = columns g).
  { unfold columns. induction H as [|p q l l' [E _] _ IH]; simpl; [reflexivity|].
    now rewrite E, IH. }
  rewrite L. apply Forall2_app.
  - clear L. induction H as [|p q l l' [E A] _ IH]; simpl; constructor; [|exact IH].
    rewrite <- E. destruct (String.eqb c (fst p)) eqn:B; cbn [fst snd].
    + split; reflexivity.
    + split; [exact E|]. rewrite B. cbn [negb]. rewrite andb_true_r. exact A.
  - destruct (has_label c (columns g)); repeat constructor.
Qed.

(** The idealized copies of two tables that differ in their habit columns
    only are equal. *)
Lemma idealize_same_but_habits (f g : DataFrame) :
  same_but_habits f g -> idealize f = idealize g.
Proof.
  intros [N H].
  assert (E : cols (idealize f) = cols (idealize g)).
  { unfold idealize, df_setitem_scalar. rewrite !nrows_setitem, N.
    pose proof H as H0.
    apply (setitem_agree is_override "studytime" (repeat (VInt 4) (nrows g))) in H0.
    apply (setitem_agree
             (fun x => is_override x && negb (String.eqb "studytime" x))
             "Dalc" (repeat (VInt 1) (nrows g))) in H0.
    apply (setitem_agree
             (fun x => is_override x && negb (String.eqb "studytime" x) &&
                       negb (String.eqb "Dalc" x))
             "Walc" (repeat (VInt 1) (nrows g))) in H0.
    apply (setitem_agree
             (fun x => is_override x && negb (String.eqb "studytime" x) &&
                       negb (String.eqb "Dalc" x) && negb (String.eqb "Walc" x))
             "absences" (repeat (VInt 0) (nrows g))) in H0.
    apply (setitem_agree
             (fun x => is_override x && negb (String.eqb "studytime" x) &&
                       negb (String.eqb "Dalc" x) && negb (String.eqb "Walc" x) &&
                       negb (String.eqb "absences" x))
             "goout" (repeat (VInt 2) (nrows g))) in H0.
    revert H0.
    generalize (cols (df_setitem "goout" (repeat (VInt 2) (nrows g))
                 (df_setitem "absences" (repeat (VInt 0) (nrows g))
                   (df_setitem "Walc" (repeat (VInt 1) (nrows g))
                     (df_setitem "Dalc" (repeat (VInt 1) (nrows g))
                       (df_setitem "studytime" (repeat (VInt 4) (nrows g)) f)))))).
    generalize (cols (df_setitem "goout" (repeat (VInt 2) (nrows g))
                 (df_setitem "absences" (repeat (VInt 0) (nrows g))
                   (df_setitem "Walc" (repeat (VInt 1) (nrows g))
                     (df_setitem "Dalc" (repeat (VInt 1) (nrows g))
                       (df_setitem "studytime" (repeat (VInt 4) (nrows g)) g)))))).
    intros l' l H0. induction H0 as [|p q l l' [A B] _ IH]; [reflexivity|].
    f_equal; [|exact IH]. destruct p as [a x], q as [b y]. cbn [fst snd] in *.
    subst b. f_equal. apply B. unfold is_override, has_label.
    cbn [map fst existsb habit_overrides].
    rewrite (String.eqb_sym "studytime"), (String.eqb_sym "Dalc"),
      (String.eqb_sym "Walc"), (String.eqb_sym "absences"), (String.eqb_sym "goout").
    destruct (String.eqb a "studytime"), (String.eqb a "Dalc"), (String.eqb a "Walc"),
      (String.eqb a "absences"), (String.eqb a "goout"); reflexivity. }
  assert (R : nrows (idealize f) = nrows (idealize g)) by (now rewrite !nrows_idealize).
  destruct (idealize f), (idealize g). cbn [nrows cols] in *. now subst.
Qed.

(** The potential grade does not depend on the habits a student has: two
    tables that differ only in what their studytime, Dalc, Walc, absences
    and goout columns hold get the same Potential_Grade column from the
    same model and feature list. *)
Theorem potential_grade_ignores_actual_habits
        (csv1 csv2 model_path features_path : string) (st1 st2 : store)
        (df1 df2 out1 out2 : DataFrame) :
  read_csv csv1 = Ok df1 ->
  read_csv csv2 = Ok df2 ->
  same_but_habits df1 df2 ->
  dashboard_returns csv1 model_path features_path st1 out1 ->
  dashboard_returns csv2 model_path features_path st2 out2 ->
  exists pg,
    df_getitem "Potential_Grade" out1 = Ok pg /\
    df_getitem "Potential_Grade" out2 = Ok pg.
Proof.
  intros R1 R2 S H1 H2.
  destruct (dashboard_returns_getitem _ _ _ _ _ H1)
    as (d1 & m1 & c1 & X1 & p1 & ? & ? & ? & ? & ? &
        A1 & B1 & C1 & D1 & E1 & _ & _ & _ & _ & _ & _ & _ & G1 & _).
  destruct (dashboard_returns_getitem _ _ _ _ _ H2)
    as (d2 & m2 & c2 & X2 & p2 & ? & ? & ? & ? & ? &
        A2 & B2 & C2 & D2 & E2 & _ & _ & _ & _ & _ & _ & _ & G2 & _).
  assert (d1 = df1) by congruence. assert (d2 = df2) by congruence. subst d1 d2.
  assert (m2 = m1) by congruence. assert (c2 = c1) by congruence. subst m2 c2.
  rewrite (idealize_same_but_habits df1 df2 S) in D1.
  assert (X2 = X1) by congruence. subst X2.
  assert (p2 = p1) by congruence. subst p2.
  exists (rounded p1). now split.
Qed.

(** ** The result table *)

Lemma select_passthrough_cols (df sel : DataFrame) :
  NoDup (columns df) -> df_select passthrough df = Ok sel ->
  exists sid fn ln fg,
    df_getitem "StudentID" df = Ok sid /\
    df_getitem "FirstName" df = Ok fn /\
    df_getitem "FamilyName" df = Ok ln /\
    df_getitem "FinalGrade" df = Ok fg /\
    sel = mkDF (nrows df) [("StudentID", sid); ("FirstName", fn);
                           ("FamilyName", ln); ("FinalGrade", fg)].
Proof.
  intros ND H.
  assert (P : forall c, In c passthrough -> exists s, df_getitem c df = Ok s).
  { intros c I.
    assert (J : In c (columns df)).
    { destruct (in_dec string_dec c (columns df)) as [Y|N]; [exact Y|].
      unfold df_select in H.
      destruct (select_cols_KeyError passthrough (cols df) c I N) as [e He].
      rewrite He in H. discriminate. }
    destruct (cols_named_NoDup c df ND J) as [s Hs]. exists s. now apply df_getitem_Ok. }
  destruct (P "StudentID") as [sid G1]; [simpl; tauto|].
  destruct (P "FirstName") as [fn G2]; [simpl; tauto|].
  destruct (P "FamilyName") as [ln G3]; [simpl; tauto|].
  destruct (P "FinalGrade") as [fg G4]; [simpl; tauto|].
  exists sid, fn, ln, fg. repeat (split; [assumption|]).
  assert (E : select_cols (map fst [("StudentID", sid); ("FirstName", fn);
                                    ("FamilyName", ln); ("FinalGrade", fg)])
                          (cols df) =
              Ok [("StudentID", sid); ("FirstName", fn);
                  ("FamilyName", ln); ("FinalGrade", fg)]).
  { apply select_cols_sub; [exact ND|].
    intros p [<-|[<-|[<-|[<-|[]]]]]; now apply In_of_df_getitem. }
  unfold df_select in H. change passthrough with
    (map fst [("StudentID", sid); ("FirstName", fn); ("FamilyName", ln); ("FinalGrade", fg)])
    in H.
  rewrite E in H. cbn [rbind] in H. now injection H as <-.
Qed.

(** The table [generate_dashboard_data] returns for a csv table with
    distinct labels has exactly seven columns: the four passthrough
    columns, then Potential_Grade, Improvability_Margin and
    Complexity_Score, each to be had by its label. *)
Theorem dashboard_has_seven_columns
        (csv_path model_path features_path : string) (st : store) (df out : DataFrame) :
  dashboard_returns csv_path model_path features_path st out ->
  read_csv csv_path = Ok df ->
  NoDup (columns df) ->
  columns out = dashboard_columns /\
  nrows out = nrows df /\
  forall c, In c dashboard_columns -> exists s, df_getitem c out = Ok s.
Proof.
  intros H R ND.
  destruct (dashboard_returns_columns _ _ _ _ _ H)
    as (df' & model & fc & X & preds & sel & fg & margin & im & ratio & score &
        R' & _ & _ & _ & _ & Hsel & _ & _ & _ & _ & _ & _ & ->).
  assert (df' = df) by congruence. subst df'.
  destruct (select_passthrough_cols df sel ND Hsel) as (sid & fn & ln & fg' & _ & _ & _ & _ & ->).
  split; [reflexivity|]. split; [reflexivity|].
  intros c I. simpl in I.
  repeat (destruct I as [<-|I]; [eexists; reflexivity|]). contradiction.
Qed.

(** The complexity score is at most 1 in every row with a numeric grade,
    and it is at least 0 exactly when the potential grade exceeds the
    actual grade by 20 or less; so it is within 0 and 1 when the actual
    grade is not negative and the potential grade is at most 20.  Nothing
    in the code keeps it above 0 otherwise. *)
Theorem complexity_score_range
        (csv_path model_path features_path : string) (st : store) (out : DataFrame) :
  dashboard_returns csv_path model_path features_path st out ->
  exists fg pg cs,
    df_getitem "FinalGrade" out = Ok fg /\
    df_getitem "Potential_Grade" out = Ok pg /\
    df_getitem "Complexity_Score" out = Ok cs /\
    forall i a p,
      nth_error fg i = Some a -> is_number a = true ->
      nth_error pg i = Some (VFloat p) ->
      exists c, nth_error cs i = Some (VFloat c) /\
                (c <= 1)%Q /\
                ((0 <= c)%Q <-> (p - num_of a <= 20)%Q) /\
                ((0 <= num_of a)%Q -> (p <= 20)%Q -> (0 <= c)%Q).
Proof.
  intros H.
  destruct (dashboard_returns_getitem _ _ _ _ _ H)
    as (df & model & fc & X & preds & fg & margin & im & ratio & score &
        _ & _ & _ & _ & _ & _ & _ & Hfg & Hm & Him & Hr & Hs & Gpg & Gim & Gcs & Gpass).
  exists fg, (rounded preds), score.
  split.
  { apply df_getitem_Ok. rewrite Gpass by (simpl; tauto). now apply df_getitem_Ok. }
  split; [exact Gpg|]. split; [exact Gcs|].
  intros i a p Ha Hnum Hp.
  destruct (zipR_nth _ _ _ _ _ _ _ Hm Hp Ha) as (d & Hd & Hdi).
  destruct (mapR_nth _ _ _ _ _ Him Hdi) as (m & Hcl & Hmi).
  destruct (margin_cell p a d m Hnum Hd Hcl) as (q & -> & Hq & Hpos).
  destruct (mapR_nth _ _ _ _ _ Hr Hmi) as (r & Hdiv & Hri).
  destruct (mapR_nth _ _ _ _ _ Hs Hri) as (c & Hsub & Hci).
  destruct (complexity_cell q r c Hdiv Hsub) as (y & -> & Hy).
  exists y. split; [exact Hci|].
  unfold Qdiv in Hy. change (/ 20)%Q with (1 # 20)%Q in Hy.
  assert (Iff : (0 <= y)%Q <-> (p - num_of a <= 20)%Q).
  { split; intros K.
    - assert (K' : (q <= 20)%Q) by (rewrite Hy in K; lra).
      rewrite Hq in K'. eapply Qle_trans; [apply Q.le_max_r | exact K'].
    - assert (K' : (q <= 20)%Q).
      { rewrite Hq. apply Q.max_lub; [discriminate | exact K]. }
      rewrite Hy. lra. }
  split; [rewrite Hy; lra|]. split; [exact Iff|].
  intros A P. apply Iff. lra.
Qed.


(** ** Errors of the pipeline *)

(** A model that returns another number of predictions than the table has
    rows makes the pipeline raise [ValueError]: the predictions are never
    truncated or padded. *)
Theorem wrong_prediction_count_raises_ValueError
        (csv_path model_path features_path : string) (st : store)
        (df X : DataFrame) (model : predictor) (feature_cols : list string)
        (preds : list Q) :
  read_csv csv_path = Ok df ->
  load_model model_path = Ok model ->
  load_features features_path = Ok feature_cols ->
  encode (idealize df) (Some feature_cols) = Ok X ->
  model X = Ok preds ->
  (forall c, In c passthrough -> In c (columns df)) ->
  List.length preds <> nrows df ->
  generate_dashboard_data csv_path model_path features_path st = Raise ValueError.
Proof.
  intros R Lm Lf HX Hp Pin Len.
  pose proof (generate_dashboard_data_run st _ _ _ _ _ _ R Lm Lf) as Run.
  assert (E : dashboard_of df model feature_cols = Raise ValueError).
  { unfold dashboard_of. rewrite HX. cbn [rbind]. rewrite Hp. cbn [rbind].
    destruct (select_cols_total passthrough (cols df) Pin) as [cs Hcs].
    unfold df_select. rewrite Hcs. cbn [rbind].
    unfold dashboard, df_setitem_array. cbn [nrows]. rewrite length_map.
    apply Nat.eqb_neq in Len. rewrite Len. cbn [rbind]. reflexivity. }
  now rewrite E in Run.
Qed.


(** The pipeline works on copies.  When it returns, every table that
    existed before is unchanged, the table it loaded is stored as it was
    loaded, and the result is another, newer table. *)
Theorem generate_dashboard_data_leaves_objects_unchanged
        (csv_path model_path features_path : string) (st st' : store) (r : ref)
        (df : DataFrame) :
  generate_dashboard_data csv_path model_path features_path st = Ok (r, st') ->
  read_csv csv_path = Ok df ->
  nth_error st r = None /\
  (forall q g, nth_error st q = Some g -> nth_error st' q = Some g) /\
  nth_error st' (List.length st) = Some df /\
  List.length st < r /\
  exists out, nth_error st' r = Some out.
Proof.
  intros H R.
  destruct (generate_dashboard_data_loads _ _ _ _ _ H) as (df' & model & fc & R' & Lm & Lf).
  assert (df' = df) by congruence. subst df'.
  pose proof (generate_dashboard_data_run st _ _ _ _ _ _ R Lm Lf) as Run.
  destruct (dashboard_of df model fc) as [out|e]; [|congruence].
  destruct Run as [junk Run]. rewrite Run in H. injection H as <- <-.
  split; [apply nth_error_None; lia|]. split; [|split; [|split]].
  - intros q g Hq. rewrite nth_error_app1; [exact Hq|].
    apply nth_error_Some. congruence.
  - rewrite nth_error_app2 by lia. now rewrite Nat.sub_diag.
  - lia.
  - exists out. apply nth_error_last_of.
Qed.

(** ** The endpoints *)

(** The three statements the two endpoints share: run the pipeline,
    rename, convert to records. *)
Lemma records_run (csv_path : string) (st : store) :
  (df_results <- generate_dashboard_data csv_path MODEL_PATH FEATS_PATH ;;
   df_results <- pd_rename df_results frontend_names ;;
   pd_to_dict df_results) st =
  match generate_dashboard_data csv_path MODEL_PATH FEATS_PATH st with
  | Ok (r, st') =>
      match nth_error st' r with
      | Some out =>
          Ok (to_dict_records (df_rename frontend_names out),
              st' ++ [df_rename frontend_names out])
      | None => Raise ValueError
      end
  | Raise e => Raise e
  end.
Proof.
  unfold bind at 1.
  destruct (generate_dashboard_data csv_path MODEL_PATH FEATS_PATH st) as [[r st']|e];
    [|reflexivity].
  unfold pd_rename, pd_to_dict. run_prims.
  destruct (nth_error st' r) as [out|]; [|reflexivity].
  now rewrite nth_error_snoc.
Qed.

Lemma records_of_dashboard (csv_path : string) (st : store) (out : DataFrame) :
  dashboard_returns csv_path MODEL_PATH FEATS_PATH st out ->
  exists st',
    (df_results <- generate_dashboard_data csv_path MODEL_PATH FEATS_PATH ;;
     df_results <- pd_rename df_results frontend_names ;;
     pd_to_dict df_results) st =
    Ok (to_dict_records (df_rename frontend_names out), st').
Proof.
  intros (r & st' & H & Hout). rewrite records_run, H, Hout. now eexists.
Qed.

Lemma records_inv (csv_path : string) (st st' : store) (recs : list record) :
  (df_results <- generate_dashboard_data csv_path MODEL_PATH FEATS_PATH ;;
   df_results <- pd_rename df_results frontend_names ;;
   pd_to_dict df_results) st = Ok (recs, st') ->
  exists out,
    dashboard_returns csv_path MODEL_PATH FEATS_PATH st out /\
    recs = to_dict_records (df_rename frontend_names out).
Proof.
  rewrite records_run. intros H.
  destruct (generate_dashboard_data csv_path MODEL_PATH FEATS_PATH st)
    as [[r st1]|e] eqn:G; [|discriminate].
  destruct (nth_error st1 r) as [out|] eqn:Hout; [|discriminate].
  injection H as <- _. exists out. split; [|reflexivity]. now exists r, st1.
Qed.

(** The records of the result table of a csv table with distinct
    labels. *)
Lemma dashboard_records (csv_path : string) (st : store) (df out : DataFrame) :
  dashboard_returns csv_path MODEL_PATH FEATS_PATH st out ->
  read_csv csv_path = Ok df ->
  NoDup (columns df) ->
  exists sid fn ln fg pg im cs,
    df_getitem "StudentID" df = Ok sid /\
    df_getitem "FirstName" df = Ok fn /\
    df_getitem "FamilyName" df = Ok ln /\
    df_getitem "FinalGrade" df = Ok fg /\
    df_getitem "Potential_Grade" out = Ok pg /\
    df_getitem "Improvability_Margin" out = Ok im /\
    df_getitem "Complexity_Score" out = Ok cs /\
    to_dict_records (df_rename frontend_names out) =
    map (student_record sid fn ln fg pg im cs) (seq 0 (nrows df)).
Proof.
  intros H R ND.
  destruct (dashboard_returns_columns _ _ _ _ _ H)
    as (df' & model & fc & X & preds & sel & fg0 & margin & im & ratio & score &
        R' & _ & _ & _ & _ & Hsel & _ & _ & _ & _ & _ & _ & ->).
  assert (df' = df) by congruence. subst df'.
  destruct (select_passthrough_cols df sel ND Hsel)
    as (sid & fn & ln & fg & G1 & G2 & G3 & G4 & ->).
  exists sid, fn, ln, fg, (rounded preds), im, score.
  repeat (split; [first [assumption | reflexivity]|]).
  unfold to_dict_records. cbn [nrows df_rename]. apply map_ext. intros i. reflexivity.
Qed.

(** What [get_student_priorities] answers with.  For a csv table with
    distinct labels it is one record per row of the table, in order,
    with the seven keys StudentID, FirstName, FamilyName, ActualGrade,
    PotentialGrade, Improvability_Margin and ComplexityScore: the
    identity and grade of the row, and the three cells the pipeline
    computed for it.  Improvability_Margin keeps its name. *)
Theorem get_student_priorities_records
        (fs : list string) (st : store) (recs : list record) (df : DataFrame) :
  get_student_priorities fs st = Returns recs ->
  read_csv DATA_PATH = Ok df ->
  NoDup (columns df) ->
  exists out sid fn ln fg pg im cs,
    dashboard_returns DATA_PATH MODEL_PATH FEATS_PATH st out /\
    df_getitem "StudentID" df = Ok sid /\
    df_getitem "FirstName" df = Ok fn /\
    df_getitem "FamilyName" df = Ok ln /\
    df_getitem "FinalGrade" df = Ok fg /\
    df_getitem "Potential_Grade" out = Ok pg /\
    df_getitem "Improvability_Margin" out = Ok im /\
    df_getitem "Complexity_Score" out = Ok cs /\
    recs = map (student_record sid fn ln fg pg im cs) (seq 0 (nrows df)) /\
    List.length recs = nrows df /\
    (forall rec, In rec recs -> map fst rec = record_keys).
Proof.
  unfold get_student_priorities. intros H R ND.
  destruct (negb (path_exists MODEL_PATH fs) || negb (path_exists DATA_PATH fs));
    [discriminate|].
  destruct ((df_results <- generate_dashboard_data DATA_PATH MODEL_PATH FEATS_PATH ;;
             df_results <- pd_rename df_results frontend_names ;;
             pd_to_dict df_results) st) as [[recs' st']|e] eqn:Run; [|discriminate].
  injection H as ->.
  destruct (records_inv _ _ _ _ Run) as (out & Hout & ->).
  destruct (dashboard_records _ _ _ _ Hout R ND)
    as (sid & fn & ln & fg & pg & im & cs & G1 & G2 & G3 & G4 & G5 & G6 & G7 & E).
  exists out, sid, fn, ln, fg, pg, im, cs.
  repeat (split; [assumption|]). rewrite E.
  split; [now rewrite length_map, length_seq|].
  intros rec I. apply in_map_iff in I. destruct I as (i & <- & _). reflexivity.
Qed.



Lemma filter_all {A} (P : A -> bool) (l : list A) :
  (forall x, In x l -> P x = true) -> filter P l = l.
Proof.
  induction l as [|a l IH]; intros H; simpl; [reflexivity|].
  rewrite (H a) by now left. f_equal. apply IH. intros; apply H; now right.
Qed.

Lemma os_remove_fresh (p : string) (fs : list string) :
  ~ In p fs -> os_remove p (p :: fs) = fs.
Proof.
  intros N. unfold os_remove. simpl. rewrite String.eqb_refl. simpl.
  apply filter_all. intros x I. apply negb_true_iff. apply String.eqb_neq.
  intros ->. contradiction.
Qed.

(** The temporary file of [simulate_batch].  Once the request body is a
    frame and its csv file is written, the file is removed whether the
    pipeline returns or raises: the files that exist at the end are those
    of the beginning, and the answer is the records of the result table
    or an HTTP error 500.  When writing the csv file raises, the
    exception is not handled and the file the system created stays. *)
Theorem simulate_batch_temporary_file
        (tmp_name : string) (data : list record) (fs : list string) (st : store)
        (df_input : DataFrame) :
  ~ In tmp_name fs ->
  path_exists MODEL_PATH fs = true ->
  pd_DataFrame data = Ok df_input ->
  (forall e, to_csv df_input tmp_name = Raise e ->
             simulate_batch tmp_name data fs st = (Unhandled e, tmp_name :: fs)) /\
  (forall u, to_csv df_input tmp_name = Ok u ->
     snd (simulate_batch tmp_name data fs st) = fs /\
     (forall out,
        dashboard_returns tmp_name MODEL_PATH FEATS_PATH st out ->
        fst (simulate_batch tmp_name data fs st) =
        Returns (to_dict_records (df_rename frontend_names out))) /\
     (forall e,
        generate_dashboard_data tmp_name MODEL_PATH FEATS_PATH st = Raise e ->
        fst (simulate_batch tmp_name data fs st) =
        HTTPException 500 (String.append "Processing failed: " (exn_str e)))).
Proof.
  intros Fresh FM Hd. unfold simulate_batch. rewrite FM, Hd. cbn [negb].
  split.
  - intros e He. now rewrite He.
  - intros u Hu. rewrite Hu. cbv zeta. cbn [fst snd].
    assert (Ex : path_exists tmp_name (tmp_name :: fs) = true).
    { unfold path_exists, has_label. simpl. now rewrite String.eqb_refl. }
    rewrite Ex, (os_remove_fresh _ _ Fresh).
    split; [reflexivity|]. split.
    + intros out Hout. destruct (records_of_dashboard _ _ _ Hout) as [st' E].
      now rewrite E.
    + intros e He. now rewrite records_run, He.
Qed.

End Pipeline.

(** * Concrete runs *)

(** ** The properties on the example tables *)

Ltac run_example := vm_compute; reflexivity.

Ltac sample_returns :=
  unfold dashboard_returns; eexists _, _; split; run_example.

(** C2, on a table the code can receive.  [collision_table] has a raw
    column labelled Mjob_teacher and an Mjob column with the levels
    at_home and teacher, so its encoded table carries the label
    Mjob_teacher twice.  Reconciled with the one-column schema
    [Mjob_teacher], it comes back with two columns: the table does not
    have [len(S)] columns. *)
Theorem reconciliation_keeps_both_columns_of_a_repeated_label :
  exists r st X,
    preprocess_data sample_number_str 0 (Some ["Mjob_teacher"]) [collision_table] =
      Ok (r, st) /\
    nth_error st r = Some X /\
    columns X = ["Mjob_teacher"; "Mjob_teacher"] /\
    List.length (columns X) <> List.length ["Mjob_teacher"].
Proof.
  eexists _, _, _. split; [run_example|]. split; [run_example|].
  split; [reflexivity | discriminate].
Qed.

(** C1 fails on the code: a sex that is neither F nor M does not make
    [preprocess_data] fail; the record is encoded, with NaN for its sex. *)
Lemma invalid_category_is_encoded :
  df_getitem "sex" invalid_category_table = Ok [VStr "X"] /\
  map_lookup SEX_MAPPING (VStr "X") = None /\
  exists r st X,
    preprocess_data sample_number_str 0 None [invalid_category_table] = Ok (r, st) /\
    nth_error st r = Some X /\
    df_getitem "sex" X = Ok [VNaN].
Proof.
  split; [reflexivity|]. split; [reflexivity|].
  eexists _, _, _. split; [run_example|]. split; run_example.
Qed.

Lemma out_of_domain_category_is_encoded_as_nan_witness :
  nth_error [invalid_category_table] 0 = Some invalid_category_table /\
  encodable invalid_category_table = true /\
  exists r' st' X,
    preprocess_data sample_number_str 0 None [invalid_category_table] = Ok (r', st') /\
    nth_error st' r' = Some X /\
    forall c d s,
      In (c, d) category_mappings ->
      df_getitem c invalid_category_table = Ok s ->
      (@None (list string) = None \/ exists l, None = Some l /\ In c l) ->
      cols_named c X <> [] /\
      forall s', In s' (cols_named c X) ->
                 s' = series_map d s /\
                 (forall i v, nth_error s i = Some v -> map_lookup d v = None ->
                              nth_error s' i = Some VNaN) /\
                 (forall i v n, nth_error s i = Some v -> map_lookup d v = Some n ->
                                exists w, nth_error s' i = Some w /\
                                          is_number w = true /\
                                          (num_of w == inject_Z n)%Q).
Proof.
  split; [reflexivity|]. split; [reflexivity|].
  apply (out_of_domain_category_is_encoded_as_nan sample_number_str
           [invalid_category_table] 0 invalid_category_table None); reflexivity.
Defined.



Lemma create_ideal_profile_copy_and_override_witness :
  nth_error [sample_table] 0 = Some sample_table /\
  exists (r' : ref) (st' : store) (f' : DataFrame),
    create_ideal_profile 0 [sample_table] = Ok (r', st') /\
    nth_error [sample_table] r' = None /\
    (forall q g, nth_error [sample_table] q = Some g -> nth_error st' q = Some g) /\
    nth_error st' r' = Some f' /\
    nrows f' = nrows sample_table /\
    (forall c k, In (c, k) habit_overrides ->
                 cols_named c f' <> [] /\
                 Forall (eq (repeat (VInt k) (nrows sample_table))) (cols_named c f')) /\
    (forall c, is_override c = false -> cols_named c f' = cols_named c sample_table) /\
    filter (fun p => negb (is_override (fst p))) (cols f') =
    filter (fun p => negb (is_override (fst p))) (cols sample_table).
Proof.
  split; [reflexivity|].
  apply (create_ideal_profile_copy_and_override [sample_table] 0 sample_table).
  reflexivity.
Defined.

(** C6 fails on the code: the output of the first application lacks the
    raw columns, and the second application raises. *)
Lemma encoding_the_encoded_table_raises :
  exists r1 st1 X,
    preprocess_data sample_number_str 0 (Some sample_features) [sample_table] =
      Ok (r1, st1) /\
    nth_error st1 r1 = Some X /\
    preprocess_data sample_number_str r1 (Some sample_features) st1 =
      Raise (KeyError "schoolsup").
Proof.
  eexists _, _, _. split; [run_example|]. split; run_example.
Qed.

Lemma encode_is_repeatable_but_not_reapplicable_witness :
  nth_error [sample_table] 0 = Some sample_table /\
  In "Mjob" encoder_inputs /\ ~ In "Mjob" sample_features /\
  exists r' st',
    preprocess_data sample_number_str 0 (Some sample_features) [sample_table] =
      Ok (r', st') /\
    exists e, preprocess_data sample_number_str r' (Some sample_features) st' = Raise e.
Proof.
  split; [reflexivity|].
  split; [vm_compute; tauto|].
  split; [vm_compute; intuition discriminate|].
  eexists _, _. split; [run_example|].
  eapply (proj2 (encode_is_repeatable_but_not_reapplicable sample_number_str
                   sample_table sample_features) [sample_table] 0 _ _ "Mjob").
  - reflexivity.
  - run_example.
  - vm_compute. tauto.
  - vm_compute. intuition discriminate.
Defined.

Lemma end_to_end_example_witness :
  sample_read_csv "data.csv" = Ok sample_table /\
  sample_load_model "model.pkl" = Ok sample_model /\
  sample_load_features "model_features.pkl" = Ok sample_features /\
  nrows sample_table = 1 /\
  df_getitem "studytime" sample_table = Ok [VInt 1] /\
  df_getitem "Dalc" sample_table = Ok [VInt 3] /\
  df_getitem "Walc" sample_table = Ok [VInt 4] /\
  df_getitem "absences" sample_table = Ok [VInt 10] /\
  df_getitem "goout" sample_table = Ok [VInt 5] /\
  df_getitem "Medu" sample_table = Ok [VInt 2] /\
  df_getitem "Fedu" sample_table = Ok [VInt 2] /\
  df_getitem "FinalGrade" sample_table = Ok [VInt 10] /\
  In "StudentID" (columns sample_table) /\
  In "FirstName" (columns sample_table) /\
  In "FamilyName" (columns sample_table) /\
  encode sample_number_str (idealize sample_table) (Some sample_features) =
    Ok sample_encoded /\
  sample_model sample_encoded = Ok [14%Q] /\
  exists out,
    dashboard_returns sample_number_str sample_read_csv sample_load_model
      sample_load_features "data.csv" "model.pkl" "model_features.pkl" [] out /\
    df_getitem "Potential_Grade" out = Ok [VFloat 14%Q] /\
    df_getitem "Improvability_Margin" out = Ok [VFloat 4%Q] /\
    df_getitem "Complexity_Score" out = Ok [VFloat (4 # 5)%Q].
Proof.
  repeat (split; [first [run_example | simpl; tauto]|]).
  apply (end_to_end_example sample_number_str sample_read_csv sample_load_model
           sample_load_features "data.csv" "model.pkl" "model_features.pkl" []
           sample_table sample_model sample_features sample_encoded);
    first [run_example | simpl; tauto].
Defined.

Lemma passthrough_columns_are_the_original_ones_witness :
  dashboard_returns sample_number_str sample_read_csv sample_load_model
    sample_load_features "data.csv" "model.pkl" "model_features.pkl" []
    sample_dashboard /\
  exists df model feature_cols X preds,
    sample_read_csv "data.csv" = Ok df /\
    sample_load_model "model.pkl" = Ok model /\
    sample_load_features "model_features.pkl" = Ok feature_cols /\
    (forall c, In c passthrough -> cols_named c sample_dashboard = cols_named c df) /\
    encode sample_number_str (idealize df) (Some feature_cols) = Ok X /\
    model X = Ok preds /\
    df_getitem "Potential_Grade" sample_dashboard =
      Ok (map (fun p => VFloat (round2 p)) preds).
Proof.
  split; [sample_returns|].
  apply (passthrough_columns_are_the_original_ones sample_number_str sample_read_csv
           sample_load_model sample_load_features
           "data.csv" "model.pkl" "model_features.pkl" [] sample_dashboard).
  sample_returns.
Defined.



(** ** The further properties on the example tables *)

Ltac encoded_returns :=
  unfold preprocess_returns; eexists _, _; split; run_example.

Lemma sample_table_NoDup : NoDup (columns sample_table).
Proof. apply distinct_NoDup. run_example. Qed.

Lemma preprocess_data_does_not_mutate_its_argument_witness :
  nth_error [sample_table] 0 = Some sample_table /\
  exists r' st',
    preprocess_data sample_number_str 0 (Some sample_features) [sample_table] =
      Ok (r', st') /\
    nth_error [sample_table] r' = None /\
    r' <> 0 /\
    nth_error st' 0 = Some sample_table /\
    (forall q g, nth_error [sample_table] q = Some g -> nth_error st' q = Some g) /\
    exists X, nth_error st' r' = Some X /\
              encode sample_number_str sample_table (Some sample_features) = Ok X.
Proof.
  split; [run_example|]. eexists _, _. split; [run_example|].
  apply (preprocess_data_does_not_mutate_its_argument sample_number_str
           [sample_table] _ 0 _ sample_table (Some sample_features));
    [run_example | run_example].
Defined.

Lemma identifier_columns_are_optional_and_ignored_witness :
  nth_error [sample_table] 0 = Some sample_table /\
  nth_error [anonymous_table] 0 = Some anonymous_table /\
  df_drop drop_cols sample_table = df_drop drop_cols anonymous_table /\
  (forall X, preprocess_returns sample_number_str 0 None [sample_table] X <->
             preprocess_returns sample_number_str 0 None [anonymous_table] X) /\
  (forall e, preprocess_data sample_number_str 0 None [sample_table] = Raise e <->
             preprocess_data sample_number_str 0 None [anonymous_table] = Raise e).
Proof.
  split; [run_example|]. split; [run_example|]. split; [run_example|].
  apply (identifier_columns_are_optional_and_ignored sample_number_str
           [sample_table] [anonymous_table] 0 0 sample_table anonymous_table None);
    run_example.
Defined.

Lemma encoded_columns_are_raw_indicator_or_derived_witness :
  nth_error [sample_table] 0 = Some sample_table /\
  exists X,
    preprocess_returns sample_number_str 0 None [sample_table] X /\
    (forall c, In c (columns X) ->
               (In c (columns sample_table) /\ ~ In c drop_cols /\ ~ In c nominal_cols) \/
               is_indicator_label nominal_cols c = true \/ In c derived_cols) /\
    (forall c, In c (columns sample_table) -> ~ In c drop_cols -> ~ In c nominal_cols ->
               In c (columns X)) /\
    (forall c, In c derived_cols -> In c (columns X)) /\
    (forall c, In c drop_cols -> ~ In c (columns X)) /\
    (forall c, In c nominal_cols -> ~ In c (columns X)).
Proof.
  split; [run_example|]. eexists. split; [encoded_returns|].
  apply (encoded_columns_are_raw_indicator_or_derived sample_number_str
           [sample_table] 0 sample_table _); [run_example | encoded_returns].
Defined.


Lemma derived_features_row_by_row_witness :
  nth_error [sample_table] 0 = Some sample_table /\
  NoDup (columns sample_table) /\
  exists X,
    preprocess_returns sample_number_str 0 None [sample_table] X /\
    exists medu fedu dalc walc goout total adiff alc party,
      df_getitem "Medu" sample_table = Ok medu /\
      df_getitem "Fedu" sample_table = Ok fedu /\
      df_getitem "Dalc" sample_table = Ok dalc /\
      df_getitem "Walc" sample_table = Ok walc /\
      df_getitem "goout" sample_table = Ok goout /\
      df_getitem "Parent_Edu_Total" X = Ok total /\
      df_getitem "Parent_Edu_Diff" X = Ok adiff /\
      df_getitem "Total_Alcohol" X = Ok alc /\
      df_getitem "Party_Life" X = Ok party /\
      (forall i m p,
         nth_error medu i = Some (VInt m) -> nth_error fedu i = Some (VInt p) ->
         (Z.abs m <= 1000000)%Z -> (Z.abs p <= 1000000)%Z ->
         nth_error total i = Some (VInt (m + p)) /\
         nth_error adiff i = Some (VInt (Z.abs (m - p)))) /\
      (forall i d w g,
         nth_error dalc i = Some (VInt d) -> nth_error walc i = Some (VInt w) ->
         nth_error goout i = Some (VInt g) ->
         (Z.abs d <= 1000000)%Z -> (Z.abs w <= 1000000)%Z -> (Z.abs g <= 1000000)%Z ->
         nth_error alc i = Some (VInt (d + 2 * w)) /\
         nth_error party i = Some (VInt ((d + 2 * w) * (d + 2 * w) * g))) /\
      (forall i d w g,
         nth_error dalc i = Some d -> nth_error walc i = Some w ->
         nth_error goout i = Some g ->
         d = VNaN \/ w = VNaN ->
         nth_error alc i = Some VNaN /\ nth_error party i = Some VNaN).
Proof.
  split; [run_example|]. split; [exact sample_table_NoDup|].
  eexists. split; [encoded_returns|].
  apply (derived_features_row_by_row sample_number_str [sample_table] 0 sample_table _);
    [run_example | encoded_returns | exact sample_table_NoDup].
Defined.

Lemma reconciled_table_has_exactly_the_schema_witness :
  nth_error [sample_table] 0 = Some sample_table /\
  clean_labels sample_table = true /\
  exists X,
    preprocess_returns sample_number_str 0 (Some sample_features) [sample_table] X /\
    columns X = sample_features /\
    nrows X = nrows sample_table /\
    exists T,
      preprocess_returns sample_number_str 0 None [sample_table] T /\
      forall c s, In (c, s) (cols X) ->
                  In (c, s) (cols T) \/
                  (~ In c (columns T) /\ s = repeat (VInt 0) (nrows sample_table)).
Proof.
  split; [run_example|]. split; [run_example|].
  eexists. split; [encoded_returns|].
  apply (reconciled_table_has_exactly_the_schema sample_number_str
           [sample_table] 0 sample_table _ sample_features);
    [run_example | run_example | encoded_returns].
Defined.

Lemma indicator_columns_of_a_nominal_field_witness :
  nth_error [two_students] 0 = Some two_students /\
  clean_labels two_students = true /\
  In "Mjob" nominal_cols /\
  df_getitem "Mjob" two_students = Ok [VStr "at_home"; VStr "teacher"] /\
  exists X,
    preprocess_returns sample_number_str 0 None [two_students] X /\
    (forall l, In (VStr l) (tl (levels [VStr "at_home"; VStr "teacher"])) ->
       exists col,
         df_getitem (String.append "Mjob" (String.append "_" l)) X = Ok col /\
         forall i v, nth_error [VStr "at_home"; VStr "teacher"] i = Some v ->
                     (v = VStr l -> nth_error col i = Some (VInt 1)) /\
                     (v <> VStr l -> nth_error col i = Some (VInt 0))) /\
    (forall x, In (String.append "Mjob" (String.append "_" x)) (columns X) ->
               In (VStr x) (tl (levels [VStr "at_home"; VStr "teacher"]))) /\
    (forall l, In (VStr l) (levels [VStr "at_home"; VStr "teacher"]) <->
               In (VStr l) [VStr "at_home"; VStr "teacher"]) /\
    (forall l, In (VStr l) (tl (levels [VStr "at_home"; VStr "teacher"])) ->
               exists l0, hd_error (levels [VStr "at_home"; VStr "teacher"]) =
                          Some (VStr l0) /\
                          String.compare l0 l = Lt).
Proof.
  split; [run_example|]. split; [run_example|]. split; [simpl; tauto|].
  split; [run_example|].
  eexists. split; [encoded_returns|].
  apply (indicator_columns_of_a_nominal_field sample_number_str
           [two_students] 0 two_students _ "Mjob" [VStr "at_home"; VStr "teacher"]);
    [run_example | run_example | encoded_returns | simpl; tauto | run_example].
Defined.

Lemma train_final_model_fits_the_encoded_table_witness :
  nth_error [sample_table] 0 = Some sample_table /\
  exists model features st',
    train_final_model sample_number_str sample_fit 0 [sample_table] =
      Ok ((model, features), st') /\
    exists t y,
      preprocess_returns sample_number_str 0 None [sample_table] t /\
      df_getitem "FinalGrade" sample_table = Ok y /\
      sample_fit (df_drop ["FinalGrade"] t) y = Ok model /\
      features = filter (fun c => negb (has_label c ["FinalGrade"])) (columns t) /\
      ~ In "FinalGrade" features /\
      (forall c, In c drop_cols \/ In c nominal_cols -> ~ In c features) /\
      (forall c, In c categorical_cols \/ In c numeric_inputs \/ In c derived_cols ->
                 In c features) /\
      (forall q g, nth_error [sample_table] q = Some g -> nth_error st' q = Some g).
Proof.
  split; [run_example|]. eexists _, _, _. split; [run_example|].
  apply (train_final_model_fits_the_encoded_table sample_number_str sample_fit
           [sample_table] _ 0 sample_table _ _); [run_example | run_example].
Defined.


Lemma saved_features_reproduce_the_training_table_witness :
  nth_error [sample_table] 0 = Some sample_table /\
  clean_labels sample_table = true /\
  exists model features st',
    train_final_model sample_number_str sample_fit 0 [sample_table] =
      Ok ((model, features), st') /\
    exists X y,
      preprocess_returns sample_number_str 0 (Some features) [sample_table] X /\
      columns X = features /\
      df_getitem "FinalGrade" sample_table = Ok y /\
      sample_fit X y = Ok model.
Proof.
  split; [run_example|]. split; [run_example|].
  eexists _, _, _. split; [run_example|].
  eapply (saved_features_reproduce_the_training_table sample_number_str sample_fit
            [sample_table] _ [sample_table] 0 0 sample_table _ _);
    [run_example | run_example | run_example | run_example].
Defined.

Lemma create_ideal_profile_twice_witness :
  nth_error [sample_table] 0 = Some sample_table /\
  exists r1 st1 r2 st2,
    create_ideal_profile 0 [sample_table] = Ok (r1, st1) /\
    create_ideal_profile r1 st1 = Ok (r2, st2) /\
    r2 <> r1 /\
    exists g, nth_error st1 r1 = Some g /\ nth_error st2 r1 = Some g /\
              nth_error st2 r2 = Some g.
Proof.
  split; [run_example|]. eexists _, _, _, _.
  split; [run_example|]. split; [run_example|].
  apply (create_ideal_profile_twice [sample_table] _ _ 0 _ _ sample_table);
    [run_example | run_example | run_example].
Defined.

Lemma potential_grade_ignores_actual_habits_witness :
  two_files "data.csv" = Ok sample_table /\
  two_files "other.csv" = Ok other_habits_table /\
  same_but_habits sample_table other_habits_table /\
  dashboard_returns sample_number_str two_files sample_load_model sample_load_features
    "data.csv" "model.pkl" "model_features.pkl" [] sample_dashboard /\
  dashboard_returns sample_number_str two_files sample_load_model sample_load_features
    "other.csv" "model.pkl" "model_features.pkl" [] sample_dashboard /\
  exists pg,
    df_getitem "Potential_Grade" sample_dashboard = Ok pg /\
    df_getitem "Potential_Grade" sample_dashboard = Ok pg.
Proof.
  assert (S : same_but_habits sample_table other_habits_table).
  { split; [run_example|]. vm_compute.
    repeat (constructor;
            [split; [reflexivity
                    | intros H; first [reflexivity | discriminate H]]|]).
    constructor. }
  split; [run_example|]. split; [run_example|]. split; [exact S|].
  split; [sample_returns|]. split; [sample_returns|].
  apply (potential_grade_ignores_actual_habits sample_number_str two_files
           sample_load_model sample_load_features
           "data.csv" "other.csv" "model.pkl" "model_features.pkl" [] []
           sample_table other_habits_table sample_dashboard sample_dashboard);
    [run_example | run_example | exact S | sample_returns | sample_returns].
Defined.

Lemma dashboard_has_seven_columns_witness :
  dashboard_returns sample_number_str sample_read_csv sample_load_model
    sample_load_features "data.csv" "model.pkl" "model_features.pkl" []
    sample_dashboard /\
  sample_read_csv "data.csv" = Ok sample_table /\
  NoDup (columns sample_table) /\
  columns sample_dashboard = dashboard_columns /\
  nrows sample_dashboard = nrows sample_table /\
  forall c, In c dashboard_columns -> exists s, df_getitem c sample_dashboard = Ok s.
Proof.
  split; [sample_returns|]. split; [run_example|]. split; [exact sample_table_NoDup|].
  apply (dashboard_has_seven_columns sample_number_str sample_read_csv
           sample_load_model sample_load_features
           "data.csv" "model.pkl" "model_features.pkl" [] sample_table sample_dashboard);
    [sample_returns | run_example | exact sample_table_NoDup].
Defined.

Lemma complexity_score_range_witness :
  dashboard_returns sample_number_str sample_read_csv sample_load_model
    sample_load_features "data.csv" "model.pkl" "model_features.pkl" []
    sample_dashboard /\
  exists fg pg cs,
    df_getitem "FinalGrade" sample_dashboard = Ok fg /\
    df_getitem "Potential_Grade" sample_dashboard = Ok pg /\
    df_getitem "Complexity_Score" sample_dashboard = Ok cs /\
    forall i a p,
      nth_error fg i = Some a -> is_number a = true ->
      nth_error pg i = Some (VFloat p) ->
      exists c, nth_error cs i = Some (VFloat c) /\
                (c <= 1)%Q /\
                ((0 <= c)%Q <-> (p - num_of a <= 20)%Q) /\
                ((0 <= num_of a)%Q -> (p <= 20)%Q -> (0 <= c)%Q).
Proof.
  split; [sample_returns|].
  apply (complexity_score_range sample_number_str sample_read_csv
           sample_load_model sample_load_features
           "data.csv" "model.pkl" "model_features.pkl" [] sample_dashboard).
  sample_returns.
Defined.


Lemma wrong_prediction_count_raises_ValueError_witness :
  sample_read_csv "data.csv" = Ok sample_table /\
  short_load_model "model.pkl" = Ok short_model /\
  sample_load_features "model_features.pkl" = Ok sample_features /\
  encode sample_number_str (idealize sample_table) (Some sample_features) =
    Ok sample_encoded /\
  short_model sample_encoded = Ok [] /\
  (forall c, In c passthrough -> In c (columns sample_table)) /\
  List.length (@nil Q) <> nrows sample_table /\
  generate_dashboard_data sample_number_str sample_read_csv short_load_model
    sample_load_features "data.csv" "model.pkl" "model_features.pkl" [] =
  Raise ValueError.
Proof.
  assert (P : forall c, In c passthrough -> In c (columns sample_table)).
  { intros c I. simpl in I. repeat (destruct I as [<-|I]; [simpl; tauto|]).
    contradiction. }
  split; [run_example|]. split; [run_example|]. split; [run_example|].
  split; [run_example|]. split; [run_example|]. split; [exact P|].
  split; [discriminate|].
  apply (wrong_prediction_count_raises_ValueError sample_number_str sample_read_csv
           short_load_model sample_load_features
           "data.csv" "model.pkl" "model_features.pkl" []
           sample_table sample_encoded short_model sample_features []);
    [run_example | run_example | run_example | run_example | run_example | exact P
    | discriminate].
Defined.


Lemma generate_dashboard_data_leaves_objects_unchanged_witness :
  sample_read_csv "data.csv" = Ok sample_table /\
  exists r st',
    generate_dashboard_data sample_number_str sample_read_csv sample_load_model
      sample_load_features "data.csv" "model.pkl" "model_features.pkl"
      [sample_encoded] = Ok (r, st') /\
    nth_error [sample_encoded] r = None /\
    (forall q g, nth_error [sample_encoded] q = Some g -> nth_error st' q = Some g) /\
    nth_error st' (List.length [sample_encoded]) = Some sample_table /\
    List.length [sample_encoded] < r /\
    exists out, nth_error st' r = Some out.
Proof.
  split; [run_example|]. eexists _, _. split; [run_example|].
  apply (generate_dashboard_data_leaves_objects_unchanged sample_number_str
           sample_read_csv sample_load_model sample_load_features
           "data.csv" "model.pkl" "model_features.pkl" [sample_encoded] _ _
           sample_table); [run_example | run_example].
Defined.

Lemma get_student_priorities_records_witness :
  get_student_priorities sample_number_str sample_read_csv sample_load_model
    sample_load_features "data.csv" "model.pkl" "model_features.pkl"
    sample_exn_str sample_files [] = Returns sample_records /\
  sample_read_csv "data.csv" = Ok sample_table /\
  NoDup (columns sample_table) /\
  exists out sid fn ln fg pg im cs,
    dashboard_returns sample_number_str sample_read_csv sample_load_model
      sample_load_features "data.csv" "model.pkl" "model_features.pkl" [] out /\
    df_getitem "StudentID" sample_table = Ok sid /\
    df_getitem "FirstName" sample_table = Ok fn /\
    df_getitem "FamilyName" sample_table = Ok ln /\
    df_getitem "FinalGrade" sample_table = Ok fg /\
    df_getitem "Potential_Grade" out = Ok pg /\
    df_getitem "Improvability_Margin" out = Ok im /\
    df_getitem "Complexity_Score" out = Ok cs /\
    sample_records =
      map (student_record sid fn ln fg pg im cs) (seq 0 (nrows sample_table)) /\
    List.length sample_records = nrows sample_table /\
    (forall rec, In rec sample_records -> map fst rec = record_keys).
Proof.
  split; [run_example|]. split; [run_example|]. split; [exact sample_table_NoDup|].
  apply (get_student_priorities_records sample_number_str sample_read_csv
           sample_load_model sample_load_features
           "data.csv" "model.pkl" "model_features.pkl" sample_exn_str
           sample_files [] sample_records sample_table);
    [run_example | run_example | exact sample_table_NoDup].
Defined.


Lemma simulate_batch_temporary_file_witness :
  ~ In "upload.csv" sample_files /\
  path_exists "model.pkl" sample_files = true /\
  sample_pd_DataFrame sample_request = Ok sample_table /\
  (forall e, sample_to_csv sample_table "upload.csv" = Raise e ->
             simulate_batch sample_number_str sample_read_csv sample_load_model
               sample_load_features "model.pkl" "model_features.pkl" sample_exn_str
               sample_pd_DataFrame sample_to_csv "upload.csv" sample_request
               sample_files [] =
             (Unhandled e, "upload.csv" :: sample_files)) /\
  (forall u, sample_to_csv sample_table "upload.csv" = Ok u ->
     snd (simulate_batch sample_number_str sample_read_csv sample_load_model
            sample_load_features "model.pkl" "model_features.pkl" sample_exn_str
            sample_pd_DataFrame sample_to_csv "upload.csv" sample_request
            sample_files []) = sample_files /\
     (forall out,
        dashboard_returns sample_number_str sample_read_csv sample_load_model
          sample_load_features "upload.csv" "model.pkl" "model_features.pkl" [] out ->
        fst (simulate_batch sample_number_str sample_read_csv sample_load_model
               sample_load_features "model.pkl" "model_features.pkl" sample_exn_str
               sample_pd_DataFrame sample_to_csv "upload.csv" sample_request
               sample_files []) =
        Returns (to_dict_records (df_rename frontend_names out))) /\
     (forall e,
        generate_dashboard_data sample_number_str sample_read_csv sample_load_model
          sample_load_features "upload.csv" "model.pkl" "model_features.pkl" [] =
        Raise e ->
        fst (simulate_batch sample_number_str sample_read_csv sample_load_model
               sample_load_features "model.pkl" "model_features.pkl" sample_exn_str
               sample_pd_DataFrame sample_to_csv "upload.csv" sample_request
               sample_files []) =
        HTTPException 500 (String.append "Processing failed: " (sample_exn_str e)))).
Proof.
  assert (N : ~ In "upload.csv" sample_files) by (vm_compute; intuition discriminate).
  split; [exact N|]. split; [run_example|]. split; [run_example|].
  apply (simulate_batch_temporary_file sample_number_str sample_read_csv
           sample_load_model sample_load_features "model.pkl" "model_features.pkl"
           sample_exn_str sample_pd_DataFrame sample_to_csv "upload.csv" sample_request
           sample_files [] sample_table); [exact N | run_example | run_example].
Defined.
